(** * transferSkinCluster: the weight codec of the Maya command

    A shallow embedding of [transferSkinCluster.py]: the command entry point
    [doIt], the exporter [writeWeights] and the importer [readWeights] with its
    range-merging loop.  Maya is not modelled; every call the plug-in makes
    into Maya or the file system is recorded as a [call] in a trace, and what
    Maya answers is read from a [scene]. *)

From Stdlib Require Import ZArith List String Ascii Bool Lia.
From Stdlib Require Import Sorted Permutation.
From Stdlib Require Decimal DecimalString.
Import ListNotations.

#[local] Open Scope Z_scope.

Declare Scope py_scope.
Delimit Scope py_scope with py.
#[local] Open Scope py_scope.

Infix "^^" := String.append (at level 60, right associativity) : py_scope.

(** ** Python built-ins used by the plug-in *)

Module Py.

(** [s.split(sep)] for a one-character separator: never the empty list. *)
Fixpoint split (sep : ascii) (s : string) : list string :=
  match s with
  | EmptyString => [EmptyString]
  | String c s' =>
      if Ascii.eqb c sep then EmptyString :: split sep s'
      else match split sep s' with
           | [] => [String c EmptyString]
           | t :: ts => String c t :: ts
           end
  end.

(** [sep.join(l)]. *)
Definition join (sep : string) (l : list string) : string := String.concat sep l.

(** [str(n)] for an int. *)
Definition str_int (n : Z) : string := DecimalString.NilZero.string_of_int (Z.to_int n).

(** [range(a, b)]. *)
Definition range (a b : Z) : list Z :=
  map (fun k => a + Z.of_nat k) (seq 0 (Z.to_nat (b - a))).

(** [l[::-1]], [l.pop(0)] (the list that is left) and [l.append(x)]. *)
Definition reversed {A} (l : list A) : list A := List.rev l.
Definition pop0 {A} (l : list A) : option (list A) :=
  match l with [] => None | _ :: tl => Some tl end.
Definition append {A} (l : list A) (x : A) : list A := l ++ [x].

(** The character a line never holds once the file is split. *)
Definition newline : ascii := "010"%char.
Definition space : ascii := " "%char.

(** [c not in s]. *)
Fixpoint lacks (c : ascii) (s : string) : bool :=
  match s with
  | EmptyString => true
  | String a s' => negb (Ascii.eqb a c) && lacks c s'
  end.

End Py.

(** ** Record lines

    A record line is the text of the Python list
    [[geoIter.index(), infls[j], j, value[j]]]; the reader gets the list back
    with [eval] and uses items 0, 2 and 3. *)

Record lineArray (float : Type) : Type := LineArray {
  item0 : Z;        (* vertex index *)
  item1 : string;   (* influence name *)
  item2 : Z;        (* influence index *)
  item3 : float     (* weight *)
}.
Arguments LineArray {float} _ _ _ _.
Arguments item0 {float} _.
Arguments item1 {float} _.
Arguments item2 {float} _.
Arguments item3 {float} _.

(** The part of Python the plug-in relies on and this development leaves
    open: floats, their comparison with 0, [str] on a float and on a record
    list, and [eval] on a line of the file.  [eval] is read on the lines a
    weight file can hold: a line that is a record list evaluates to its four
    items, and on any other line [eval] raises ([None]); lines that evaluate
    to a value of another shape are outside the model. *)
Class Python : Type := {
  float : Type;
  gt0 : float -> bool;
  str_float : float -> string;
  str_list : lineArray float -> string;
  eval : string -> option (lineArray float)
}.

(** ** Calls into Maya and the file system *)

(** One entry of the weight string of a [setAttr]: the literal ["0 "] that
    fills a dropped influence, or ["{} ".format(str(weights[3]))]. *)
Inductive weightToken (float : Type) : Type :=
| Zero
| Val (w : float).
Arguments Zero {float}.
Arguments Val {float} w.

(** The two MEL command strings [readWeights] executes. *)
Inductive melCommand (float : Type) : Type :=
| SetAttrSize (n : Z)
    (* setAttr -s n ".wl" *)
| SetAttrWeights (setCount compIndex inflStart : Z) (rangeString : option Z)
                 (weightString : list (weightToken float)).
    (* setAttr -s setCount ".weightList[compIndex].weights[inflStart:inflEnd]" w.. *)
Arguments SetAttrSize {float} n.
Arguments SetAttrWeights {float} _ _ _ _ _.

Inductive call (float : Type) : Type :=
| displayError (msg : string)
| displayInfo (msg : string)
| setResult (text : string)
| select (objects : list string)
| forceNormalizeWeights (node : string)
| makedirs (path : string)
| openWrite (fileName : string)
| write (fileName content : string)
| newSkinCluster (flags : string)
| rename (node newName : string)
| setAttrNw (node : string) (value : Z)
| skinPercentPrune (node shape : string)
| executeCommand (cmd : melCommand float).
Arguments displayError {float} msg.
Arguments displayInfo {float} msg.
Arguments setResult {float} text.
Arguments select {float} objects.
Arguments forceNormalizeWeights {float} node.
Arguments makedirs {float} path.
Arguments openWrite {float} fileName.
Arguments write {float} fileName content.
Arguments newSkinCluster {float} flags.
Arguments rename {float} node newName.
Arguments setAttrNw {float} node value.
Arguments skinPercentPrune {float} node shape.
Arguments executeCommand {float} cmd.

(** What a Python function hands back: [1], [-1], the empty tuple of
    [return()], or [None] when the body runs off its end. *)
Inductive pyValue : Type :=
| PyInt (n : Z)
| PyUnit
| PyNone.

(** ** Control flow: a trace of calls, and how the statement ended *)

Inductive flow (A : Type) : Type :=
| Next (a : A)           (* fell through to the next statement *)
| Return (v : pyValue)   (* a [return] was executed *)
| Raise.                 (* an exception escaped *)
Arguments Next {A} a.
Arguments Return {A} v.
Arguments Raise {A}.

Definition M (float A : Type) : Type := (list (call float) * flow A)%type.

Definition ret {float A} (a : A) : M float A := ([], Next a).

Definition bind {float A B} (m : M float A) (f : A -> M float B) : M float B :=
  match m with
  | (t, Next a) => let (t', r) := f a in (t ++ t', r)
  | (t, Return v) => (t, Return v)
  | (t, Raise) => (t, Raise)
  end.

Notation "x <- m ;; k" := (bind m (fun x => k))
  (at level 61, m at next level, right associativity) : py_scope.
Notation "m ;; k" := (bind m (fun _ => k))
  (at level 61, right associativity) : py_scope.

Definition do {float} (c : call float) : M float unit := ([c], Next tt).
Definition return_ {float A} (v : pyValue) : M float A := ([], Return v).
Definition raise {float A} : M float A := ([], Raise).

(** [try: m except: handler]. *)
Definition try {float A} (m handler : M float A) : M float A :=
  match m with
  | (t, Raise) => let (t', r) := handler in (t ++ t', r)
  | other => other
  end.

(** [l[i]] for [0 <= i]: IndexError past the end. *)
Definition index {float A} (l : list A) (i : nat) : M float A :=
  match nth_error l i with
  | Some a => ret a
  | None => raise
  end.

(** A value that may raise. *)
Definition orRaise {float A} (o : option A) : M float A :=
  match o with
  | Some a => ret a
  | None => raise
  end.

(** The function call itself: the value of [f(...)]. *)
Definition result {float} (body : M float unit) : list (call float) * option pyValue :=
  match body with
  | (t, Next _) => (t, Some PyNone)
  | (t, Return v) => (t, Some v)
  | (t, Raise) => (t, None)
  end.

(** A call [f(...)] inside another body: its [return] value becomes the
    value of the call expression. *)
Definition callFunction {float} (body : M float unit) : M float pyValue :=
  match body with
  | (t, Next _) => (t, Next PyNone)
  | (t, Return v) => (t, Next v)
  | (t, Raise) => (t, Raise)
  end.

(** ** What Maya and the file system answer *)

Record scene (float : Type) : Type := Scene {
  (* export *)
  selection : list string;                 (* cmds.ls(selection=True, flatten=True) *)
  nodeType : string -> string;             (* cmds.nodeType(node) *)
  influence : string -> list string;       (* cmds.skinCluster(node, query=True, influence=True) *)
  geometry : string -> list string;        (* cmds.skinCluster(node, query=True, geometry=True) *)
  normalizeWeights : string -> Z;          (* getAttr .normalizeWeights *)
  maxInfluences : string -> Z;             (* getAttr .maxInfluences *)
  dropoff : string -> float;               (* getAttr .dropoff, [0][0] *)
  skinWeights : list (list float);         (* getWeights per component, in geoIter order *)
  normalizedWeights : list (list float);   (* the same after forceNormalizeWeights *)
  writable : string -> bool;               (* open(fileName, "w") succeeds *)
  pathExists : string -> bool;             (* os.path.exists *)
  creatable : string -> bool;              (* os.makedirs succeeds *)
  (* import *)
  files : string -> option string;         (* open(fileName, "r").read() *)
  selectable : list string -> bool;        (* cmds.select(objects, replace=True) succeeds *)
  listHistory : string -> list string;     (* nodeType of every node of listHistory(shape) *)
  version : Z;                             (* getApplicationVersionAsFloat() *)
  createdName : string;                    (* newSkinCluster ...[0] *)
  nw : Z;                                  (* getAttr .nw of the cluster just created *)
  (* command *)
  elapsed : string                         (* "{:.2f}".format(doneTime) *)
}.
Arguments selection {float} _.
Arguments nodeType {float} _ _.
Arguments influence {float} _ _.
Arguments geometry {float} _ _.
Arguments normalizeWeights {float} _ _.
Arguments maxInfluences {float} _ _.
Arguments dropoff {float} _ _.
Arguments skinWeights {float} _.
Arguments normalizedWeights {float} _.
Arguments writable {float} _ _.
Arguments pathExists {float} _ _.
Arguments creatable {float} _ _.
Arguments files {float} _ _.
Arguments selectable {float} _ _.
Arguments listHistory {float} _ _.
Arguments version {float} _.
Arguments createdName {float} _.
Arguments nw {float} _.
Arguments elapsed {float} _.

(** The flags of one invocation: [isFlagSet] is [Some], [flagArgument...]
    its content. *)
Record args : Type := Args {
  helpFlag : bool;
  modeFlag : option Z;
  orderFlag : option Z;
  exclusiveFlag : option Z;
  fileFlag : option string
}.

Definition kPluginCmdName : string := "transferSkinCluster".

Definition nl : string := String Py.newline EmptyString.

Definition helpText : string :=
  nl ^^ " Description: The command exports and imports the selected skinCluster to/from a file."
  ^^ nl
  ^^ nl ^^ " Flags: transferSkinCluster -h    -help          <n/a>       this message"
  ^^ nl ^^ "                            -m    -mode          <int>       write (default=0) or read (1)"
  ^^ nl ^^ "                            -ro   -reverseOrder  <int>       from file (default=0) or reversed (1)"
  ^^ nl ^^ "                            -f    -file          <string>    the file name for the skinCluster weight data"
  ^^ nl ^^ "                            -ex   -exclusive     <int>       stores the weight for each influence to a separate file"
  ^^ nl
  ^^ nl ^^ " Usage:   Execute the command with the following arguments:"
  ^^ nl ^^ " Execute: transferSkinCluster -m <mode> -f <file name>;".

(** ** The plug-in *)

Section Plugin.

Context {py : Python}.
Variable sc : scene float.

(** *** writeWeights, single file (lines 169-203) *)

(** [for j in range(0, len(infls))]: one record for a weight above zero.
    [None] is the IndexError of [value[j]]. *)
Fixpoint inflLoop (index : Z) (infls : list string) (value : list float)
                  (js : list nat) : option (list (lineArray float)) :=
  match js with
  | [] => Some []
  | j :: js' =>
      match nth_error value j, nth_error infls j with
      | Some w, Some name =>
          match inflLoop index infls value js' with
          | Some rest =>
              if gt0 w then Some (LineArray index name (Z.of_nat j) w :: rest)
              else Some rest
          | None => None
          end
      | _, _ => None
      end
  end.

(** [while not geoIter.isDone()]: the components in index order. *)
Fixpoint geoLoop (infls : list string) (index : nat) (rows : list (list float))
  : option (list (lineArray float)) :=
  match rows with
  | [] => Some []
  | value :: rows' =>
      match inflLoop (Z.of_nat index) infls value (seq 0 (List.length infls)) with
      | Some recs =>
          match geoLoop infls (S index) rows' with
          | Some rest => Some (recs ++ rest)
          | None => None
          end
      | None => None
      end
  end.

(** The three header lines. *)
Definition headerLines (skinClusterNode : string) (infls : list string) (shape : string)
  : list string :=
  [ Py.join " " (Py.append infls shape);
    skinClusterNode;
    "-nw " ^^ Py.str_int (normalizeWeights sc skinClusterNode)
      ^^ " -mi " ^^ Py.str_int (maxInfluences sc skinClusterNode)
      ^^ " -dr " ^^ str_float (dropoff sc skinClusterNode) ].

(** The list [lines] at the moment it is written. *)
Definition fileLines (skinClusterNode : string) (infls : list string) (shape : string)
                     (recs : list (lineArray float)) : list string :=
  headerLines skinClusterNode infls shape ++ map str_list recs ++ [""%string].

Definition writeSingle (fileName skinClusterNode : string) (infls : list string)
                       (shape : string) : M float unit :=
  try (if writable sc fileName then
         do (openWrite fileName) ;;
         recs <- orRaise (geoLoop infls 0 (skinWeights sc)) ;;
         do (write fileName (Py.join nl (fileLines skinClusterNode infls shape recs)))
       else raise)
      (do (displayError ("A file error has occurred for file: " ^^ fileName)) ;;
       return_ (PyInt (-1))).

(** *** writeWeights, one file per influence (lines 208-236) *)

(** The lines of the file of influence [j]: one per component. *)
Fixpoint exclusiveLines (j : nat) (index : nat) (rows : list (list float))
  : option (list string) :=
  match rows with
  | [] => Some []
  | value :: rows' =>
      match nth_error value j with
      | Some w =>
          match exclusiveLines j (S index) rows' with
          | Some rest => Some ((Py.str_int (Z.of_nat index) ^^ " " ^^ str_float w) :: rest)
          | None => None
          end
      | None => None
      end
  end.

Fixpoint exclusiveLoop (dataPath : string) (infls : list string) (js : list nat) : M float unit :=
  match js with
  | [] => ret tt
  | j :: js' =>
      name <- index infls j ;;
      let fileName := dataPath ^^ "/" ^^ name ^^ ".bsw" in
      try (if writable sc fileName then
             do (openWrite fileName) ;;
             lines <- orRaise (exclusiveLines j 0 (normalizedWeights sc)) ;;
             do (write fileName (Py.join nl (lines ++ [""%string])))
           else raise)
          (do (displayError ("A file error has occurred for file: " ^^ fileName)) ;;
           return_ (PyInt (-1))) ;;
      exclusiveLoop dataPath infls js'
  end.

Definition writeExclusive (fileName skinClusterNode : string) (infls : list string) : M float unit :=
  do (forceNormalizeWeights skinClusterNode) ;;
  let dataPath := fileName ^^ "/" ^^ skinClusterNode in
  (if negb (pathExists sc dataPath) then
     try (if creatable sc dataPath then do (makedirs dataPath) else raise)
         (do (displayError ("Unable to create export directory: " ^^ dataPath)) ;;
          return_ (PyInt (-1)))
   else ret tt) ;;
  exclusiveLoop dataPath infls (seq 0 (List.length infls)).

(** *** writeWeights *)

Definition writeWeights (fileName : string) (exclusive : Z) : M float unit :=
  skinClusterNode <-
    match selection sc with
    | node :: _ => ret node
    | [] => do (displayError "Select a skinCluster node to export.") ;;
            return_ (PyInt (-1))
    end ;;
  (if negb (String.eqb (nodeType sc skinClusterNode) "skinCluster") then
     do (displayError "Selected node is not a skinCluster.") ;; return_ (PyInt (-1))
   else ret tt) ;;
  let infls := influence sc skinClusterNode in
  (if Nat.eqb (List.length infls) 0 then
     do (displayError ("No influence objects found for skinCluster " ^^ skinClusterNode ^^ ".")) ;;
     return_ (PyInt (-1))
   else ret tt) ;;
  shape <- index (geometry sc skinClusterNode) 0 ;;
  (if Nat.eqb (String.length shape) 0 then
     do (displayError "No connected shape nodes found.") ;; return_ (PyInt (-1))
   else ret tt) ;;
  do (select [shape]) ;;
  (if exclusive =? 0 then writeSingle fileName skinClusterNode infls shape
   else writeExclusive fileName skinClusterNode infls) ;;
  return_ (PyInt 1).

(** *** readWeights: applying the weight data (lines 334-392) *)

(** The variables for writing a range of influences. *)
Record rangeState : Type := RangeState {
  weightString : list (weightToken float);
  inflStart : Z;
  inflEnd : Z;
  setCount : Z;
  writeData : Z
}.

Definition initialState : rangeState := RangeState [] (-1) (-1) 0 0.

(** [for x in range(inflEnd + 1, weights[2])]: a zero for every influence
    that was dropped. *)
Definition zeroFill (ws : list (weightToken float)) (count : Z) (xs : list Z)
  : list (weightToken float) * Z :=
  fold_left (fun acc _ => (fst acc ++ [Zero], snd acc + 1)) xs (ws, count).

(** The range a record extends: lines 352-364. *)
Definition extendRange (st : rangeState) (weights : lineArray float)
  : list (weightToken float) * Z * Z * Z :=
  if inflStart st =? -1 then
    (weightString st, item2 weights, item2 weights, setCount st)
  else if inflEnd st =? item2 weights - 1 then
    (weightString st, inflStart st, item2 weights, setCount st)
  else
    let filled := zeroFill (weightString st) (setCount st)
                           (Py.range (inflEnd st + 1) (item2 weights)) in
    (fst filled, inflStart st, item2 weights, snd filled).

(** What is left of an iteration once [weights] and [weightsNext] are read:
    lines 344-392. *)
Definition applyRecord (st : rangeState) (weights weightsNext : lineArray float)
                       (writeData0 : Z) : M float rangeState :=
  let compIndex := item0 weights in
  let '(ws, start, stop, count) := extendRange st weights in
  let ws := ws ++ [Val (item3 weights)] in
  let count := count + 1 in
  let writeData := if negb (compIndex =? item0 weightsNext) then 1 else writeData0 in
  if writeData =? 1 then
    let rangeString := if stop =? start then None else Some stop in
    do (executeCommand (SetAttrWeights count compIndex start rangeString ws)) ;;
    ret (RangeState [] (-1) (-1) 0 0)
  else
    ret (RangeState ws start stop count writeData).

(** One iteration [i] of [for i in range(3, len(weightLines)-1)]. *)
Definition loopBody (weightLines : list string) (i : nat) (st : rangeState)
  : M float rangeState :=
  line <- index weightLines i ;;
  weights <- orRaise (eval line) ;;
  if Nat.ltb i (List.length weightLines - 2)%nat then
    lineNext <- index weightLines (i + 1)%nat ;;
    weightsNext <- orRaise (eval lineNext) ;;
    applyRecord st weights weightsNext (writeData st)
  else
    applyRecord st weights weights 1.

Fixpoint forEach {A S : Type} (body : A -> S -> M float S) (xs : list A) (st : S)
  : M float S :=
  match xs with
  | [] => ret st
  | x :: xs' => st' <- body x st ;; forEach body xs' st'
  end.

Definition applyWeights (weightLines : list string) : M float rangeState :=
  forEach (loopBody weightLines)
          (seq 3 (List.length weightLines - 1 - 3)%nat)
          initialState.

(** *** readWeights *)

(** The names to select: the split first line, turned round when
    [reverseOrder == 1] with the shape put back at the end (lines 279-283). *)
Definition orderObjects (objects : list string) (shape : string) (reverseOrder : Z)
  : option (list string) :=
  if reverseOrder =? 1 then
    match Py.pop0 (Py.reversed objects) with
    | Some popped => Some (Py.append popped shape)
    | None => None
    end
  else Some objects.

(** The history of the shape holds a skinCluster (lines 293-297). *)
Definition alreadyBound (shape : string) : bool :=
  existsb (String.eqb "skinCluster") (listHistory sc shape).

Definition readWeights (fileName : string) (reverseOrder : Z) : M float unit :=
  weightData <-
    match files sc fileName with
    | Some data => ret data
    | None => do (displayError ("A file error has occurred for file: " ^^ fileName)) ;;
              return_ (PyInt (-1))
    end ;;
  let weightLines := Py.split Py.newline weightData in
  objects <- index weightLines 0 ;;
  let items := Py.split Py.space objects in
  shape <- index items (List.length items - 1)%nat ;;
  skinClusterName <- index weightLines 1 ;;
  objects <- orRaise (orderObjects (Py.split Py.space objects) shape reverseOrder) ;;
  try (if selectable sc objects then do (select objects) else raise)
      (return_ PyUnit) ;;
  (if alreadyBound shape then
     do (displayError (shape ^^ " is already connected to a skinCluster.")) ;;
     return_ (PyInt (-1))
   else ret tt) ;;
  let bindMethod := if version sc <? 2013 then "-ih "%string else "-bm 0 "%string in
  flags <- index weightLines 2 ;;
  do (newSkinCluster ("-tsb " ^^ bindMethod ^^ flags ^^ "-omi true -rui false")) ;;
  do (rename (createdName sc) skinClusterName) ;;
  let normalization := nw sc in
  do (setAttrNw skinClusterName 0) ;;
  do (skinPercentPrune skinClusterName shape) ;;
  lastLine <- index weightLines (List.length weightLines - 2)%nat ;;
  weights <- orRaise (eval lastLine) ;;
  let maxIndex := item0 weights in
  do (select [skinClusterName]) ;;
  do (executeCommand (SetAttrSize (maxIndex + 1))) ;;
  applyWeights weightLines ;;
  do (setAttrNw skinClusterName normalization) ;;
  return_ (PyInt 1).

(** *** doIt *)

Definition doIt (a : args) : M float unit :=
  (if helpFlag a then do (setResult helpText) ;; return_ PyUnit else ret tt) ;;
  let modeArg := match modeFlag a with Some m => m | None => 0 end in
  let orderArg := match orderFlag a with Some o => o | None => 0 end in
  let exclusiveArg := match exclusiveFlag a with Some e => e | None => 0 end in
  fileName <-
    match fileFlag a with
    | Some f => ret f
    | None => do (displayError (kPluginCmdName ^^ " needs file name flag.")) ;;
              return_ PyUnit
    end ;;
  (if String.eqb fileName "" then
     do (displayError (kPluginCmdName ^^ " file name is not specified.")) ;;
     return_ PyUnit
   else ret tt) ;;
  (if (modeArg <? 0) || (modeArg >? 1) then
     do (displayError (kPluginCmdName ^^
           " mode needs to be set to either 0 for 'write' or 1 for 'read'.")) ;;
     return_ PyUnit
   else ret tt) ;;
  outcome <-
    (if modeArg =? 0 then
       r <- callFunction (writeWeights fileName exclusiveArg) ;; ret (r, "exported to "%string)
     else
       r <- callFunction (readWeights fileName orderArg) ;; ret (r, "imported from "%string)) ;;
  match fst outcome with
  | PyInt 1 =>
      do (displayInfo ("transferSkinCluster command took " ^^ elapsed sc ^^ " seconds")) ;;
      do (displayInfo ("Weights " ^^ snd outcome ^^ ": " ^^ fileName))
  | _ => ret tt
  end.

End Plugin.

(** ** A reading of Python for files of decimal literals

    Enough of [str] and [eval] to run the plug-in on concrete files: a float
    is the decimal numeral Python prints for it, [0.75] or, with an exponent,
    [1e-05] and [2.5e+16], and [eval] reads a line of the shape
    [[12, 'joint3', 2, 0.75]], raising on anything else. *)

Module Literal.

(** An exponent as Python prints it, always with its sign. *)
Definition str_exponent (e : Decimal.int) : string :=
  match e with
  | Decimal.Pos u => "+" ^^ DecimalString.NilEmpty.string_of_uint u
  | Decimal.Neg u => "-" ^^ DecimalString.NilEmpty.string_of_uint u
  end.

Definition str_float (x : Decimal.decimal) : string :=
  match x with
  | Decimal.Decimal i f =>
      DecimalString.NilZero.string_of_int i ^^ "." ^^ DecimalString.NilEmpty.string_of_uint f
  | Decimal.DecimalExp i Decimal.Nil e =>
      DecimalString.NilZero.string_of_int i ^^ "e" ^^ str_exponent e
  | Decimal.DecimalExp i f e =>
      DecimalString.NilZero.string_of_int i ^^ "." ^^ DecimalString.NilEmpty.string_of_uint f
        ^^ "e" ^^ str_exponent e
  end.

Definition nonzero (u : Decimal.uint) : bool :=
  match Decimal.nzhead u with
  | Decimal.Nil => false
  | _ => true
  end.

Definition gt0 (x : Decimal.decimal) : bool :=
  match x with
  | Decimal.Decimal (Decimal.Pos i) f => nonzero i || nonzero f
  | Decimal.DecimalExp (Decimal.Pos i) f _ => nonzero i || nonzero f
  | _ => false
  end.

Definition str_list (r : lineArray Decimal.decimal) : string :=
  "[" ^^ Py.str_int (item0 r) ^^ ", '" ^^ item1 r ^^ "', "
      ^^ Py.str_int (item2 r) ^^ ", " ^^ str_float (item3 r) ^^ "]".

(** [s] without its last character, when that is [c]. *)
Fixpoint dropLast (c : ascii) (s : string) : option string :=
  match s with
  | EmptyString => None
  | String a EmptyString => if Ascii.eqb a c then Some EmptyString else None
  | String a s' => option_map (String a) (dropLast c s')
  end.

(** The text between an opening and a closing character. *)
Definition between (opening closing : ascii) (s : string) : option string :=
  match s with
  | String a s' => if Ascii.eqb a opening then dropLast closing s' else None
  | EmptyString => None
  end.

Definition lstrip (s : string) : string :=
  match s with
  | String a s' => if Ascii.eqb a Py.space then s' else s
  | EmptyString => s
  end.

Definition int_literal (s : string) : option Z :=
  match s with
  | EmptyString => None
  | _ => option_map Z.of_int (DecimalString.NilZero.int_of_string s)
  end.

(** The digits after [e], with or without a sign. *)
Definition exponent_literal (s : string) : option Decimal.int :=
  match s with
  | String "+"%char digits =>
      option_map Decimal.Pos (DecimalString.NilZero.uint_of_string digits)
  | String "-"%char digits =>
      option_map Decimal.Neg (DecimalString.NilZero.uint_of_string digits)
  | _ => option_map Decimal.Pos (DecimalString.NilZero.uint_of_string s)
  end.

(** The digits before [e]: a whole part and, after a point, a fraction. *)
Definition mantissa_literal (s : string) : option (Decimal.int * Decimal.uint) :=
  match Py.split "."%char s with
  | [whole] =>
      match whole, DecimalString.NilZero.int_of_string whole with
      | String _ _, Some i => Some (i, Decimal.Nil)
      | _, _ => None
      end
  | [whole; fraction] =>
      match whole, DecimalString.NilZero.int_of_string whole, DecimalString.NilEmpty.uint_of_string fraction with
      | String _ _, Some i, Some f => Some (i, f)
      | _, _, _ => None
      end
  | _ => None
  end.

(** A float literal has a point or an exponent: [0.75], [1e-05], [2.5e+16];
    digits alone are an integer. *)
Definition float_literal (s : string) : option Decimal.decimal :=
  match Py.split "e"%char s with
  | [digits] =>
      match Py.split "."%char digits, mantissa_literal digits with
      | [_; _], Some (i, f) => Some (Decimal.Decimal i f)
      | _, _ => None
      end
  | [digits; power] =>
      match mantissa_literal digits, exponent_literal power with
      | Some (i, f), Some e => Some (Decimal.DecimalExp i f e)
      | _, _ => None
      end
  | _ => None
  end.

Definition eval (line : string) : option (lineArray Decimal.decimal) :=
  match between "["%char "]"%char line with
  | Some inner =>
      match Py.split ","%char inner with
      | [a; b; c; d] =>
          match int_literal a, between "'"%char "'"%char (lstrip b),
                int_literal (lstrip c), float_literal (lstrip d) with
          | Some v, Some name, Some j, Some w => Some (LineArray v name j w)
          | _, _, _, _ => None
          end
      | _ => None
      end
  | None => None
  end.

Definition python : Python :=
  Build_Python Decimal.decimal gt0 str_float str_list eval.

(** The float a literal denotes; [0.0] when the text is no literal. *)
Definition lit (s : string) : Decimal.decimal :=
  match float_literal s with
  | Some x => x
  | None => Decimal.Decimal (Decimal.Pos (Decimal.D0 Decimal.Nil)) (Decimal.D0 Decimal.Nil)
  end.

End Literal.

(** ** The loop, read over the record lines

    The same iterations as [applyWeights], by recursion on the lines 3 to
    [len(weightLines)-2] instead of on their indices, and then on the records
    the lines evaluate to. *)

Section Readings.

Context {py : Python}.

(** The lines the loop visits: [weightLines[3 : len(weightLines)-1]]. *)
Definition recordLines (weightLines : list string) : list string :=
  firstn (List.length weightLines - 1 - 3)%nat (skipn 3 weightLines).

Fixpoint runLines (lines : list string) (st : rangeState) : M float rangeState :=
  match lines with
  | [] => ret st
  | line :: rest =>
      weights <- orRaise (eval line) ;;
      st' <- match rest with
             | lineNext :: _ =>
                 weightsNext <- orRaise (eval lineNext) ;;
                 applyRecord st weights weightsNext (writeData st)
             | [] => applyRecord st weights weights 1
             end ;;
      runLines rest st'
  end.

Fixpoint runRecords (recs : list (lineArray float)) (st : rangeState)
  : M float rangeState :=
  match recs with
  | [] => ret st
  | weights :: rest =>
      st' <- match rest with
             | weightsNext :: _ => applyRecord st weights weightsNext (writeData st)
             | [] => applyRecord st weights weights 1
             end ;;
      runRecords rest st'
  end.

(** ** Range commands, as the specification words them *)

Record rangeCommand : Type := RangeCommand {
  vertexIndex : Z;
  influenceIndexStart : Z;
  influenceIndexEnd : Z;
  weights : list (weightToken float)
}.

(** The accumulator over a run: a record of the same vertex extends the run,
    after a zero for every index in between; a record of another vertex, or
    the end of the records, flushes it. *)
Fixpoint specRuns (vertex runStart runEnd : Z) (weightBuffer : list (weightToken float))
                  (recs : list (lineArray float)) : list rangeCommand :=
  match recs with
  | [] => [RangeCommand vertex runStart runEnd weightBuffer]
  | r :: rest =>
      if item0 r =? vertex then
        specRuns vertex runStart (item2 r)
                 (weightBuffer ++ map (fun _ => Zero) (Py.range (runEnd + 1) (item2 r))
                               ++ [Val (item3 r)])
                 rest
      else
        RangeCommand vertex runStart runEnd weightBuffer
          :: specRuns (item0 r) (item2 r) (item2 r) [Val (item3 r)] rest
  end.

Definition decodeSpec (recs : list (lineArray float)) : list rangeCommand :=
  match recs with
  | [] => []
  | r :: rest => specRuns (item0 r) (item2 r) (item2 r) [Val (item3 r)] rest
  end.

(** The [setAttr] that conveys a range command: the single-influence form
    when the range is one index wide. *)
Definition setAttrOf (c : rangeCommand) : melCommand float :=
  SetAttrWeights (Z.of_nat (List.length (weights c))) (vertexIndex c)
                 (influenceIndexStart c)
                 (if influenceIndexEnd c =? influenceIndexStart c then None
                  else Some (influenceIndexEnd c))
                 (weights c).

Definition emit (c : rangeCommand) : call float := executeCommand (setAttrOf c).

(** The (vertex, influence, weight) triples a weight string sets, counted
    from influence [x]; a zero that fills a gap sets none. *)
Fixpoint tokensFrom (vertex x : Z) (ws : list (weightToken float))
  : list (Z * Z * float) :=
  match ws with
  | [] => []
  | Zero :: ws' => tokensFrom vertex (x + 1) ws'
  | Val w :: ws' => (vertex, x, w) :: tokensFrom vertex (x + 1) ws'
  end.

Definition entries (c : rangeCommand) : list (Z * Z * float) :=
  tokensFrom (vertexIndex c) (influenceIndexStart c) (weights c).

(** The triples a call applies to the destination. *)
Definition covered (c : call float) : list (Z * Z * float) :=
  match c with
  | executeCommand (SetAttrWeights _ compIndex start _ ws) => tokensFrom compIndex start ws
  | _ => []
  end.

(** The vertex a call writes weights for. *)
Definition writtenVertex (c : call float) : list Z :=
  match c with
  | executeCommand (SetAttrWeights _ compIndex _ _ _) => [compIndex]
  | _ => []
  end.

Definition triple (r : lineArray float) : Z * Z * float := (item0 r, item2 r, item3 r).

Definition key (r : lineArray float) : Z * Z := (item0 r, item2 r).

(** The vertices of a stream, one for every run of equal neighbours. *)
Fixpoint vertexRuns (vs : list Z) : list Z :=
  match vs with
  | [] => []
  | v :: rest =>
      match rest with
      | v' :: _ => if v =? v' then vertexRuns rest else v :: vertexRuns rest
      | [] => [v]
      end
  end.

(** Ascending by vertex, and by influence index within a vertex. *)
Definition recordLt (r r' : lineArray float) : Prop :=
  item0 r < item0 r' \/ (item0 r = item0 r' /\ item2 r < item2 r').

Definition ascending (recs : list (lineArray float)) : Prop :=
  StronglySorted recordLt recs.

Definition wellFormed (recs : list (lineArray float)) : Prop :=
  ascending recs /\ Forall (fun r => 0 <= item2 r) recs.

(** The weight table the exporter walks: [value[j]] of component [v]. *)
Definition weightAt (rows : list (list float)) (v j : nat) : option float :=
  match nth_error rows v with
  | Some value => nth_error value j
  | None => None
  end.

(** The records of a table, as a comprehension: for every component in
    index order and every influence in index order, the pair with a weight
    above zero. *)
Definition rowRecords (index : Z) (infls : list string) (value : list float)
  : list (lineArray float) :=
  flat_map (fun j => match nth_error value j, nth_error infls j with
                     | Some w, Some name =>
                         if gt0 w then [LineArray index name (Z.of_nat j) w] else []
                     | _, _ => []
                     end)
           (seq 0 (List.length infls)).

Definition tableRecords (infls : list string) (first : nat) (rows : list (list float))
  : list (lineArray float) :=
  flat_map (fun row => rowRecords (Z.of_nat (fst row)) infls (snd row))
           (combine (seq first (List.length rows)) rows).

(** The lines of the file of influence [j], as a comprehension: one line
    for every component, whatever its weight. *)
Definition denseLines (j : nat) (first : nat) (rows : list (list float)) : list string :=
  flat_map (fun row => match nth_error (snd row) j with
                       | Some w => [Py.str_int (Z.of_nat (fst row)) ^^ " " ^^ str_float w]
                       | None => []
                       end)
           (combine (seq first (List.length rows)) rows).

(** The file of an influence, and the files the exclusive export writes:
    one for every influence, under the directory of the cluster. *)
Definition bswFile (dataPath name : string) : string :=
  dataPath ^^ "/" ^^ name ^^ ".bsw".

Definition exclusiveWrites (dataPath : string) (first : nat) (infls : list string)
                           (rows : list (list float)) : list (call float) :=
  flat_map (fun infl =>
              [openWrite (bswFile dataPath (snd infl));
               write (bswFile dataPath (snd infl))
                     (Py.join nl (denseLines (fst infl) 0 rows ++ [""%string]))])
           (combine (seq first (List.length infls)) infls).

(** Every component of the table has a weight for every influence. *)
Definition rectangular (infls : list string) (rows : list (list float)) : Prop :=
  Forall (fun value => (List.length infls <= List.length value)%nat) rows.

(** The calls that change the destination: creating the binding, renaming
    it, switching normalization, pruning, and setting weights. *)
Definition mutating (c : call float) : bool :=
  match c with
  | newSkinCluster _ | rename _ _ | setAttrNw _ _ | skinPercentPrune _ _
  | executeCommand _ => true
  | _ => false
  end.

(** The calls of an import between its checks and the sizing of the weight
    list: the objects are selected, the binding is created from the third
    line, renamed, switched to no normalization and pruned. *)
Definition bindingCalls (sc : scene float) (objects : list string)
                        (skinClusterName flags shape : string) : list (call float) :=
  [ select objects;
    newSkinCluster ("-tsb " ^^ (if version sc <? 2013 then "-ih " else "-bm 0 ")
                      ^^ flags ^^ "-omi true -rui false");
    rename (createdName sc) skinClusterName;
    setAttrNw skinClusterName 0;
    skinPercentPrune skinClusterName shape ].

(** The exports and imports among the calls of a command. *)
Definition transfers (c : call float) : bool :=
  match c with
  | displayError _ | displayInfo _ | setResult _ => false
  | _ => true
  end.

Definition isError (c : call float) : bool :=
  match c with
  | displayError _ => true
  | _ => false
  end.

(** The text of the command string handed to [executeCommand]. *)
Definition dquote : string := String (Ascii.ascii_of_nat 34) EmptyString.

Definition renderToken (t : weightToken float) : string :=
  match t with
  | Zero => "0 "
  | Val w => str_float w ^^ " "
  end.

Definition cmdString (c : melCommand float) : string :=
  match c with
  | SetAttrSize n => "setAttr -s " ^^ Py.str_int n ^^ " " ^^ dquote ^^ ".wl" ^^ dquote
  | SetAttrWeights count compIndex start rangeString ws =>
      "setAttr -s " ^^ Py.str_int count ^^ " " ^^ dquote
        ^^ ".weightList[" ^^ Py.str_int compIndex ^^ "].weights[" ^^ Py.str_int start
        ^^ match rangeString with
           | Some stop => ":" ^^ Py.str_int stop
           | None => ""
           end
        ^^ "]" ^^ dquote ^^ " " ^^ String.concat "" (map renderToken ws)
  end.

End Readings.

(** ** Concrete scenes *)

Module Example.

#[local] Existing Instance Literal.python.

Definition skinA : list (list Decimal.decimal) :=
  [ [Literal.lit "0.6"; Literal.lit "0.4"];
    [Literal.lit "0.0"; Literal.lit "1.0"] ].

(** A scene with the cluster [skinA] of [Mesh] selected, influences [J1] and
    [J2], whose files read as [data]. *)
Definition sceneOf (data : option string) (canSelect : bool) (history : list string)
  : scene Decimal.decimal :=
  {| selection := ["skinA"%string];
     nodeType := fun node => if String.eqb node "skinA" then "skinCluster"%string
                             else "mesh"%string;
     influence := fun _ => ["J1"%string; "J2"%string];
     geometry := fun _ => ["Mesh"%string];
     normalizeWeights := fun _ => 1;
     maxInfluences := fun _ => 4;
     dropoff := fun _ => Literal.lit "4.0";
     skinWeights := skinA;
     normalizedWeights := skinA;
     writable := fun _ => true;
     pathExists := fun _ => false;
     creatable := fun _ => true;
     files := fun _ => data;
     selectable := fun _ => canSelect;
     listHistory := fun _ => history;
     version := 2022;
     createdName := "skinCluster1";
     nw := 1;
     elapsed := "0.01" |}.

Definition exportScene : scene Decimal.decimal := sceneOf None true ["mesh"%string].

Definition text (lines : list string) : string := Py.join nl lines.

(** The file the exporter writes for [skinA]. *)
Definition skinAFile : string :=
  text [ "J1 J2 Mesh"; "skinA"; "-nw 1 -mi 4 -dr 4.0";
         "[0, 'J1', 0, 0.6]"; "[0, 'J2', 1, 0.4]"; "[1, 'J2', 1, 1.0]"; "" ]%string.

(** Vertex 5 with influences 0, 1 and 3. *)
Definition mergeFile : string :=
  text [ "A B C D shapeX"; "skinB"; "-nw 1 -mi 4 -dr 4.0";
         "[5, 'A', 0, 0.2]"; "[5, 'B', 1, 0.3]"; "[5, 'D', 3, 0.5]"; "" ]%string.

(** Records that are not in ascending order. *)
Definition unorderedFile : string :=
  text [ "A B shapeX"; "skinB"; "-nw 1 -mi 4 -dr 4.0";
         "[1, 'B', 1, 0.5]"; "[1, 'A', 0, 0.5]"; "[0, 'A', 0, 1.0]"; "" ]%string.

(** A record line that does not evaluate, between records that do. *)
Definition malformedFile : string :=
  text [ "A B shapeX"; "skinB"; "-nw 1 -mi 4 -dr 4.0";
         "[0, 'A', 0, 1.0]"; "[1, 'A', 0, 0.5]"; "[1, 'B', 1, 0.5"; "[2, 'B', 1, 1.0]"; "" ]%string.

(** The records the lines of these files evaluate to. *)
Definition mergeRecords : list (lineArray Decimal.decimal) :=
  [ LineArray 5 "A" 0 (Literal.lit "0.2");
    LineArray 5 "B" 1 (Literal.lit "0.3");
    LineArray 5 "D" 3 (Literal.lit "0.5") ].

Definition unorderedRecords : list (lineArray Decimal.decimal) :=
  [ LineArray 1 "B" 1 (Literal.lit "0.5");
    LineArray 1 "A" 0 (Literal.lit "0.5");
    LineArray 0 "A" 0 (Literal.lit "1.0") ].


(** The import scenes: every name selectable and the shape unbound; a name
    that cannot be selected; a shape that is bound already. *)
Definition importScene (data : string) : scene Decimal.decimal :=
  sceneOf (Some data) true ["mesh"%string].

Definition missingScene (data : string) : scene Decimal.decimal :=
  sceneOf (Some data) false ["mesh"%string].

Definition boundScene (data : string) : scene Decimal.decimal :=
  sceneOf (Some data) true ["mesh"%string; "tweak"%string; "skinCluster"%string].

End Example.

(** ** More scenes *)

Module Cases.

Import Example.

(** The export scene with nothing selected. *)
Definition unselected : scene Decimal.decimal :=
  {| selection := [];
     nodeType := nodeType exportScene;
     influence := influence exportScene;
     geometry := geometry exportScene;
     normalizeWeights := normalizeWeights exportScene;
     maxInfluences := maxInfluences exportScene;
     dropoff := dropoff exportScene;
     skinWeights := skinWeights exportScene;
     normalizedWeights := normalizedWeights exportScene;
     writable := writable exportScene;
     pathExists := pathExists exportScene;
     creatable := creatable exportScene;
     files := files exportScene;
     selectable := selectable exportScene;
     listHistory := listHistory exportScene;
     version := version exportScene;
     createdName := createdName exportScene;
     nw := nw exportScene;
     elapsed := elapsed exportScene |}.

(** The export scene where the file of [J2] cannot be opened. *)
Definition lockedJ2 : scene Decimal.decimal :=
  {| selection := selection exportScene;
     nodeType := nodeType exportScene;
     influence := influence exportScene;
     geometry := geometry exportScene;
     normalizeWeights := normalizeWeights exportScene;
     maxInfluences := maxInfluences exportScene;
     dropoff := dropoff exportScene;
     skinWeights := skinWeights exportScene;
     normalizedWeights := normalizedWeights exportScene;
     writable := fun name => negb (String.eqb name "out/skinA/J2.bsw");
     pathExists := pathExists exportScene;
     creatable := creatable exportScene;
     files := files exportScene;
     selectable := selectable exportScene;
     listHistory := listHistory exportScene;
     version := version exportScene;
     createdName := createdName exportScene;
     nw := nw exportScene;
     elapsed := elapsed exportScene |}.

(** The export scene with a cluster whose weights are all zero. *)
Definition weightless : scene Decimal.decimal :=
  {| selection := selection exportScene;
     nodeType := nodeType exportScene;
     influence := influence exportScene;
     geometry := geometry exportScene;
     normalizeWeights := normalizeWeights exportScene;
     maxInfluences := maxInfluences exportScene;
     dropoff := dropoff exportScene;
     skinWeights := [ [Literal.lit "0.0"; Literal.lit "0.0"];
                      [Literal.lit "0.0"; Literal.lit "0.0"] ];
     normalizedWeights := normalizedWeights exportScene;
     writable := writable exportScene;
     pathExists := pathExists exportScene;
     creatable := creatable exportScene;
     files := files exportScene;
     selectable := selectable exportScene;
     listHistory := listHistory exportScene;
     version := version exportScene;
     createdName := createdName exportScene;
     nw := nw exportScene;
     elapsed := elapsed exportScene |}.

(** The file the exporter writes for it. *)
Definition weightlessFile : string :=
  text [ "J1 J2 Mesh"; "skinA"; "-nw 1 -mi 4 -dr 4.0"; "" ]%string.

(** A file of two lines, and two records of vertex 3 of which the first
    has the influence index [-1]. *)
Definition twoLineFile : string := text [ "A B shapeX"; "skinB" ]%string.

Definition minusOneFile : list string :=
  [ "A B shapeX"; "skinB"; "-nw 1 -mi 4 -dr 4.0";
    "[3, 'A', -1, 0.5]"; "[3, 'B', 2, 0.25]"; "" ]%string.

End Cases.

(** ** What a trace shows *)

Section Observations.

Context {py : Python}.

(** A command that sets weights, whose [-s] count is the number of weights
    in its string, and whose string is not empty. *)
Definition wellCounted (c : call float) : Prop :=
  match c with
  | executeCommand (SetAttrWeights count _ _ _ ws) =>
      count = Z.of_nat (List.length ws) /\ ws <> []
  | _ => False
  end.

(** The weights of a weight string that come from records. *)
Fixpoint valuesOf (ws : list (weightToken float)) : list float :=
  match ws with
  | [] => []
  | Zero :: ws' => valuesOf ws'
  | Val w :: ws' => w :: valuesOf ws'
  end.

Definition appliedWeights (c : call float) : list float :=
  match c with
  | executeCommand (SetAttrWeights _ _ _ _ ws) => valuesOf ws
  | _ => []
  end.

(** The size the weight list is given. *)
Definition sized (c : call float) : list Z :=
  match c with
  | executeCommand (SetAttrSize n) => [n]
  | _ => []
  end.

Definition isNormalization (c : call float) : bool :=
  match c with
  | setAttrNw _ _ => true
  | _ => false
  end.

Definition isWrite (c : call float) : bool :=
  match c with
  | write _ _ => true
  | _ => false
  end.

Definition isOpen (c : call float) : bool :=
  match c with
  | openWrite _ => true
  | _ => false
  end.

(** A scene [writeWeights] can export from: a skinCluster is first in the
    selection, it has influences, and its first geometry has a name. *)
Definition exportable (sc : scene float) (node shape : string) : Prop :=
  hd_error (selection sc) = Some node
  /\ nodeType sc node = "skinCluster"%string
  /\ influence sc node <> []
  /\ hd_error (geometry sc node) = Some shape
  /\ shape <> ""%string.

(** The two lines the command displays after a transfer that returned 1. *)
Definition transferInfo (sc : scene float) (msgString fileName : string)
  : list (call float) :=
  [ displayInfo ("transferSkinCluster command took " ^^ elapsed sc ^^ " seconds");
    displayInfo ("Weights " ^^ msgString ^^ ": " ^^ fileName) ].

(** The variables of the loop between two iterations: the count is the
    number of weights gathered, and nothing is due to be written. *)
Definition counted (st : rangeState) : Prop :=
  setCount st = Z.of_nat (List.length (weightString st)) /\ writeData st = 0.

End Observations.

(** * Properties *)

(** ** The control-flow monad *)

Section Flow.

Context {float : Type}.

Lemma bind_ret_l {A B} (a : A) (f : A -> M float B) : bind (ret a) f = f a.
Proof. unfold bind, ret. destruct (f a) as [t r]. reflexivity. Qed.

Lemma bind_assoc {A B C} (m : M float A) (f : A -> M float B) (g : B -> M float C) :
  bind (bind m f) g = bind m (fun a => bind (f a) g).
Proof.
  destruct m as [t [a | v |]]; simpl; try reflexivity.
  destruct (f a) as [t1 [b | v |]]; simpl; try reflexivity.
  destruct (g b) as [t2 r]. now rewrite app_assoc.
Qed.

Lemma bind_next {A B} (t : list (call float)) (a : A) (f : A -> M float B) :
  bind (t, Next a) f = (t ++ fst (f a), snd (f a)).
Proof. unfold bind. now destruct (f a). Qed.

Lemma index_app_r {A} (pre : list A) (x : A) (post : list A) :
  @index float A (pre ++ x :: post) (List.length pre) = ret x.
Proof.
  unfold index. rewrite nth_error_app2 by lia. now rewrite Nat.sub_diag.
Qed.

End Flow.

(** ** The loop over indices is the loop over the record lines *)

Section Loop.

Context {py : Python}.

Lemma loopBody_last (pre : list string) (line t : string) (st : rangeState) :
  loopBody (pre ++ line :: [t]) (List.length pre) st =
  (weights <- orRaise (eval line) ;; applyRecord st weights weights 1).
Proof.
  unfold loopBody. rewrite index_app_r, bind_ret_l.
  replace (Nat.ltb _ _) with false; [reflexivity |].
  symmetry. apply Nat.ltb_ge. rewrite length_app. simpl. lia.
Qed.

Lemma loopBody_inner (pre : list string) (line lineNext : string) (post : list string)
      (t : string) (st : rangeState) :
  loopBody (pre ++ line :: lineNext :: post ++ [t]) (List.length pre) st =
  (weights <- orRaise (eval line) ;;
   weightsNext <- orRaise (eval lineNext) ;;
   applyRecord st weights weightsNext (writeData st)).
Proof.
  unfold loopBody. rewrite index_app_r, bind_ret_l.
  replace (Nat.ltb _ _) with true.
  - replace (pre ++ line :: lineNext :: post ++ [t])
      with ((pre ++ [line]) ++ lineNext :: post ++ [t])
      by now rewrite <- app_assoc.
    replace (List.length pre + 1)%nat with (List.length (pre ++ [line]))
      by (rewrite length_app; reflexivity).
    rewrite index_app_r.
    destruct (eval line); [| reflexivity].
    cbn [orRaise]. now rewrite !bind_ret_l.
  - symmetry. apply Nat.ltb_lt. rewrite !length_app. simpl. rewrite length_app. simpl. lia.
Qed.

Lemma forEach_runLines (lines pre : list string) (t : string) (st : rangeState) :
  forEach (loopBody (pre ++ lines ++ [t]))
          (seq (List.length pre) (List.length lines)) st
  = runLines lines st.
Proof.
  revert pre st. induction lines as [| line rest IH]; intros pre st; [reflexivity |].
  cbn [List.length seq forEach runLines].
  assert (Hshift : forall st',
    forEach (loopBody (pre ++ (line :: rest) ++ [t]))
            (seq (S (List.length pre)) (List.length rest)) st'
    = runLines rest st').
  { intro st'. specialize (IH (pre ++ [line]) st').
    rewrite <- app_assoc in IH. rewrite length_app in IH. simpl in IH.
    now rewrite Nat.add_1_r in IH. }
  destruct rest as [| lineNext post].
  - change ([line] ++ [t]) with [line; t] in *. rewrite loopBody_last, bind_assoc.
    destruct (eval line); [| reflexivity].
    cbn [orRaise]. rewrite !bind_ret_l.
    destruct (applyRecord _ _ _ _) as [tr [st' | v |]]; try reflexivity;
      rewrite !bind_next; now rewrite Hshift.
  - change ((line :: lineNext :: post) ++ [t]) with (line :: lineNext :: post ++ [t]).
    rewrite loopBody_inner.
    change (line :: lineNext :: post ++ [t]) with ((line :: lineNext :: post) ++ [t]).
    rewrite bind_assoc.
    destruct (eval line); [| reflexivity].
    cbn [orRaise]. rewrite !bind_ret_l, !bind_assoc.
    destruct (eval lineNext); [| reflexivity].
    cbn [orRaise]. rewrite !bind_ret_l.
    destruct (applyRecord _ _ _ _) as [tr [st' | v |]]; try reflexivity;
      rewrite !bind_next; now rewrite Hshift.
Qed.

(** The record lines of a file of at least four lines sit between its three
    header lines and its last line. *)
Lemma recordLines_split (weightLines : list string) :
  (4 <= List.length weightLines)%nat ->
  exists h0 h1 h2 t, weightLines = [h0; h1; h2] ++ recordLines weightLines ++ [t].
Proof.
  intro Hlen. unfold recordLines.
  destruct weightLines as [| h0 [| h1 [| h2 rest]]]; simpl in Hlen; try lia.
  exists h0, h1, h2.
  assert (Hrest : rest <> []) by (destruct rest; [simpl in Hlen; lia | discriminate]).
  destruct (exists_last Hrest) as [body [t ->]].
  exists t. cbn [List.length skipn Datatypes.app]. rewrite length_app. cbn [List.length].
  replace (S (S (S (List.length body + 1))) - 1 - 3)%nat with (List.length body) by lia.
  rewrite firstn_app, firstn_all, Nat.sub_diag. simpl. now rewrite app_nil_r.
Qed.

Lemma applyWeights_runLines (weightLines : list string) :
  applyWeights weightLines = runLines (recordLines weightLines) initialState.
Proof.
  destruct (Nat.le_gt_cases 4 (List.length weightLines)) as [Hlen | Hlen].
  - destruct (recordLines_split weightLines Hlen) as (h0 & h1 & h2 & t & Heq).
    unfold applyWeights.
    assert (Hn : (List.length weightLines - 1 - 3 = List.length (recordLines weightLines))%nat).
    { rewrite Heq at 1. rewrite !length_app. simpl. lia. }
    rewrite Hn. rewrite Heq at 1.
    apply (forEach_runLines (recordLines weightLines) [h0; h1; h2] t).
  - unfold applyWeights, recordLines.
    replace (List.length weightLines - 1 - 3)%nat with 0%nat by lia.
    reflexivity.
Qed.

(** Lines that evaluate are read as the records they evaluate to. *)
Lemma runLines_runRecords (lines : list string) (recs : list (lineArray float))
      (st : rangeState) :
  map eval lines = map Some recs ->
  runLines lines st = runRecords recs st.
Proof.
  revert recs st. induction lines as [| line rest IH]; intros [| r recs] st H;
    try discriminate; [reflexivity |].
  simpl in H. injection H as Hr Hrest.
  cbn [runLines runRecords]. rewrite Hr. cbn [orRaise]. rewrite bind_ret_l.
  destruct rest as [| lineNext post]; destruct recs as [| r' recs']; try discriminate.
  - reflexivity.
  - simpl in Hrest. injection Hrest as Hr' Hpost.
    rewrite Hr'. cbn [orRaise]. rewrite bind_ret_l.
    destruct (applyRecord _ _ _ _) as [tr [st' | v |]]; try reflexivity.
    rewrite !bind_next. rewrite (IH (r' :: recs') st'); [reflexivity |].
    simpl. now rewrite Hr', Hpost.
Qed.

End Loop.

(** ** The loop emits the range commands of the specification *)

Section Merge.

Context {py : Python}.

Lemma zeroFill_spec (xs : list Z) (ws : list (weightToken float)) (count : Z) :
  zeroFill ws count xs
  = (ws ++ map (fun _ => Zero) xs, count + Z.of_nat (List.length xs)).
Proof.
  unfold zeroFill. revert ws count.
  induction xs as [| x xs IH]; intros ws count.
  - simpl. rewrite app_nil_r. f_equal. lia.
  - cbn [fold_left fst snd]. rewrite IH. cbn [map List.length].
    rewrite <- app_assoc. simpl. f_equal. lia.
Qed.

Lemma range_empty (a : Z) : Py.range (a - 1 + 1) a = [].
Proof. unfold Py.range. now replace (a - (a - 1 + 1)) with 0 by lia. Qed.

Lemma extendRange_fresh (st : rangeState) (r : lineArray float) :
  inflStart st = -1 ->
  extendRange st r = (weightString st, item2 r, item2 r, setCount st).
Proof. intro H. unfold extendRange. now rewrite H. Qed.

Lemma extendRange_started (st : rangeState) (r : lineArray float) :
  inflStart st <> -1 ->
  extendRange st r
  = (weightString st ++ map (fun _ => Zero) (Py.range (inflEnd st + 1) (item2 r)),
     inflStart st, item2 r,
     setCount st + Z.of_nat (List.length (Py.range (inflEnd st + 1) (item2 r)))).
Proof.
  intro H. unfold extendRange.
  destruct (inflStart st =? -1) eqn:E; [apply Z.eqb_eq in E; contradiction |].
  destruct (inflEnd st =? item2 r - 1) eqn:E'.
  - apply Z.eqb_eq in E'. rewrite E', range_empty. simpl.
    rewrite app_nil_r. repeat f_equal. lia.
  - now rewrite zeroFill_spec.
Qed.

(** A record that ends its run: the command goes out and the variables are
    reset. *)
Lemma applyRecord_flush (st : rangeState) (r next : lineArray float) (wd : Z)
      (ws : list (weightToken float)) (start stop count : Z) :
  extendRange st r = (ws, start, stop, count) ->
  wd = 1 \/ item0 r <> item0 next ->
  applyRecord st r next wd
  = ([executeCommand
        (SetAttrWeights (count + 1) (item0 r) start
                        (if stop =? start then None else Some stop)
                        (ws ++ [Val (item3 r)]))],
     Next initialState).
Proof.
  intros He Hw. unfold applyRecord. rewrite He.
  replace (if negb (item0 r =? item0 next) then 1 else wd) with 1.
  - reflexivity.
  - destruct Hw as [-> | Hne]; [now destruct (negb _) |].
    apply Z.eqb_neq in Hne. now rewrite Hne.
Qed.

(** A record followed by one of the same vertex: nothing goes out. *)
Lemma applyRecord_keep (st : rangeState) (r next : lineArray float)
      (ws : list (weightToken float)) (start stop count : Z) :
  extendRange st r = (ws, start, stop, count) ->
  item0 r = item0 next ->
  applyRecord st r next 0
  = ([], Next (RangeState (ws ++ [Val (item3 r)]) start stop (count + 1) 0)).
Proof.
  intros He Hv. unfold applyRecord. rewrite He, Hv, Z.eqb_refl. reflexivity.
Qed.

Lemma runRecords_specRuns (recs : list (lineArray float)) :
  Forall (fun r => item2 r <> -1) recs ->
  runRecords recs initialState = (map emit (decodeSpec recs), Next initialState)
  /\ forall ws start stop r0,
       start <> -1 ->
       hd_error recs = Some r0 ->
       runRecords recs (RangeState ws start stop (Z.of_nat (List.length ws)) 0)
       = (map emit (specRuns (item0 r0) start stop ws recs), Next initialState).
Proof.
  induction recs as [| r rest IH]; intro Hall.
  - split; [reflexivity | intros; discriminate].
  - inversion Hall as [| ? ? Hr Hrest]; subst.
    specialize (IH Hrest). destruct IH as [IHa IHb].
    split.
    + cbn [runRecords decodeSpec].
      destruct rest as [| r' rest'].
      * rewrite (applyRecord_flush _ r r 1 [] (item2 r) (item2 r) 0);
          [| now apply extendRange_fresh | now left].
        rewrite bind_next. reflexivity.
      * cbn [specRuns].
        destruct (item0 r' =? item0 r) eqn:E.
        -- apply Z.eqb_eq in E.
           rewrite (applyRecord_keep _ r r' [] (item2 r) (item2 r) 0);
             [| now apply extendRange_fresh | now symmetry].
           rewrite bind_next. cbn [Datatypes.app].
           change (0 + 1) with (Z.of_nat (List.length [@Val float (item3 r)])).
           rewrite (IHb [Val (item3 r)] (item2 r) (item2 r) r' Hr eq_refl).
           cbn [specRuns fst snd]. rewrite Z.eqb_refl, E. reflexivity.
        -- apply Z.eqb_neq in E.
           rewrite (applyRecord_flush _ r r' 0 [] (item2 r) (item2 r) 0);
             [| now apply extendRange_fresh | right; congruence].
           rewrite bind_next, IHa. reflexivity.
    + intros ws start stop r0 Hstart Hhd. injection Hhd as <-.
      cbn [runRecords specRuns writeData]. rewrite Z.eqb_refl.
      pose proof (extendRange_started
                    (RangeState ws start stop (Z.of_nat (List.length ws)) 0) r Hstart) as He.
      cbn [weightString inflStart inflEnd setCount] in He.
      set (zeros := map (fun _ : Z => @Zero float) (Py.range (stop + 1) (item2 r))) in *.
      assert (Hcount : Z.of_nat (List.length ws)
                       + Z.of_nat (List.length (Py.range (stop + 1) (item2 r))) + 1
                       = Z.of_nat (List.length (ws ++ zeros ++ [Val (item3 r)]))).
      { unfold zeros. rewrite !length_app, length_map. simpl. lia. }
      destruct rest as [| r' rest'].
      * rewrite (applyRecord_flush _ r r 1 _ _ _ _ He); [| now left].
        rewrite bind_next. cbn [runRecords specRuns map fst snd ret].
        unfold emit, setAttrOf. cbn [weights vertexIndex influenceIndexStart influenceIndexEnd].
        rewrite <- Hcount, <- app_assoc. reflexivity.
      * cbn [specRuns].
        destruct (item0 r' =? item0 r) eqn:E.
        -- apply Z.eqb_eq in E.
           rewrite (applyRecord_keep _ r r' _ _ _ _ He); [| now symmetry].
           rewrite bind_next. rewrite Hcount, <- app_assoc.
           rewrite (IHb _ start (item2 r) r' Hstart eq_refl).
           cbn [specRuns fst snd Datatypes.app]. rewrite Z.eqb_refl, E. reflexivity.
        -- apply Z.eqb_neq in E.
           rewrite (applyRecord_flush _ r r' 0 _ _ _ _ He); [| right; congruence].
           rewrite bind_next, IHa. cbn [fst snd map].
           unfold emit at 2, setAttrOf.
           cbn [weights vertexIndex influenceIndexStart influenceIndexEnd].
           rewrite <- Hcount, <- app_assoc. reflexivity.
Qed.

End Merge.

(** ** What the range commands of a stream are *)

Section Ranges.

Context {py : Python}.

Lemma specRuns_vertices (recs : list (lineArray float)) :
  forall v s e buf,
    map vertexIndex (specRuns v s e buf recs) = vertexRuns (v :: map item0 recs).
Proof.
  induction recs as [| r rest IH]; intros v s e buf; [reflexivity |].
  cbn [specRuns map vertexRuns].
  rewrite (Z.eqb_sym v (item0 r)).
  destruct (item0 r =? v) eqn:E.
  - apply Z.eqb_eq in E. rewrite IH. now rewrite E.
  - cbn [map vertexIndex]. now rewrite IH.
Qed.

Lemma decodeSpec_vertices (recs : list (lineArray float)) :
  map vertexIndex (decodeSpec recs) = vertexRuns (map item0 recs).
Proof. destruct recs as [| r rest]; [reflexivity | apply specRuns_vertices]. Qed.

Lemma vertexRuns_In (vs : list Z) (x : Z) : In x (vertexRuns vs) <-> In x vs.
Proof.
  induction vs as [| v rest IH]; [reflexivity |].
  cbn [vertexRuns]. destruct rest as [| v' rest']; [reflexivity |].
  destruct (v =? v') eqn:E.
  - apply Z.eqb_eq in E. subst v'. rewrite IH. simpl. tauto.
  - simpl In at 1. rewrite IH. simpl. tauto.
Qed.

Lemma vertexRuns_increasing (vs : list Z) :
  StronglySorted Z.le vs -> StronglySorted Z.lt (vertexRuns vs).
Proof.
  induction vs as [| v rest IH]; intro Hs; [constructor |].
  inversion Hs as [| ? ? Hrest Hall]; subst.
  cbn [vertexRuns]. destruct rest as [| v' rest']; [repeat constructor |].
  destruct (v =? v') eqn:E; [now apply IH |].
  apply Z.eqb_neq in E. constructor; [now apply IH |].
  apply Forall_forall. intros x Hx. apply (proj1 (vertexRuns_In _ _)) in Hx.
  inversion Hall as [| ? ? Hv' _]; subst.
  inversion Hrest as [| ? ? _ Hall']; subst.
  cbn [In] in Hx. destruct Hx as [<- | Hx]; [lia |].
  rewrite Forall_forall in Hall'. specialize (Hall' x Hx). lia.
Qed.

Lemma increasing_NoDup (vs : list Z) : StronglySorted Z.lt vs -> NoDup vs.
Proof.
  induction 1 as [| v rest _ IH Hall]; constructor; [| assumption].
  intro Hin. rewrite Forall_forall in Hall. specialize (Hall v Hin). lia.
Qed.

Lemma ascending_vertices (recs : list (lineArray float)) :
  ascending recs -> StronglySorted Z.le (map item0 recs).
Proof.
  unfold ascending. induction 1 as [| r rest _ IH Hall]; [constructor |].
  cbn [map]. constructor; [assumption |].
  apply Forall_map. eapply Forall_impl; [| exact Hall].
  intros r' [Hlt | [Heq _]]; lia.
Qed.

Lemma tokensFrom_app (v x : Z) (a b : list (weightToken float)) :
  tokensFrom v x (a ++ b)
  = tokensFrom v x a ++ tokensFrom v (x + Z.of_nat (List.length a)) b.
Proof.
  revert x. induction a as [| t a IH]; intro x.
  - simpl. now rewrite Z.add_0_r.
  - cbn [Datatypes.app tokensFrom List.length].
    replace (x + Z.of_nat (S (List.length a))) with (x + 1 + Z.of_nat (List.length a)) by lia.
    destruct t; rewrite IH; reflexivity.
Qed.

Lemma tokensFrom_zeros (v x : Z) (xs : list Z) :
  tokensFrom v x (map (fun _ => @Zero float) xs) = [].
Proof. revert x. induction xs as [| y xs IH]; intro x; [reflexivity | apply IH]. Qed.

Lemma range_length (a b : Z) : a <= b -> Z.of_nat (List.length (Py.range a b)) = b - a.
Proof. intro H. unfold Py.range. rewrite length_map, length_seq. lia. Qed.

(** A run in progress whose buffer is as long as its range, followed by
    ascending records: every record becomes exactly one entry, at its own
    influence index, and every buffer is as long as its range. *)
Lemma specRuns_entries (recs : list (lineArray float)) :
  forall v s e buf,
    Z.of_nat (List.length buf) = e - s + 1 ->
    ascending recs ->
    (forall r, In r recs -> item0 r = v -> e < item2 r) ->
    flat_map entries (specRuns v s e buf recs) = tokensFrom v s buf ++ map triple recs
    /\ Forall (fun c => Z.of_nat (List.length (weights c))
                        = influenceIndexEnd c - influenceIndexStart c + 1)
              (specRuns v s e buf recs).
Proof.
  induction recs as [| r rest IH]; intros v s e buf Hlen Hasc Hnext.
  - cbn [specRuns flat_map map entries weights vertexIndex influenceIndexStart].
    rewrite !app_nil_r. split; [reflexivity |]. repeat constructor. exact Hlen.
  - inversion Hasc as [| ? ? Hrest Hall]; subst.
    assert (Hstep : forall r', In r' rest -> item0 r' = item0 r -> item2 r < item2 r').
    { intros r' Hin Heq. rewrite Forall_forall in Hall.
      destruct (Hall r' Hin) as [Hlt | [_ Hlt]]; lia. }
    cbn [specRuns]. destruct (item0 r =? v) eqn:E.
    + apply Z.eqb_eq in E.
      assert (He : e < item2 r) by (apply Hnext; [now left | exact E]).
      destruct (IH v s (item2 r)
                   (buf ++ map (fun _ => Zero) (Py.range (e + 1) (item2 r)) ++ [Val (item3 r)]))
        as [IHe IHl].
      * rewrite !length_app, length_map. cbn [List.length].
        rewrite !Nat2Z.inj_add, range_length by lia. lia.
      * exact Hrest.
      * intros r' Hin Heq. apply Hstep; [exact Hin | congruence].
      * split; [| exact IHl]. rewrite IHe.
        rewrite !tokensFrom_app, tokensFrom_zeros. cbn [Datatypes.app tokensFrom map].
        rewrite length_map, range_length by lia.
        rewrite <- app_assoc. cbn [Datatypes.app]. unfold triple at 2.
        repeat f_equal; lia.
    + destruct (IH (item0 r) (item2 r) (item2 r) [Val (item3 r)]) as [IHe IHl].
      * simpl. lia.
      * exact Hrest.
      * intros r' Hin Heq. now apply Hstep.
      * cbn [flat_map]. split.
        -- rewrite IHe. reflexivity.
        -- constructor; [exact Hlen | exact IHl].
Qed.

Lemma decodeSpec_entries (recs : list (lineArray float)) :
  ascending recs ->
  flat_map entries (decodeSpec recs) = map triple recs
  /\ Forall (fun c => Z.of_nat (List.length (weights c))
                      = influenceIndexEnd c - influenceIndexStart c + 1)
            (decodeSpec recs).
Proof.
  intro Hasc. destruct recs as [| r rest]; [split; [reflexivity | constructor] |].
  inversion Hasc as [| ? ? Hrest Hall]; subst.
  cbn [decodeSpec].
  destruct (specRuns_entries rest (item0 r) (item2 r) (item2 r) [Val (item3 r)])
    as [He Hl].
  - simpl. lia.
  - exact Hrest.
  - intros r' Hin Heq. rewrite Forall_forall in Hall.
    destruct (Hall r' Hin) as [Hlt | [_ Hlt]]; lia.
  - split; [| exact Hl]. rewrite He. reflexivity.
Qed.

Lemma covered_emit (cmds : list rangeCommand) :
  flat_map covered (map emit cmds) = flat_map entries cmds.
Proof.
  induction cmds as [| c cmds IH]; [reflexivity |].
  cbn [map flat_map]. now rewrite IH.
Qed.

Lemma writtenVertex_emit (cmds : list rangeCommand) :
  flat_map writtenVertex (map emit cmds) = map vertexIndex cmds.
Proof.
  induction cmds as [| c cmds IH]; [reflexivity |].
  cbn [map flat_map]. now rewrite IH.
Qed.

End Ranges.

(** ** The records the exporter writes *)

Section Encoder.

Context {py : Python}.

Lemma inflLoop_flat_map (index : Z) (infls : list string) (value : list float)
      (js : list nat) :
  Forall (fun j => (j < List.length value)%nat /\ (j < List.length infls)%nat) js ->
  inflLoop index infls value js
  = Some (flat_map (fun j => match nth_error value j, nth_error infls j with
                             | Some w, Some name =>
                                 if gt0 w then [LineArray index name (Z.of_nat j) w] else []
                             | _, _ => []
                             end) js).
Proof.
  induction js as [| j js IH]; intro Hall; [reflexivity |].
  inversion Hall as [| ? ? [Hv Hi] Hrest]; subst.
  cbn [inflLoop flat_map]. rewrite (IH Hrest).
  destruct (nth_error value j) as [w |] eqn:Ev;
    [| apply nth_error_None in Ev; lia].
  destruct (nth_error infls j) as [name |] eqn:Ei;
    [| apply nth_error_None in Ei; lia].
  now destruct (gt0 w).
Qed.

Lemma inflLoop_rowRecords (index : Z) (infls : list string) (value : list float) :
  (List.length infls <= List.length value)%nat ->
  inflLoop index infls value (seq 0 (List.length infls))
  = Some (rowRecords index infls value).
Proof.
  intro Hlen. apply inflLoop_flat_map.
  apply Forall_forall. intros j Hj. apply in_seq in Hj. lia.
Qed.

Lemma geoLoop_tableRecords (infls : list string) (rows : list (list float)) :
  forall first,
    rectangular infls rows ->
    geoLoop infls first rows = Some (tableRecords infls first rows).
Proof.
  induction rows as [| value rows IH]; intros first Hrect; [reflexivity |].
  inversion Hrect as [| ? ? Hv Hrest]; subst.
  cbn [geoLoop]. rewrite (inflLoop_rowRecords _ _ _ Hv), (IH (S first) Hrest).
  reflexivity.
Qed.

Lemma rowRecords_In (index : Z) (infls : list string) (value : list float)
      (r : lineArray float) :
  In r (rowRecords index infls value) <->
  exists j w name,
    nth_error value j = Some w /\ nth_error infls j = Some name /\ gt0 w = true
    /\ r = LineArray index name (Z.of_nat j) w.
Proof.
  unfold rowRecords. rewrite in_flat_map. split.
  - intros (j & _ & Hin).
    destruct (nth_error value j) as [w |] eqn:Ev; [| contradiction].
    destruct (nth_error infls j) as [name |] eqn:Ei; [| contradiction].
    destruct (gt0 w) eqn:Eg; [| contradiction].
    destruct Hin as [<- | []]. now exists j, w, name.
  - intros (j & w & name & Ev & Ei & Eg & ->).
    exists j. split.
    + apply in_seq. split; [lia |]. simpl. apply nth_error_Some. congruence.
    + rewrite Ev, Ei, Eg. now left.
Qed.

Lemma combine_seq_In {A} (rows : list A) :
  forall first v (row : A),
    In (v, row) (combine (seq first (List.length rows)) rows) <->
    (first <= v)%nat /\ nth_error rows (v - first) = Some row.
Proof.
  induction rows as [| x rows IH]; intros first v row.
  - simpl. split; [contradiction |]. intros [_ H]. now destruct (v - first)%nat.
  - cbn [List.length seq combine In]. rewrite IH. split.
    + intros [Heq | [Hle Hnth]].
      * injection Heq as <- <-. rewrite Nat.sub_diag. split; [lia | reflexivity].
      * split; [lia |]. replace (v - first)%nat with (S (v - S first)) by lia.
        exact Hnth.
    + intros [Hle Hnth].
      destruct (Nat.eq_dec v first) as [-> | Hne].
      * rewrite Nat.sub_diag in Hnth. injection Hnth as ->. now left.
      * right. split; [lia |].
        replace (v - first)%nat with (S (v - S first)) in Hnth by lia.
        exact Hnth.
Qed.

(** Exactly the pairs of the table with a weight above zero are written. *)
Lemma tableRecords_In (infls : list string) (rows : list (list float))
      (r : lineArray float) :
  In r (tableRecords infls 0 rows) <->
  exists v j w name,
    weightAt rows v j = Some w /\ nth_error infls j = Some name /\ gt0 w = true
    /\ r = LineArray (Z.of_nat v) name (Z.of_nat j) w.
Proof.
  unfold tableRecords, weightAt. rewrite in_flat_map. split.
  - intros ([v value] & Hin & Hr). apply combine_seq_In in Hin.
    destruct Hin as [_ Hnth]. rewrite Nat.sub_0_r in Hnth.
    apply rowRecords_In in Hr. destruct Hr as (j & w & name & Ev & Ei & Eg & ->).
    exists v, j, w, name. cbn [fst snd]. rewrite Hnth. auto.
  - intros (v & j & w & name & Ev & Ei & Eg & ->).
    destruct (nth_error rows v) as [value |] eqn:Er; [| discriminate].
    exists (v, value). split.
    + apply combine_seq_In. rewrite Nat.sub_0_r. split; [lia | exact Er].
    + apply rowRecords_In. now exists j, w, name.
Qed.

Lemma StronglySorted_app {A} (R : A -> A -> Prop) (l1 l2 : list A) :
  StronglySorted R l1 -> StronglySorted R l2 ->
  (forall a b, In a l1 -> In b l2 -> R a b) ->
  StronglySorted R (l1 ++ l2).
Proof.
  induction l1 as [| x l1 IH]; intros H1 H2 H12; [exact H2 |].
  inversion H1 as [| ? ? Hs Hall]; subst.
  cbn [Datatypes.app]. constructor.
  - apply IH; [exact Hs | exact H2 |]. intros a b Ha Hb. apply H12; [now right | exact Hb].
  - apply Forall_app. split; [exact Hall |].
    apply Forall_forall. intros b Hb. apply H12; [now left | exact Hb].
Qed.

(** The records of one component ascend by influence index. *)
Lemma row_ascending (index : Z) (infls : list string) (value : list float) :
  forall n first,
    let recs := flat_map (fun j => match nth_error value j, nth_error infls j with
                                   | Some w, Some name =>
                                       if gt0 w then [LineArray index name (Z.of_nat j) w]
                                       else []
                                   | _, _ => []
                                   end) (seq first n) in
    ascending recs
    /\ Forall (fun r => item0 r = index /\ Z.of_nat first <= item2 r) recs.
Proof.
  induction n as [| n IH]; intros first; cbn zeta.
  - split; constructor.
  - cbn [seq flat_map]. destruct (IH (S first)) as [IHs IHa].
    match goal with |- context [?hd ++ _] => set (block := hd) end.
    assert (Hblock : block = [] \/ exists name w, block = [LineArray index name (Z.of_nat first) w]).
    { unfold block. destruct (nth_error value first) as [w |]; [| now left].
      destruct (nth_error infls first) as [name |]; [| now left].
      destruct (gt0 w); [right; now exists name, w | now left]. }
    destruct Hblock as [-> | (name & w & ->)]; cbn [Datatypes.app].
    + split; [exact IHs |].
      eapply Forall_impl; [| exact IHa]. intros r [H0 H2]. split; [exact H0 | lia].
    + split.
      * constructor; [exact IHs |].
        eapply Forall_impl; [| exact IHa]. intros r [H0 H2].
        right. cbn [item0 item2]. split; [now symmetry | lia].
      * constructor; [cbn [item0 item2]; split; [reflexivity | lia] |].
        eapply Forall_impl; [| exact IHa]. intros r [H0 H2]. split; [exact H0 | lia].
Qed.

(** The records of a table ascend by vertex, then by influence index. *)
Lemma table_ascending (infls : list string) (rows : list (list float)) :
  forall first,
    ascending (tableRecords infls first rows)
    /\ Forall (fun r => Z.of_nat first <= item0 r /\ 0 <= item2 r)
              (tableRecords infls first rows).
Proof.
  induction rows as [| value rows IH]; intro first.
  - split; constructor.
  - unfold tableRecords. cbn [List.length seq combine flat_map fst snd].
    fold (tableRecords infls (S first) rows).
    destruct (IH (S first)) as [IHs IHa].
    destruct (row_ascending (Z.of_nat first) infls value (List.length infls) 0)
      as [Hrs Hra].
    fold (rowRecords (Z.of_nat first) infls value) in Hrs, Hra.
    split.
    + apply StronglySorted_app; [exact Hrs | exact IHs |].
      intros a b Ha Hb. rewrite Forall_forall in Hra, IHa.
      destruct (Hra a Ha) as [Ha0 _]. destruct (IHa b Hb) as [Hb0 _].
      left. lia.
    + apply Forall_app. split.
      * eapply Forall_impl; [| exact Hra]. intros r [H0 H2]. lia.
      * eapply Forall_impl; [| exact IHa]. intros r [H0 H2]. lia.
Qed.

Lemma ascending_NoDup (recs : list (lineArray float)) :
  ascending recs -> NoDup (map key recs).
Proof.
  unfold ascending. induction 1 as [| r rest _ IH Hall]; [constructor |].
  cbn [map]. constructor; [| exact IH].
  intro Hin. apply in_map_iff in Hin. destruct Hin as (r' & Hk & Hr').
  rewrite Forall_forall in Hall. specialize (Hall r' Hr').
  unfold key in Hk. injection Hk as H0 H2.
  destruct Hall as [Hlt | [_ Hlt]]; lia.
Qed.

End Encoder.

(** ** Joining lines and splitting them again *)

Section Text.

Lemma split_lacks (c : ascii) (s : string) :
  Py.lacks c s = true -> Py.split c s = [s].
Proof.
  induction s as [| a s IH]; intro H; [reflexivity |].
  cbn [Py.lacks] in H. apply andb_true_iff in H. destruct H as [Ha Hs].
  cbn [Py.split]. apply negb_true_iff in Ha. rewrite Ha, (IH Hs). reflexivity.
Qed.

Lemma split_append (c : ascii) (s rest : string) :
  Py.lacks c s = true ->
  Py.split c (s ^^ String c rest) = s :: Py.split c rest.
Proof.
  induction s as [| a s IH]; intro H.
  - cbn [String.append Py.split]. now rewrite Ascii.eqb_refl.
  - cbn [Py.lacks] in H. apply andb_true_iff in H. destruct H as [Ha Hs].
    cbn [String.append Py.split]. apply negb_true_iff in Ha.
    rewrite Ha, (IH Hs). reflexivity.
Qed.

Lemma split_join (c : ascii) (lines : list string) :
  lines <> [] ->
  Forall (fun line => Py.lacks c line = true) lines ->
  Py.split c (Py.join (String c EmptyString) lines) = lines.
Proof.
  unfold Py.join. induction lines as [| x rest IH]; intros Hne Hall; [contradiction |].
  inversion Hall as [| ? ? Hx Hrest]; subst.
  destruct rest as [| y rest'].
  - cbn [String.concat]. now apply split_lacks.
  - cbn [String.concat] in *. cbn [String.append].
    rewrite (split_append c x _ Hx). f_equal.
    apply IH; [discriminate | exact Hrest].
Qed.

End Text.

(** ** Export: the records of the single file *)

Section Encoding.

Context {py : Python}.

Lemma writeSingle_writes (sc : scene float) (fileName node : string)
      (infls : list string) (shape : string) :
  rectangular infls (skinWeights sc) ->
  writable sc fileName = true ->
  writeSingle sc fileName node infls shape
  = ([openWrite fileName;
      write fileName
            (Py.join nl (fileLines sc node infls shape
                                   (tableRecords infls 0 (skinWeights sc))))],
     Next tt).
Proof.
  intros Hrect Hw. unfold writeSingle. rewrite Hw.
  rewrite (geoLoop_tableRecords infls (skinWeights sc) 0%nat Hrect). reflexivity.
Qed.

(** C4: for every weight table the exporter writes, in its single file,
    one record line for every (vertex, influence) pair whose weight is above
    zero, none for a pair whose weight is not, no pair twice, and the records
    ascend by vertex and, within a vertex, by influence index. *)
Theorem C4_one_record_per_positive_weight
        (sc : scene float) (fileName node : string) (infls : list string)
        (shape : string) :
  rectangular infls (skinWeights sc) ->
  writable sc fileName = true ->
  exists recs : list (lineArray float),
    writeSingle sc fileName node infls shape
    = ([openWrite fileName;
        write fileName
              (Py.join nl (headerLines sc node infls shape
                           ++ map str_list recs ++ [""%string]))],
       Next tt)
    /\ (forall v j w name,
          weightAt (skinWeights sc) v j = Some w ->
          nth_error infls j = Some name ->
          gt0 w = true ->
          In (LineArray (Z.of_nat v) name (Z.of_nat j) w) recs)
    /\ (forall v j w,
          weightAt (skinWeights sc) v j = Some w ->
          gt0 w = false ->
          ~ In (Z.of_nat v, Z.of_nat j) (map key recs))
    /\ (forall r, In r recs ->
          exists v j,
            r = LineArray (Z.of_nat v) (item1 r) (Z.of_nat j) (item3 r)
            /\ weightAt (skinWeights sc) v j = Some (item3 r)
            /\ nth_error infls j = Some (item1 r)
            /\ gt0 (item3 r) = true)
    /\ NoDup (map key recs)
    /\ ascending recs.
Proof.
  intros Hrect Hw.
  exists (tableRecords infls 0 (skinWeights sc)).
  destruct (table_ascending infls (skinWeights sc) 0) as [Hasc _].
  split; [now apply writeSingle_writes |].
  split; [| split; [| split; [| split]]].
  - intros v j w name Hw' Hn Hg. apply tableRecords_In. now exists v, j, w, name.
  - intros v j w Hw' Hg Hin. apply in_map_iff in Hin.
    destruct Hin as (r & Hk & Hr). apply tableRecords_In in Hr.
    destruct Hr as (v' & j' & w' & name & Hw'' & _ & Hg' & ->).
    unfold key in Hk. cbn [item0 item2] in Hk. injection Hk as Hv Hj.
    apply Nat2Z.inj in Hv, Hj. subst v' j'. congruence.
  - intros r Hr. apply tableRecords_In in Hr.
    destruct Hr as (v & j & w & name & Hw' & Hn & Hg & ->).
    exists v, j. cbn [item1 item3]. auto.
  - now apply ascending_NoDup.
  - exact Hasc.
Qed.

End Encoding.

(** ** Import: the range commands of a record stream *)

Section Decoding.

Context {py : Python}.

Lemma recordLines_file (h0 h1 h2 : string) (body : list string) (t : string) :
  recordLines ([h0; h1; h2] ++ body ++ [t]) = body.
Proof.
  unfold recordLines. cbn [Datatypes.app List.length skipn].
  rewrite length_app. cbn [List.length].
  replace (S (S (S (List.length body + 1))) - 1 - 3)%nat with (List.length body) by lia.
  rewrite firstn_app, firstn_all, Nat.sub_diag. simpl. now rewrite app_nil_r.
Qed.

(** A stream of records that evaluate, with no influence index [-1]: the
    loop applies the range commands of the specification and ends with its
    variables reset. *)
Lemma applyWeights_decodeSpec (weightLines : list string) (recs : list (lineArray float)) :
  map eval (recordLines weightLines) = map Some recs ->
  Forall (fun r => 0 <= item2 r) recs ->
  applyWeights weightLines = (map emit (decodeSpec recs), Next initialState).
Proof.
  intros Heval Hpos.
  rewrite applyWeights_runLines, (runLines_runRecords _ recs _ Heval).
  apply runRecords_specRuns.
  eapply Forall_impl; [| exact Hpos]. intros r Hr. cbn beta in Hr. lia.
Qed.

Lemma zeros_repeat (a b : Z) :
  map (fun _ => @Zero float) (Py.range a b) = repeat Zero (Z.to_nat (b - a)).
Proof.
  unfold Py.range. rewrite map_map.
  generalize (Z.to_nat (b - a)) as n. generalize 0%nat as k.
  intros k n. revert k. induction n as [| n IH]; intro k; [reflexivity |].
  cbn [seq map repeat]. now rewrite IH.
Qed.

(** C2: for every well-formed record stream the decoder applies exactly one
    range command per distinct vertex of the stream.  A gap in the influence
    indices of a vertex does not end its run: one zero is appended for every
    index strictly between the run end and the record, and the run is flushed
    only by a record of another vertex or by the end of the records.  Records
    for vertex 5 at influences 0, 1 and 3 with weights 0.2, 0.3 and 0.5 give
    the one command for vertex 5 over [0,3] with buffer [0.2, 0.3, 0, 0.5]. *)
Theorem C2_one_range_per_vertex
        (weightLines : list string) (recs : list (lineArray float)) :
  map eval (recordLines weightLines) = map Some recs ->
  wellFormed recs ->
  applyWeights weightLines = (map emit (decodeSpec recs), Next initialState)
  /\ NoDup (map vertexIndex (decodeSpec recs))
  /\ (forall v, In v (map vertexIndex (decodeSpec recs)) <-> In v (map item0 recs))
  /\ (forall v s e buf r rest,
        item0 r = v ->
        specRuns v s e buf (r :: rest)
        = specRuns v s (item2 r)
                   (buf ++ repeat Zero (Z.to_nat (item2 r - (e + 1))) ++ [Val (item3 r)])
                   rest)
  /\ (forall v s e buf r rest,
        item0 r <> v ->
        specRuns v s e buf (r :: rest)
        = RangeCommand v s e buf :: decodeSpec (r :: rest))
  /\ Forall (fun c => Z.of_nat (List.length (weights c))
                      = influenceIndexEnd c - influenceIndexStart c + 1)
            (decodeSpec recs)
  /\ flat_map entries (decodeSpec recs) = map triple recs
  /\ @applyWeights Literal.python (Py.split Py.newline Example.mergeFile)
     = ([executeCommand
           (SetAttrWeights 4 5 0 (Some 3)
              [Val (Literal.lit "0.2"); Val (Literal.lit "0.3"); Zero;
               Val (Literal.lit "0.5")])],
        Next (@initialState Literal.python)).
Proof.
  intros Heval [Hasc Hpos].
  destruct (decodeSpec_entries recs Hasc) as [Hent Hlen].
  split; [now apply applyWeights_decodeSpec |].
  split; [| split; [| split; [| split; [| split; [| split]]]]].
  - rewrite decodeSpec_vertices.
    apply increasing_NoDup, vertexRuns_increasing, ascending_vertices, Hasc.
  - intro v. rewrite decodeSpec_vertices. apply vertexRuns_In.
  - intros v s e buf r rest Hv. cbn [specRuns].
    apply Z.eqb_eq in Hv. rewrite Hv. now rewrite zeros_repeat.
  - intros v s e buf r rest Hv. cbn [specRuns decodeSpec].
    apply Z.eqb_neq in Hv. now rewrite Hv.
  - exact Hlen.
  - exact Hent.
  - reflexivity.
Qed.

(** An exported table read back: the lines of the file written for a
    table, split again, are applied as exactly the records of the table. *)
Lemma applyWeights_file (h0 h1 h2 : string) (recs : list (lineArray float)) :
  (forall r, In r recs -> eval (str_list r) = Some r) ->
  ascending recs ->
  Forall (fun r => 0 <= item2 r) recs ->
  exists calls,
    applyWeights ([h0; h1; h2] ++ map str_list recs ++ [""%string])
    = (calls, Next initialState)
    /\ flat_map covered calls = map triple recs.
Proof.
  intros Heval Hasc Hpos.
  exists (map emit (decodeSpec recs)). split.
  - apply applyWeights_decodeSpec; [| exact Hpos].
    rewrite recordLines_file, map_map. apply map_ext_in. exact Heval.
  - rewrite covered_emit. now apply decodeSpec_entries.
Qed.

End Decoding.

(** ** Import: what happens before any weight is applied *)

Section Preflight.

Context {py : Python}.

Lemma index_last {A} (l : list A) (d : A) :
  l <> [] -> @index float A l (List.length l - 1)%nat = ret (last l d).
Proof.
  intro Hne. destruct (exists_last Hne) as [l' [a ->]].
  rewrite length_app, last_last. cbn [List.length].
  replace (List.length l' + 1 - 1)%nat with (List.length l') by lia.
  apply index_app_r.
Qed.

Lemma split_nonempty (c : ascii) (s : string) : Py.split c s <> [].
Proof.
  destruct s as [| a s]; [discriminate |].
  cbn [Py.split]. destruct (Ascii.eqb a c); [discriminate |].
  destruct (Py.split c s); discriminate.
Qed.

Lemma orderObjects_reversed (infls : list string) (target : string) :
  orderObjects (infls ++ [target]) target 1 = Some (List.rev infls ++ [target]).
Proof.
  unfold orderObjects, Py.reversed, Py.append. cbn [Z.eqb Pos.eqb].
  rewrite rev_app_distr. reflexivity.
Qed.

Lemma orderObjects_some (objects : list string) (shape : string) (reverseOrder : Z) :
  objects <> [] -> exists ordered, orderObjects objects shape reverseOrder = Some ordered.
Proof.
  intro Hne. unfold orderObjects. destruct (reverseOrder =? 1); [| now eexists].
  unfold Py.reversed. destruct (exists_last Hne) as [l' [a ->]].
  rewrite rev_app_distr. cbn [List.rev Datatypes.app Py.pop0]. now eexists.
Qed.

(** C3: a header line whose tokens are the influence names followed by the
    target name, read with [reverseOrder == 1]: the shape is the last token,
    and the objects are the influences in reversed order followed by the
    target; the line [A B C shapeX] gives [C B A] with [shapeX] last. *)
Theorem C3_reverse_order (line : string) (infls : list string) (target : string) :
  Py.split Py.space line = infls ++ [target] ->
  @index float _ (Py.split Py.space line)
         (List.length (Py.split Py.space line) - 1)%nat = ret target
  /\ orderObjects (Py.split Py.space line) target 1 = Some (List.rev infls ++ [target])
  /\ orderObjects (Py.split Py.space "A B C shapeX") "shapeX" 1
     = Some ["C"; "B"; "A"; "shapeX"]%string.
Proof.
  intro Hsplit. rewrite Hsplit. split; [| split].
  - rewrite (index_last _ ""%string) by now destruct infls.
    now rewrite last_last.
  - apply orderObjects_reversed.
  - reflexivity.
Qed.

(** The import up to the check of the history: the objects are selected, or
    the function returns [()] at once when they cannot be; a shape with a
    skinCluster in its history ends the import with an error. *)
Lemma readWeights_preflight (sc : scene float) (fileName : string) (reverseOrder : Z)
      (data h0 h1 : string) (rest : list string) :
  files sc fileName = Some data ->
  Py.split Py.newline data = h0 :: h1 :: rest ->
  let shape := last (Py.split Py.space h0) ""%string in
  exists objects,
    orderObjects (Py.split Py.space h0) shape reverseOrder = Some objects
    /\ (selectable sc objects = false ->
        readWeights sc fileName reverseOrder = ([], Return PyUnit))
    /\ (selectable sc objects = true ->
        alreadyBound sc shape = true ->
        readWeights sc fileName reverseOrder
        = ([select objects;
            displayError (shape ^^ " is already connected to a skinCluster.")],
           Return (PyInt (-1)))).
Proof.
  intros Hfile Hlines shape.
  destruct (orderObjects_some (Py.split Py.space h0) shape reverseOrder
                              (split_nonempty _ _)) as [objects Hobj].
  exists objects. split; [exact Hobj |].
  split.
  - intro Hsel. unfold readWeights. rewrite Hfile, bind_ret_l, Hlines.
    cbn [index nth_error]. rewrite bind_ret_l.
    rewrite (index_last _ ""%string) by apply split_nonempty.
    rewrite bind_ret_l, bind_ret_l. fold shape. rewrite Hobj.
    cbn [orRaise]. rewrite bind_ret_l, Hsel. reflexivity.
  - intros Hsel Hbound. unfold readWeights. rewrite Hfile, bind_ret_l, Hlines.
    cbn [index nth_error]. rewrite bind_ret_l.
    rewrite (index_last _ ""%string) by apply split_nonempty.
    rewrite bind_ret_l, bind_ret_l. fold shape. rewrite Hobj.
    cbn [orRaise]. rewrite bind_ret_l, Hsel, Hbound. reflexivity.
Qed.

(** The import past its checks: the binding is created, renamed, switched
    to no normalization and pruned, the weight list is sized from the last
    record, the loop runs, and normalization is put back when the loop ends. *)
Lemma readWeights_applyWeights (sc : scene float) (fileName : string) (reverseOrder : Z)
      (data h0 h1 h2 : string) (rest : list string) (objects : list string)
      (lastLine : string) (lastRecord : lineArray float) :
  files sc fileName = Some data ->
  Py.split Py.newline data = h0 :: h1 :: h2 :: rest ->
  let shape := last (Py.split Py.space h0) ""%string in
  let weightLines := h0 :: h1 :: h2 :: rest in
  orderObjects (Py.split Py.space h0) shape reverseOrder = Some objects ->
  selectable sc objects = true ->
  alreadyBound sc shape = false ->
  nth_error weightLines (List.length weightLines - 2)%nat = Some lastLine ->
  eval lastLine = Some lastRecord ->
  readWeights sc fileName reverseOrder
  = (bindingCalls sc objects h1 h2 shape
       ++ [select [h1]; executeCommand (SetAttrSize (item0 lastRecord + 1))]
       ++ fst (applyWeights weightLines)
       ++ match snd (applyWeights weightLines) with
          | Next _ => [setAttrNw h1 (nw sc)]
          | _ => []
          end,
     match snd (applyWeights weightLines) with
     | Next _ => Return (PyInt 1)
     | Return v => Return v
     | Raise => Raise
     end).
Proof.
  intros Hfile Hlines shape weightLines Hobj Hsel Hbound Hlast Heval.
  unfold readWeights. rewrite Hfile, bind_ret_l, Hlines.
  cbn [index nth_error]. rewrite bind_ret_l.
  rewrite (index_last _ ""%string) by apply split_nonempty.
  rewrite bind_ret_l, bind_ret_l. fold shape. rewrite Hobj.
  cbn [orRaise]. rewrite bind_ret_l, Hsel, Hbound.
  fold weightLines. unfold index at 1. rewrite Hlast.
  cbn [bind do ret try Datatypes.app]. rewrite Heval.
  cbn [orRaise bind do ret Datatypes.app].
  destruct (applyWeights weightLines) as [calls [st | v |]]; cbn [fst snd];
    try rewrite app_nil_r; reflexivity.
Qed.

(** The last record line is evaluated first, for the size of the weight
    list: when it does not evaluate the import raises there, the binding
    created and pruned and no weight set. *)
Lemma readWeights_lastLine_raises (sc : scene float) (fileName : string) (reverseOrder : Z)
      (data h0 h1 h2 : string) (rest : list string) (objects : list string)
      (lastLine : string) :
  files sc fileName = Some data ->
  Py.split Py.newline data = h0 :: h1 :: h2 :: rest ->
  let shape := last (Py.split Py.space h0) ""%string in
  let weightLines := h0 :: h1 :: h2 :: rest in
  orderObjects (Py.split Py.space h0) shape reverseOrder = Some objects ->
  selectable sc objects = true ->
  alreadyBound sc shape = false ->
  nth_error weightLines (List.length weightLines - 2)%nat = Some lastLine ->
  eval lastLine = None ->
  readWeights sc fileName reverseOrder
  = (bindingCalls sc objects h1 h2 shape, Raise).
Proof.
  intros Hfile Hlines shape weightLines Hobj Hsel Hbound Hlast Heval.
  unfold readWeights. rewrite Hfile, bind_ret_l, Hlines.
  cbn [index nth_error]. rewrite bind_ret_l.
  rewrite (index_last _ ""%string) by apply split_nonempty.
  rewrite bind_ret_l, bind_ret_l. fold shape. rewrite Hobj.
  cbn [orRaise]. rewrite bind_ret_l, Hsel, Hbound.
  fold weightLines. unfold index at 1. rewrite Hlast.
  cbn [bind do ret try Datatypes.app]. rewrite Heval. reflexivity.
Qed.

(** The line before the last one of a file is its last record line, or the
    third header line when the file has no record. *)
Lemma lastLine_nth (h0 h1 h2 : string) (lines : list string) (t : string) :
  nth_error ([h0; h1; h2] ++ lines ++ [t])
            (List.length ([h0; h1; h2] ++ lines ++ [t]) - 2)%nat
  = Some (last lines h2).
Proof.
  destruct lines as [| l0 lines0]; [reflexivity |].
  assert (Hne : l0 :: lines0 <> []) by discriminate.
  destruct (exists_last Hne) as [body [a Heq]]. rewrite Heq, last_last.
  replace ([h0; h1; h2] ++ (body ++ [a]) ++ [t])
    with (([h0; h1; h2] ++ body) ++ a :: [t])
    by (rewrite <- !app_assoc; reflexivity).
  rewrite nth_error_app2; rewrite !length_app; cbn [List.length]; [| lia].
  replace (3 + List.length body + 2 - 2 - (3 + List.length body))%nat with 0%nat by lia.
  reflexivity.
Qed.

Lemma last_map {A B} (f : A -> B) (l : list A) (d : A) (d' : B) :
  l <> [] -> last (map f l) d' = f (last l d).
Proof.
  intro Hne. destruct (exists_last Hne) as [body [a ->]].
  rewrite map_app. cbn [map]. now rewrite !last_last.
Qed.

End Preflight.

(** ** The guards of the import and of the command *)

Section Guards.

Context {py : Python}.

(** C6: an import whose target shape already has a skinCluster in its
    history ends with the already-bound error and the value [-1], having
    selected the objects and nothing more: no binding is created or renamed,
    normalization is not touched, nothing is pruned and no weight is set. *)
Theorem C6_already_bound
        (sc : scene float) (fileName : string) (reverseOrder : Z)
        (data h0 h1 : string) (rest : list string) (objects : list string) :
  files sc fileName = Some data ->
  Py.split Py.newline data = h0 :: h1 :: rest ->
  orderObjects (Py.split Py.space h0) (last (Py.split Py.space h0) ""%string) reverseOrder
  = Some objects ->
  selectable sc objects = true ->
  alreadyBound sc (last (Py.split Py.space h0) ""%string) = true ->
  readWeights sc fileName reverseOrder
  = ([select objects;
      displayError (last (Py.split Py.space h0) ""%string
                    ^^ " is already connected to a skinCluster.")],
     Return (PyInt (-1)))
  /\ Forall (fun c => mutating c = false) (fst (readWeights sc fileName reverseOrder)).
Proof.
  intros Hfile Hlines Hobj Hsel Hbound.
  destruct (readWeights_preflight sc fileName reverseOrder data h0 h1 rest Hfile Hlines)
    as (objects' & Hobj' & _ & Hrun).
  rewrite Hobj in Hobj'. injection Hobj' as <-.
  rewrite (Hrun Hsel Hbound). split; [reflexivity |].
  cbn [fst]. repeat constructor.
Qed.

(** C9, as the code has it: when the objects named on the first line cannot
    be selected, the import returns the empty tuple at once.  It makes no
    call at all: nothing of the destination is changed, and no error is
    displayed; the value [()] is neither the [-1] of the other failures nor
    the [1] of a completed import, and the command that ran the import
    displays nothing either. *)
Theorem C9_select_failure_returns_unit
        (sc : scene float) (fileName : string) (reverseOrder : Z)
        (data h0 h1 : string) (rest : list string) (objects : list string) :
  files sc fileName = Some data ->
  Py.split Py.newline data = h0 :: h1 :: rest ->
  orderObjects (Py.split Py.space h0) (last (Py.split Py.space h0) ""%string) reverseOrder
  = Some objects ->
  selectable sc objects = false ->
  readWeights sc fileName reverseOrder = ([], Return PyUnit)
  /\ result (readWeights sc fileName reverseOrder) = ([], Some PyUnit)
  /\ PyUnit <> PyInt (-1) /\ PyUnit <> PyInt 1
  /\ (fileName <> ""%string ->
      forall exclusive,
        doIt sc (Args false (Some 1) (Some reverseOrder) exclusive (Some fileName))
        = ([], Next tt)).
Proof.
  intros Hfile Hlines Hobj Hsel.
  destruct (readWeights_preflight sc fileName reverseOrder data h0 h1 rest Hfile Hlines)
    as (objects' & Hobj' & Hrun & _).
  rewrite Hobj in Hobj'. injection Hobj' as <-.
  rewrite (Hrun Hsel). repeat split; try discriminate.
  intros Hname exclusive. apply String.eqb_neq in Hname.
  unfold doIt. cbn -[readWeights String.eqb].
  rewrite Hname. cbn -[readWeights].
  rewrite (Hrun Hsel). reflexivity.
Qed.

(** C10, as the code has it: the help flag is looked at first.  Without
    it, a command whose file flag is absent, whose file name is empty or
    whose mode is outside [0,1] displays one error and returns.  With it, the
    command answers the help text and returns, displaying no error.  Either
    way such a command calls neither [writeWeights] nor [readWeights]. *)
Theorem C10_bad_arguments (sc : scene float) (a : args) :
  fileFlag a = None \/ fileFlag a = Some ""%string
  \/ (match modeFlag a with Some m => m | None => 0 end < 0)
  \/ (1 < match modeFlag a with Some m => m | None => 0 end) ->
  (helpFlag a = false ->
   exists msg, doIt sc a = ([displayError msg], Return PyUnit))
  /\ (helpFlag a = true ->
      doIt sc a = ([setResult helpText], Return PyUnit)
      /\ existsb isError (fst (doIt sc a)) = false)
  /\ Forall (fun c => transfers c = false) (fst (doIt sc a)).
Proof.
  intro Hbad.
  assert (Hcases : helpFlag a = false ->
                   exists msg, doIt sc a = ([displayError msg], Return PyUnit)).
  { intro Hh. unfold doIt. rewrite Hh, bind_ret_l.
    destruct (fileFlag a) as [f |] eqn:Ef.
    - rewrite bind_ret_l.
      destruct (String.eqb f "") eqn:Ename; [eexists; reflexivity |].
      rewrite bind_ret_l.
      destruct Hbad as [Hb | [Hb | Hb]]; [discriminate | |].
      + injection Hb as ->. discriminate.
      + replace ((_ <? 0) || (_ >? 1)) with true; [eexists; reflexivity |].
        symmetry. apply orb_true_iff.
        destruct Hb as [Hb | Hb]; [left; now apply Z.ltb_lt | right].
        rewrite Z.gtb_ltb. now apply Z.ltb_lt.
    - eexists; reflexivity. }
  assert (Hhelp : helpFlag a = true ->
                  doIt sc a = ([setResult helpText], Return PyUnit)).
  { intro Hh. unfold doIt. rewrite Hh. reflexivity. }
  split; [exact Hcases |]. split.
  - intro Hh. rewrite (Hhelp Hh). split; reflexivity.
  - destruct (helpFlag a) eqn:Hh.
    + rewrite (Hhelp eq_refl). repeat constructor.
    + destruct (Hcases eq_refl) as [msg ->]. repeat constructor.
Qed.

End Guards.

(** ** Import: streams out of order, and lines that do not evaluate *)

Section Streams.

Context {py : Python}.

(** Whatever the order of the records, the loop runs to its end, and writes
    one command for every run of neighbours with the same vertex. *)
Lemma runRecords_total (recs : list (lineArray float)) :
  forall st,
    writeData st = 0 ->
    exists calls st',
      runRecords recs st = (calls, Next st')
      /\ writeData st' = 0
      /\ flat_map writtenVertex calls = vertexRuns (map item0 recs).
Proof.
  induction recs as [| r rest IH]; intros st Hwd.
  - exists [], st. now repeat split.
  - cbn [runRecords]. rewrite Hwd.
    destruct (extendRange st r) as [[[ws start] stop] count] eqn:He.
    destruct rest as [| r' rest'].
    + rewrite (applyRecord_flush st r r 1 _ _ _ _ He) by now left.
      rewrite bind_next. eexists _, _. now repeat split.
    + destruct (Z.eq_dec (item0 r) (item0 r')) as [Heq | Hne].
      * rewrite (applyRecord_keep st r r' _ _ _ _ He Heq), bind_next.
        destruct (IH (RangeState (ws ++ [Val (item3 r)]) start stop (count + 1) 0) eq_refl)
          as (calls & st' & Hrun & Hwd' & Hv).
        rewrite Hrun. exists calls, st'. cbn [fst snd Datatypes.app].
        repeat split; [exact Hwd' |].
        rewrite Hv. cbn [map vertexRuns]. apply Z.eqb_eq in Heq. now rewrite Heq.
      * rewrite (applyRecord_flush st r r' 0 _ _ _ _ He) by now right.
        rewrite bind_next.
        destruct (IH initialState eq_refl) as (calls & st' & Hrun & Hwd' & Hv).
        rewrite Hrun. eexists _, st'. cbn [fst snd].
        repeat split; [exact Hwd' |].
        cbn [Datatypes.app flat_map writtenVertex]. rewrite Hv.
        cbn [map vertexRuns]. apply Z.eqb_neq in Hne. now rewrite Hne.
Qed.

(** The loop does not look at the order of the records: whatever it is, a
    stream whose lines evaluate is applied to its end, one command for every
    run of neighbouring records with the same vertex index. *)
Lemma applyWeights_any_order
      (weightLines : list string) (recs : list (lineArray float)) :
  map eval (recordLines weightLines) = map Some recs ->
  exists calls st,
    applyWeights weightLines = (calls, Next st)
    /\ flat_map writtenVertex calls = vertexRuns (map item0 recs).
Proof.
  intro Heval.
  rewrite applyWeights_runLines, (runLines_runRecords _ recs _ Heval).
  destruct (runRecords_total recs initialState eq_refl) as (calls & st & Hrun & _ & Hv).
  now exists calls, st.
Qed.




Lemma last_default {A} (l : list A) (d d' : A) : l <> [] -> last l d = last l d'.
Proof.
  intro Hne. destruct (exists_last Hne) as [body [a ->]]. now rewrite !last_last.
Qed.


(** C5, as the code has it: the decoder does not check the order of the
    records.  For every record stream whose lines evaluate, ascending or
    not, no format error is raised: the loop runs to its end and applies one
    command for every run of neighbouring records with the same vertex
    index, and an import that passed its checks returns 1. *)
Theorem C5_order_is_not_checked
        (sc : scene float) (fileName : string) (reverseOrder : Z)
        (data h0 h1 h2 : string) (lines : list string) (t : string)
        (objects : list string) (recs : list (lineArray float)) :
  files sc fileName = Some data ->
  Py.split Py.newline data = [h0; h1; h2] ++ lines ++ [t] ->
  orderObjects (Py.split Py.space h0) (last (Py.split Py.space h0) ""%string) reverseOrder
  = Some objects ->
  selectable sc objects = true ->
  alreadyBound sc (last (Py.split Py.space h0) ""%string) = false ->
  map eval lines = map Some recs ->
  exists calls st,
    applyWeights ([h0; h1; h2] ++ lines ++ [t]) = (calls, Next st)
    /\ flat_map writtenVertex calls = vertexRuns (map item0 recs)
    /\ (forall lastRecord,
          last (map Some recs) None = Some lastRecord ->
          readWeights sc fileName reverseOrder
          = (bindingCalls sc objects h1 h2 (last (Py.split Py.space h0) ""%string)
               ++ [select [h1]; executeCommand (SetAttrSize (item0 lastRecord + 1))]
               ++ calls ++ [setAttrNw h1 (nw sc)],
             Return (PyInt 1))).
Proof.
  intros Hfile Hlines Hobj Hsel Hbound Heval.
  destruct (applyWeights_any_order ([h0; h1; h2] ++ lines ++ [t]) recs)
    as (calls & st & Hrun & Hv); [now rewrite recordLines_file |].
  exists calls, st. split; [exact Hrun |]. split; [exact Hv |].
  intros lastRecord Hlast.
  assert (Hne : lines <> []).
  { intros ->. destruct recs; [discriminate Hlast | discriminate Heval]. }
  rewrite (readWeights_applyWeights sc fileName reverseOrder data h0 h1 h2
             (lines ++ [t]) objects (last lines h2) lastRecord
             Hfile Hlines Hobj Hsel Hbound (lastLine_nth h0 h1 h2 lines t)).
  - change (h0 :: h1 :: h2 :: lines ++ [t]) with ([h0; h1; h2] ++ lines ++ [t]).
    rewrite Hrun. reflexivity.
  - rewrite <- (last_map eval lines h2 None Hne), Heval. exact Hlast.
Qed.


(** C1: a table written by the exporter and read back.  Decoding the file
    written for a table applies exactly the entries of the table whose weight
    is above zero: every (vertex, influence, weight) triple set by the emitted
    commands, the zeros that fill gaps apart, is an entry of the table, every
    such entry is set, and none is set twice.  This is so of the loop over
    the lines of the file, and of the whole import when its checks pass and
    the table has an entry above zero. *)
Theorem C1_round_trip
        (sc : scene float) (fileName node : string) (infls : list string)
        (shape : string) :
  rectangular infls (skinWeights sc) ->
  writable sc fileName = true ->
  (forall r, In r (tableRecords infls 0 (skinWeights sc)) -> eval (str_list r) = Some r) ->
  Forall (fun line => Py.lacks Py.newline line = true)
         (fileLines sc node infls shape (tableRecords infls 0 (skinWeights sc))) ->
  exists content calls,
    writeSingle sc fileName node infls shape
    = ([openWrite fileName; write fileName content], Next tt)
    /\ applyWeights (Py.split Py.newline content) = (calls, Next initialState)
    /\ flat_map covered calls = map triple (tableRecords infls 0 (skinWeights sc))
    /\ (forall v j w,
          In (v, j, w) (flat_map covered calls) <->
          exists v' j' name,
            v = Z.of_nat v' /\ j = Z.of_nat j'
            /\ nth_error infls j' = Some name
            /\ weightAt (skinWeights sc) v' j' = Some w
            /\ gt0 w = true)
    /\ NoDup (map (fun t => (fst (fst t), snd (fst t))) (flat_map covered calls))
    /\ (forall (destination : scene float) (importName : string) (reverseOrder : Z)
               (objects : list string) (lastRecord : lineArray float),
          files destination importName = Some content ->
          orderObjects (Py.split Py.space (Py.join " " (Py.append infls shape)))
                       (last (Py.split Py.space (Py.join " " (Py.append infls shape)))
                             ""%string)
                       reverseOrder
          = Some objects ->
          selectable destination objects = true ->
          alreadyBound destination
                       (last (Py.split Py.space (Py.join " " (Py.append infls shape)))
                             ""%string) = false ->
          last (map Some (tableRecords infls 0 (skinWeights sc))) None = Some lastRecord ->
          snd (readWeights destination importName reverseOrder) = Return (PyInt 1)
          /\ flat_map covered (fst (readWeights destination importName reverseOrder))
             = flat_map covered calls).
Proof.
  intros Hrect Hw Heval Hnl.
  set (recs := tableRecords infls 0 (skinWeights sc)) in *.
  destruct (table_ascending infls (skinWeights sc) 0) as [Hasc Hpos].
  fold recs in Hasc, Hpos.
  assert (Hpos2 : Forall (fun r => 0 <= item2 r) recs).
  { eapply Forall_impl; [| exact Hpos]. now intros r [_ H]. }
  set (h0 := Py.join " " (Py.append infls shape)).
  set (h2 := "-nw " ^^ Py.str_int (normalizeWeights sc node)
             ^^ " -mi " ^^ Py.str_int (maxInfluences sc node)
             ^^ " -dr " ^^ str_float (dropoff sc node)).
  destruct (applyWeights_file h0 node h2 recs Heval Hasc Hpos2) as (calls & Happly & Hcov).
  assert (Hsplit : Py.split Py.newline (Py.join nl (fileLines sc node infls shape recs))
                   = [h0; node; h2] ++ map str_list recs ++ [""%string]).
  { unfold nl. rewrite split_join; [reflexivity | discriminate | exact Hnl]. }
  exists (Py.join nl (fileLines sc node infls shape recs)), calls.
  split; [now apply writeSingle_writes |].
  split; [now rewrite Hsplit |].
  split; [exact Hcov |].
  split; [| split].
  - intros v j w. rewrite Hcov, in_map_iff. split.
    + intros (r & Ht & Hr). apply tableRecords_In in Hr.
      destruct Hr as (v' & j' & w' & name & Hw' & Hn & Hg & ->).
      unfold triple in Ht. cbn [item0 item2 item3] in Ht.
      injection Ht as <- <- <-. now exists v', j', name.
    + intros (v' & j' & name & -> & -> & Hn & Hw' & Hg).
      exists (LineArray (Z.of_nat v') name (Z.of_nat j') w). split; [reflexivity |].
      apply tableRecords_In. now exists v', j', w, name.
  - rewrite Hcov, map_map.
    change (map (fun x => (fst (fst (triple x)), snd (fst (triple x)))) recs)
      with (map key recs).
    now apply ascending_NoDup.
  - intros destination importName reverseOrder objects lastRecord
           Hfile Hobj Hsel Hbound Hlast.
    assert (Hne : map str_list recs <> []).
    { destruct recs; [discriminate Hlast | discriminate]. }
    assert (Hmap : map eval (map str_list recs) = map Some recs).
    { rewrite map_map. apply map_ext_in. exact Heval. }
    rewrite (readWeights_applyWeights destination importName reverseOrder _ h0 node h2
               (map str_list recs ++ [""%string]) objects
               (last (map str_list recs) h2) lastRecord
               Hfile Hsplit Hobj Hsel Hbound
               (lastLine_nth h0 node h2 (map str_list recs) ""%string)).
    + change (h0 :: node :: h2 :: map str_list recs ++ [""%string])
        with ([h0; node; h2] ++ map str_list recs ++ [""%string]).
      rewrite Happly. cbn [fst snd]. split; [reflexivity |].
      unfold bindingCalls. cbn [Datatypes.app flat_map covered].
      rewrite flat_map_app. cbn [flat_map covered]. now rewrite app_nil_r.
    + rewrite <- (last_map eval (map str_list recs) h2 None Hne), Hmap. exact Hlast.
Qed.

End Streams.

(** ** Export: one file per influence *)

Section Exclusive.

Context {py : Python}.

Lemma exclusiveLines_dense (j : nat) (rows : list (list float)) :
  forall first,
    Forall (fun value => (j < List.length value)%nat) rows ->
    exclusiveLines j first rows = Some (denseLines j first rows)
    /\ List.length (denseLines j first rows) = List.length rows.
Proof.
  induction rows as [| value rows IH]; intros first Hall; [now split |].
  inversion Hall as [| ? ? Hv Hrest]; subst.
  destruct (IH (S first) Hrest) as [IHe IHl].
  unfold denseLines in *. cbn [exclusiveLines List.length seq combine flat_map fst snd].
  destruct (nth_error value j) as [w |] eqn:Ew; [| apply nth_error_None in Ew; lia].
  rewrite IHe. cbn [Datatypes.app List.length]. now rewrite IHl.
Qed.

Lemma denseLines_In (j : nat) (rows : list (list float)) (v : nat)
      (value : list float) (w : float) :
  nth_error rows v = Some value ->
  nth_error value j = Some w ->
  In (Py.str_int (Z.of_nat v) ^^ " " ^^ str_float w) (denseLines j 0 rows).
Proof.
  intros Hrow Hw. unfold denseLines. apply in_flat_map.
  exists (v, value). split.
  - apply combine_seq_In. rewrite Nat.sub_0_r. split; [lia | exact Hrow].
  - cbn [fst snd]. rewrite Hw. now left.
Qed.

Lemma exclusiveLoop_writes (sc : scene float) (dataPath : string) (tail : list string) :
  forall done,
    rectangular (done ++ tail) (normalizedWeights sc) ->
    (forall name, In name tail -> writable sc (bswFile dataPath name) = true) ->
    exclusiveLoop sc dataPath (done ++ tail) (seq (List.length done) (List.length tail))
    = (exclusiveWrites dataPath (List.length done) tail (normalizedWeights sc), Next tt).
Proof.
  induction tail as [| name tail IH]; intros done Hrect Hw; [reflexivity |].
  cbn [List.length seq exclusiveLoop].
  rewrite index_app_r, bind_ret_l.
  fold (bswFile dataPath name). rewrite (Hw name) by now left.
  destruct (exclusiveLines_dense (List.length done) (normalizedWeights sc) 0) as [Hlines _].
  { eapply Forall_impl; [| exact Hrect]. intros value Hlen. cbn beta in Hlen.
    rewrite length_app in Hlen. cbn [List.length] in Hlen. lia. }
  rewrite Hlines. cbn [orRaise].
  specialize (IH (done ++ [name])).
  rewrite <- app_assoc, length_app in IH. cbn [Datatypes.app List.length] in IH.
  rewrite Nat.add_1_r in IH.
  unfold exclusiveWrites. cbn [List.length seq combine flat_map fst snd].
  fold (exclusiveWrites dataPath (S (List.length done)) tail (normalizedWeights sc)).
  cbn [bind do ret try Datatypes.app].
  rewrite IH; [reflexivity | exact Hrect |].
  intros name' Hin. apply Hw. now right.
Qed.

(** C8, as the code has it: the exclusive export writes, under the
    directory named after the cluster, one file for every influence, and in
    it one line ["<vertexIndex> <weight>"] for every vertex, whatever the
    weight: a vertex whose weight for the influence is zero has its line
    too. *)
Theorem C8_exclusive_files_are_dense
        (sc : scene float) (fileName node : string) (infls : list string) :
  rectangular infls (normalizedWeights sc) ->
  (forall name, In name infls ->
                writable sc (bswFile (fileName ^^ "/" ^^ node) name) = true) ->
  pathExists sc (fileName ^^ "/" ^^ node) = true
  \/ creatable sc (fileName ^^ "/" ^^ node) = true ->
  writeExclusive sc fileName node infls
  = (forceNormalizeWeights node
       :: (if pathExists sc (fileName ^^ "/" ^^ node) then []
           else [makedirs (fileName ^^ "/" ^^ node)])
       ++ exclusiveWrites (fileName ^^ "/" ^^ node) 0 infls (normalizedWeights sc),
     Next tt)
  /\ (forall j, (j < List.length infls)%nat ->
        List.length (denseLines j 0 (normalizedWeights sc))
        = List.length (normalizedWeights sc))
  /\ (forall j v w, (j < List.length infls)%nat ->
        weightAt (normalizedWeights sc) v j = Some w ->
        In (Py.str_int (Z.of_nat v) ^^ " " ^^ str_float w)
           (denseLines j 0 (normalizedWeights sc))).
Proof.
  intros Hrect Hw Hdir. split; [| split].
  - unfold writeExclusive.
    pose proof (exclusiveLoop_writes sc (fileName ^^ "/" ^^ node) infls [] Hrect Hw) as Hloop.
    cbn [List.length Datatypes.app] in Hloop.
    destruct (pathExists sc (fileName ^^ "/" ^^ node)) eqn:Hp.
    + cbn [negb]. cbn [bind do ret]. rewrite Hloop. reflexivity.
    + destruct Hdir as [Hd | Hd]; [discriminate |].
      cbn [negb]. rewrite Hd. cbn [bind do ret try]. rewrite Hloop. reflexivity.
  - intros j Hj. apply exclusiveLines_dense.
    eapply Forall_impl; [| exact Hrect]. intros value Hlen. cbn beta in Hlen. lia.
  - intros j v w Hj Hweight. unfold weightAt in Hweight.
    destruct (nth_error (normalizedWeights sc) v) as [value |] eqn:Hrow; [| discriminate].
    now apply (denseLines_In j _ v value w).
Qed.

End Exclusive.

(** * The claims on concrete files *)

Module Concrete.

Import Example.

#[local] Existing Instance Literal.python.

Ltac ascend :=
  repeat first
    [ apply SSorted_nil | apply Forall_nil
    | apply SSorted_cons | apply Forall_cons
    | (left; cbn; lia) | (right; cbn; lia) | (cbn; lia) ].

(** The cluster [skinA] exported to a single file, and the file imported. *)
Example skinA_exported :
  writeWeights exportScene "skinA.scw" 0
  = ([select ["Mesh"%string]; openWrite "skinA.scw"; write "skinA.scw" skinAFile],
     Return (PyInt 1)).
Proof. reflexivity. Qed.

Example skinA_imported :
  readWeights (importScene skinAFile) "skinA.scw" 0
  = (bindingCalls (importScene skinAFile) ["J1"; "J2"; "Mesh"]%string
                  "skinA" "-nw 1 -mi 4 -dr 4.0" "Mesh"
       ++ [ select ["skinA"%string];
            executeCommand (SetAttrSize 2);
            executeCommand
              (SetAttrWeights 2 0 0 (Some 1)
                 [Val (Literal.lit "0.6"); Val (Literal.lit "0.4")]);
            executeCommand (SetAttrWeights 1 1 1 None [Val (Literal.lit "1.0")]);
            setAttrNw "skinA" 1 ],
     Return (PyInt 1)).
Proof. reflexivity. Qed.

(** The command string of the range of vertex 5. *)
Example merge_cmdString :
  cmdString (SetAttrWeights 4 5 0 (Some 3)
               [Val (Literal.lit "0.2"); Val (Literal.lit "0.3"); Zero;
                Val (Literal.lit "0.5")])
  = "setAttr -s 4 " ^^ dquote ^^ ".weightList[5].weights[0:3]" ^^ dquote
      ^^ " 0.2 0.3 0 0.5 ".
Proof. reflexivity. Qed.

Lemma C1_round_trip_witness :
  exists content calls,
    writeSingle exportScene "skinA.scw" "skinA" ["J1"; "J2"]%string "Mesh"
    = ([openWrite "skinA.scw"; write "skinA.scw" content], Next tt)
    /\ applyWeights (Py.split Py.newline content) = (calls, Next initialState)
    /\ flat_map covered calls
       = [ (0, 0, Literal.lit "0.6"); (0, 1, Literal.lit "0.4");
           (1, 1, Literal.lit "1.0") ].
Proof.
  destruct (@C1_round_trip Literal.python exportScene "skinA.scw" "skinA"
                           ["J1"; "J2"]%string "Mesh")
    as (content & calls & Hwrite & Hread & Hcovered & _).
  - repeat constructor.
  - reflexivity.
  - intros r Hr. vm_compute in Hr.
    destruct Hr as [<- | [<- | [<- | []]]]; reflexivity.
  - vm_compute. repeat constructor.
  - exists content, calls. split; [exact Hwrite |]. split; [exact Hread |]. exact Hcovered.
Defined.

Lemma C2_one_range_per_vertex_witness :
  applyWeights (Py.split Py.newline mergeFile)
  = (map emit (decodeSpec mergeRecords), Next initialState)
  /\ map vertexIndex (decodeSpec mergeRecords) = [5]
  /\ map weights (decodeSpec mergeRecords)
     = [[Val (Literal.lit "0.2"); Val (Literal.lit "0.3"); Zero; Val (Literal.lit "0.5")]].
Proof.
  destruct (@C2_one_range_per_vertex Literal.python
              (Py.split Py.newline mergeFile) mergeRecords)
    as (Hrun & _).
  - reflexivity.
  - split; unfold ascending, mergeRecords; ascend.
  - split; [exact Hrun |]. split; reflexivity.
Defined.

Lemma C3_reverse_order_witness :
  orderObjects (Py.split Py.space "A B C shapeX") "shapeX" 1
  = Some (List.rev ["A"; "B"; "C"]%string ++ ["shapeX"%string]).
Proof.
  exact (proj1 (proj2 (@C3_reverse_order Literal.python "A B C shapeX"
                         ["A"; "B"; "C"]%string "shapeX" eq_refl))).
Defined.

Lemma C4_one_record_per_positive_weight_witness :
  exists recs,
    writeSingle exportScene "skinA.scw" "skinA" ["J1"; "J2"]%string "Mesh"
    = ([openWrite "skinA.scw";
        write "skinA.scw"
              (Py.join nl (headerLines exportScene "skinA" ["J1"; "J2"]%string "Mesh"
                           ++ map str_list recs ++ [""%string]))],
       Next tt)
    /\ NoDup (map key recs)
    /\ ascending recs.
Proof.
  destruct (@C4_one_record_per_positive_weight Literal.python exportScene
              "skinA.scw" "skinA" ["J1"; "J2"]%string "Mesh")
    as (recs & Hwrite & _ & _ & _ & Hnodup & Hasc).
  - repeat constructor.
  - reflexivity.
  - exists recs. split; [exact Hwrite |]. split; [exact Hnodup | exact Hasc].
Defined.

(** C5 fails on the code: records out of order are applied, and the
    import returns 1. *)
Lemma C5_unordered_stream_is_applied :
  map eval (recordLines (Py.split Py.newline unorderedFile)) = map Some unorderedRecords
  /\ ~ ascending unorderedRecords
  /\ readWeights (importScene unorderedFile) "f" 0
     = ([ select ["A"; "B"; "shapeX"]%string;
          newSkinCluster "-tsb -bm 0 -nw 1 -mi 4 -dr 4.0-omi true -rui false";
          rename "skinCluster1" "skinB";
          setAttrNw "skinB" 0;
          skinPercentPrune "skinB" "shapeX";
          select ["skinB"%string];
          executeCommand (SetAttrSize 1);
          executeCommand
            (SetAttrWeights 2 1 1 (Some 0)
               [Val (Literal.lit "0.5"); Val (Literal.lit "0.5")]);
          executeCommand (SetAttrWeights 1 0 0 None [Val (Literal.lit "1.0")]);
          setAttrNw "skinB" 1 ],
        Return (PyInt 1)).
Proof.
  split; [reflexivity |]. split; [| reflexivity].
  intro Hasc. inversion Hasc as [| ? ? _ Hall]; subst.
  inversion Hall as [| ? ? Hlt _]; subst.
  destruct Hlt as [Hlt | [_ Hlt]]; cbn in Hlt; lia.
Qed.

Lemma C5_order_is_not_checked_witness :
  exists calls st,
    applyWeights (Py.split Py.newline unorderedFile) = (calls, Next st)
    /\ flat_map writtenVertex calls = [1; 0]
    /\ snd (readWeights (importScene unorderedFile) "f" 0) = Return (PyInt 1).
Proof.
  destruct (@C5_order_is_not_checked Literal.python (importScene unorderedFile) "f" 0
              unorderedFile "A B shapeX" "skinB" "-nw 1 -mi 4 -dr 4.0"
              ["[1, 'B', 1, 0.5]"; "[1, 'A', 0, 0.5]"; "[0, 'A', 0, 1.0]"]%string ""
              ["A"; "B"; "shapeX"]%string unorderedRecords
              eq_refl eq_refl eq_refl eq_refl eq_refl eq_refl)
    as (calls & st & Hrun & Hv & Hread).
  exists calls, st. split; [exact Hrun |]. split; [exact Hv |].
  now rewrite (Hread _ eq_refl).
Defined.

Lemma C6_already_bound_witness :
  readWeights (boundScene skinAFile) "f" 0
  = ([select ["J1"; "J2"; "Mesh"]%string;
      displayError "Mesh is already connected to a skinCluster."],
     Return (PyInt (-1)))
  /\ Forall (fun c => mutating c = false) (fst (readWeights (boundScene skinAFile) "f" 0)).
Proof.
  exact (@C6_already_bound Literal.python (boundScene skinAFile) "f" 0 skinAFile
           "J1 J2 Mesh" "skinA"
           [ "-nw 1 -mi 4 -dr 4.0"; "[0, 'J1', 0, 0.6]"; "[0, 'J2', 1, 0.4]";
             "[1, 'J2', 1, 1.0]"; "" ]%string
           ["J1"; "J2"; "Mesh"]%string
           eq_refl eq_refl eq_refl eq_refl eq_refl).
Defined.



(** C8 fails on the code: vertex 1 has weight 0.0 for [J1], and the file of
    [J1] holds its line. *)
Lemma C8_zero_weight_is_written :
  weightAt (normalizedWeights exportScene) 1 0 = Some (Literal.lit "0.0")
  /\ gt0 (Literal.lit "0.0") = false
  /\ writeWeights exportScene "out" 1
     = ([ select ["Mesh"%string];
          forceNormalizeWeights "skinA";
          makedirs "out/skinA";
          openWrite "out/skinA/J1.bsw";
          write "out/skinA/J1.bsw" (text ["0 0.6"; "1 0.0"; ""]%string);
          openWrite "out/skinA/J2.bsw";
          write "out/skinA/J2.bsw" (text ["0 0.4"; "1 1.0"; ""]%string) ],
        Return (PyInt 1)).
Proof. repeat split. Qed.

Lemma C8_exclusive_files_are_dense_witness :
  writeExclusive exportScene "out" "skinA" ["J1"; "J2"]%string
  = ([ forceNormalizeWeights "skinA";
       makedirs "out/skinA";
       openWrite "out/skinA/J1.bsw";
       write "out/skinA/J1.bsw" (text ["0 0.6"; "1 0.0"; ""]%string);
       openWrite "out/skinA/J2.bsw";
       write "out/skinA/J2.bsw" (text ["0 0.4"; "1 1.0"; ""]%string) ],
     Next tt).
Proof.
  refine (proj1 (@C8_exclusive_files_are_dense Literal.python exportScene
                   "out" "skinA" ["J1"; "J2"]%string _ _ _)).
  - repeat constructor.
  - intros name _. reflexivity.
  - right. reflexivity.
Defined.

(** C9 fails on the code: a name that cannot be selected ends the import
    without any message, in [readWeights] and in the command. *)
Lemma C9_silent_return :
  readWeights (missingScene skinAFile) "f" 0 = ([], Return PyUnit)
  /\ doIt (missingScene skinAFile) (Args false (Some 1) None None (Some "f"%string))
     = ([], Next tt)
  /\ existsb isError
       (fst (doIt (missingScene skinAFile) (Args false (Some 1) None None (Some "f"%string))))
     = false.
Proof. repeat split. Qed.

Lemma C9_select_failure_returns_unit_witness :
  readWeights (missingScene skinAFile) "f" 0 = ([], Return PyUnit).
Proof.
  exact (proj1 (@C9_select_failure_returns_unit Literal.python (missingScene skinAFile)
                  "f" 0 skinAFile "J1 J2 Mesh" "skinA"
                  [ "-nw 1 -mi 4 -dr 4.0"; "[0, 'J1', 0, 0.6]"; "[0, 'J2', 1, 0.4]";
                    "[1, 'J2', 1, 1.0]"; "" ]%string
                  ["J1"; "J2"; "Mesh"]%string
                  eq_refl eq_refl eq_refl eq_refl)).
Defined.

(** C10 fails on the code: with the help flag set and no file flag, the
    command answers the help text and displays no error. *)
Lemma C10_help_without_file :
  fileFlag (Args true None None None None) = None
  /\ doIt exportScene (Args true None None None None)
     = ([setResult helpText], Return PyUnit)
  /\ existsb isError (fst (doIt exportScene (Args true None None None None))) = false.
Proof. repeat split. Qed.

Lemma C10_bad_arguments_witness :
  exists msg,
    doIt exportScene (Args false (Some 2) None None (Some "skinA.scw"%string))
    = ([displayError msg], Return PyUnit).
Proof.
  refine (proj1 (@C10_bad_arguments Literal.python exportScene
                   (Args false (Some 2) None None (Some "skinA.scw"%string)) _) eq_refl).
  right. right. right. cbn. lia.
Defined.

End Concrete.

(** * More of the plug-in *)

(** ** The loop, on any file *)

Section LoopInvariants.

Context {py : Python}.

Lemma extendRange_counted (st : rangeState) (r : lineArray float)
      (ws : list (weightToken float)) (start stop count : Z) :
  setCount st = Z.of_nat (List.length (weightString st)) ->
  extendRange st r = (ws, start, stop, count) ->
  count = Z.of_nat (List.length ws)
  /\ valuesOf ws = valuesOf (weightString st).
Proof.
  intros Hc He.
  assert (Hz : forall xs : list Z, valuesOf (map (fun _ => @Zero float) xs) = []).
  { induction xs as [| x xs IH]; [reflexivity | exact IH]. }
  assert (Happ : forall a b : list (weightToken float),
             valuesOf (a ++ b) = valuesOf a ++ valuesOf b).
  { induction a as [| t a IH]; intro b; [reflexivity |].
    destruct t; cbn [Datatypes.app valuesOf]; now rewrite IH. }
  destruct (Z.eq_dec (inflStart st) (-1)) as [Hs | Hs].
  - rewrite (extendRange_fresh st r Hs) in He. injection He as <- _ _ <-. now split.
  - rewrite (extendRange_started st r Hs) in He. injection He as <- _ _ <-. split.
    + rewrite length_app, length_map, Hc. lia.
    + now rewrite Happ, Hz, app_nil_r.
Qed.

Lemma valuesOf_app (a b : list (weightToken float)) :
  valuesOf (a ++ b) = valuesOf a ++ valuesOf b.
Proof.
  induction a as [| t a IH]; [reflexivity |].
  destruct t; cbn [Datatypes.app valuesOf]; now rewrite IH.
Qed.

(** One record: either its run is written, well counted, and the variables
    are reset, or nothing is written and the weight joins the buffer. *)
Lemma applyRecord_counted (st : rangeState) (r next : lineArray float) (wd : Z) :
  counted st ->
  wd = 0 \/ wd = 1 ->
  exists calls st',
    applyRecord st r next wd = (calls, Next st')
    /\ counted st'
    /\ Forall wellCounted calls
    /\ flat_map appliedWeights calls ++ valuesOf (weightString st')
       = valuesOf (weightString st) ++ [item3 r]
    /\ (wd = 1 -> st' = initialState).
Proof.
  intros [Hc Hwd0] Hwd.
  destruct (extendRange st r) as [[[ws start] stop] count] eqn:He.
  destruct (extendRange_counted st r ws start stop count Hc He) as [Hcount Hvals].
  assert (Hflush : wd = 1 \/ item0 r <> item0 next ->
                   exists calls st',
                     applyRecord st r next wd = (calls, Next st')
                     /\ counted st'
                     /\ Forall wellCounted calls
                     /\ flat_map appliedWeights calls ++ valuesOf (weightString st')
                        = valuesOf (weightString st) ++ [item3 r]
                     /\ (wd = 1 -> st' = initialState)).
  { intro Hw. rewrite (applyRecord_flush st r next wd _ _ _ _ He Hw).
    eexists _, _. split; [reflexivity |]. split; [now split |]. split.
    - constructor; [| constructor]. cbn [wellCounted]. split.
      + rewrite length_app. cbn [List.length]. lia.
      + now destruct ws.
    - split; [| reflexivity].
      cbn [flat_map appliedWeights initialState weightString valuesOf].
      rewrite !app_nil_r, valuesOf_app, Hvals. reflexivity. }
  destruct Hwd as [-> | ->]; [| apply Hflush; now left].
  destruct (Z.eq_dec (item0 r) (item0 next)) as [Heq | Hne];
    [| apply Hflush; now right].
  rewrite (applyRecord_keep st r next _ _ _ _ He Heq).
  eexists _, _. split; [reflexivity |]. split.
  - split; cbn [setCount weightString writeData]; [| reflexivity].
    rewrite length_app. cbn [List.length]. lia.
  - split; [constructor |]. split; [| discriminate].
    cbn [flat_map Datatypes.app weightString]. now rewrite valuesOf_app, Hvals.
Qed.

(** The loop over any lines: what it writes is well counted, it never
    returns from the function, and the variables stay counted. *)
Lemma runLines_counted (lines : list string) :
  forall st,
    counted st ->
    Forall wellCounted (fst (runLines lines st))
    /\ (forall v, snd (runLines lines st) <> Return v)
    /\ (forall st', snd (runLines lines st) = Next st' -> counted st').
Proof.
  induction lines as [| line rest IH]; intros st Hst.
  - cbn [runLines ret fst snd]. split; [constructor |]. split; [discriminate |].
    intros st' H. now injection H as <-.
  - cbn [runLines].
    destruct (eval line) as [r |]; cbn [orRaise];
      [rewrite bind_ret_l | cbn [bind raise fst snd]; repeat split; try constructor; discriminate].
    assert (Hstep : forall next wd,
              wd = 0 \/ wd = 1 ->
              let m := (st' <- applyRecord st r next wd ;; runLines rest st') in
              Forall wellCounted (fst m)
              /\ (forall v, snd m <> Return v)
              /\ (forall st', snd m = Next st' -> counted st')).
    { intros next wd Hwd.
      destruct (applyRecord_counted st r next wd Hst Hwd)
        as (calls & st1 & Happ & Hst1 & Hcalls & _ & _).
      cbn zeta. rewrite Happ, bind_next. cbn [fst snd].
      destruct (IH st1 Hst1) as (Hf & Hr & Hn).
      split; [apply Forall_app; now split | now split]. }
    destruct rest as [| lineNext post].
    + apply (Hstep r 1). now right.
    + destruct (eval lineNext) as [r' |]; cbn [orRaise].
      * rewrite bind_ret_l. destruct Hst as [Hc Hw]. rewrite Hw.
        apply (Hstep r' 0); [now left].
      * cbn [bind raise fst snd]. repeat split; try constructor; discriminate.
Qed.


(** Every record gives its weight to exactly one command, in the order of
    the file, whatever the order of the vertices and influence indices. *)
Lemma runRecords_weights (recs : list (lineArray float)) :
  forall st,
    counted st ->
    exists calls st',
      runRecords recs st = (calls, Next st')
      /\ counted st'
      /\ flat_map appliedWeights calls ++ valuesOf (weightString st')
         = valuesOf (weightString st) ++ map item3 recs
      /\ (recs <> [] -> st' = initialState).
Proof.
  induction recs as [| r rest IH]; intros st Hst.
  - exists [], st. cbn [runRecords ret flat_map map Datatypes.app].
    rewrite app_nil_r. repeat split; try apply Hst. now intros [].
  - cbn [runRecords].
    assert (Hstep : forall next wd,
              wd = 0 \/ wd = 1 ->
              (rest = [] -> wd = 1) ->
              exists calls st',
                (st1 <- applyRecord st r next wd ;; runRecords rest st1) = (calls, Next st')
                /\ counted st'
                /\ flat_map appliedWeights calls ++ valuesOf (weightString st')
                   = valuesOf (weightString st) ++ map item3 (r :: rest)
                /\ (r :: rest <> [] -> st' = initialState)).
    { intros next wd Hwd Hend.
      destruct (applyRecord_counted st r next wd Hst Hwd)
        as (calls & st1 & Happ & Hst1 & _ & Hvals & Hreset).
      destruct (IH st1 Hst1) as (calls' & st' & Hrun & Hst' & Hvals' & Hinit).
      rewrite Happ, bind_next, Hrun. cbn [fst snd].
      exists (calls ++ calls'), st'. split; [reflexivity |]. split; [exact Hst' |]. split.
      - rewrite flat_map_app, <- app_assoc, Hvals'. cbn [map].
        rewrite app_assoc, Hvals, <- app_assoc. reflexivity.
      - intros _. destruct rest as [| r' rest'].
        + cbn [runRecords ret] in Hrun. injection Hrun as _ <-.
          apply Hreset, Hend. reflexivity.
        + apply Hinit. discriminate. }
    destruct rest as [| r' rest'].
    + apply (Hstep r 1); [now right | reflexivity].
    + destruct Hst as [Hc Hw]. rewrite Hw.
      apply (Hstep r' 0); [now left | discriminate].
Qed.

End LoopInvariants.

(** ** The loop, on streams that evaluate *)

Section LoopFacts.

Context {py : Python}.

(** X2: for every record stream whose lines evaluate, in any order, the
    weights set by the commands of the loop, read in order and without the
    zeros that fill gaps, are the weights of the records in file order: each
    record gives its weight to exactly one command. *)
Theorem applyWeights_weights_in_order
        (weightLines : list string) (recs : list (lineArray float)) :
  map eval (recordLines weightLines) = map Some recs ->
  flat_map appliedWeights (fst (applyWeights weightLines)) = map item3 recs.
Proof.
  intro Heval.
  rewrite applyWeights_runLines, (runLines_runRecords _ recs _ Heval).
  destruct (runRecords_weights recs initialState) as (calls & st & Hrun & _ & Hvals & Hinit);
    [now split |].
  rewrite Hrun. cbn [fst].
  assert (Hst : valuesOf (weightString st) = []).
  { destruct recs as [| r rest].
    - cbn [runRecords ret] in Hrun. now injection Hrun as _ <-.
    - rewrite Hinit by discriminate. reflexivity. }
  rewrite Hst, app_nil_r in Hvals. exact Hvals.
Qed.

(** X3: the loop reads the lines from the fourth to the one before the
    last, and nothing else: the three header lines and the last line of the
    file have no part in it.  A file that lacks its closing blank line is
    therefore applied as the same file without its last record. *)
Theorem last_line_is_not_applied
        (h0 h1 h2 h0' h1' h2' : string) (lines : list string) (t t' : string)
        (recs : list (lineArray float)) (r : lineArray float) :
  applyWeights ([h0; h1; h2] ++ lines ++ [t])
  = applyWeights ([h0'; h1'; h2'] ++ lines ++ [t'])
  /\ applyWeights ([h0; h1; h2] ++ map str_list (recs ++ [r]))
     = applyWeights ([h0; h1; h2] ++ map str_list recs ++ [""%string]).
Proof.
  split.
  - now rewrite !applyWeights_runLines, !recordLines_file.
  - rewrite map_app. cbn [map].
    now rewrite !applyWeights_runLines, !recordLines_file.
Qed.

(** X17: the value [-1] of [inflStart] marks that no range is open.  A record
    whose influence index is [-1] leaves the mark in place: the next record
    of the same vertex opens the range again at its own index, while the
    weight of the first record stays in the string, so one command in the
    single-influence form carries both weights. *)
Theorem minus_one_reopens_the_range
        (h0 h1 h2 l1 l2 t : string) (v j : Z) (n1 n2 : string) (w1 w2 : float) :
  eval l1 = Some (LineArray v n1 (-1) w1) ->
  eval l2 = Some (LineArray v n2 j w2) ->
  applyWeights ([h0; h1; h2] ++ [l1; l2] ++ [t])
  = ([executeCommand (SetAttrWeights 2 v j None [Val w1; Val w2])],
     Next initialState).
Proof.
  intros H1 H2.
  rewrite applyWeights_runLines, recordLines_file.
  cbn [runLines]. rewrite H1, H2. cbn [orRaise]. rewrite !bind_ret_l.
  rewrite (applyRecord_keep initialState _ _ [] (-1) (-1) 0);
    [| now apply extendRange_fresh | reflexivity].
  rewrite bind_next, bind_ret_l.
  rewrite (applyRecord_flush _ _ _ 1 [Val w1] j j (0 + 1));
    [| now apply extendRange_fresh | now left].
  cbn [item0 item3 Datatypes.app]. rewrite Z.eqb_refl. reflexivity.
Qed.

End LoopFacts.

(** ** The import, path by path *)

Section ImportFacts.

Context {py : Python}.

Lemma readWeights_no_file (sc : scene float) (fileName : string) (reverseOrder : Z) :
  files sc fileName = None ->
  readWeights sc fileName reverseOrder
  = ([displayError ("A file error has occurred for file: " ^^ fileName)],
     Return (PyInt (-1))).
Proof. intro H. unfold readWeights. now rewrite H. Qed.

Lemma readWeights_one_line (sc : scene float) (fileName : string) (reverseOrder : Z)
      (data h0 : string) :
  files sc fileName = Some data ->
  Py.split Py.newline data = [h0] ->
  readWeights sc fileName reverseOrder = ([], Raise).
Proof.
  intros Hfile Hlines. unfold readWeights. rewrite Hfile, bind_ret_l, Hlines.
  cbn [index nth_error]. rewrite bind_ret_l.
  rewrite (index_last _ ""%string) by apply split_nonempty.
  rewrite bind_ret_l. reflexivity.
Qed.

Lemma readWeights_two_lines (sc : scene float) (fileName : string) (reverseOrder : Z)
      (data h0 h1 : string) (objects : list string) :
  files sc fileName = Some data ->
  Py.split Py.newline data = [h0; h1] ->
  orderObjects (Py.split Py.space h0) (last (Py.split Py.space h0) ""%string) reverseOrder
  = Some objects ->
  selectable sc objects = true ->
  alreadyBound sc (last (Py.split Py.space h0) ""%string) = false ->
  readWeights sc fileName reverseOrder = ([select objects], Raise).
Proof.
  intros Hfile Hlines Hobj Hsel Hbound.
  unfold readWeights. rewrite Hfile, bind_ret_l, Hlines.
  cbn [index nth_error]. rewrite bind_ret_l.
  rewrite (index_last _ ""%string) by apply split_nonempty.
  rewrite bind_ret_l, bind_ret_l, Hobj.
  cbn [orRaise]. rewrite bind_ret_l, Hsel, Hbound. reflexivity.
Qed.

(** The commands of the loop size nothing and leave normalization alone. *)
Lemma wellCounted_calls (calls : list (call float)) :
  Forall wellCounted calls ->
  flat_map sized calls = [] /\ filter isNormalization calls = [].
Proof.
  induction 1 as [| c calls Hc _ [IHs IHn]]; [now split |].
  destruct c as [| | | | | | | | | | | | [n | count v start rs ws]];
    try contradiction Hc.
  cbn [flat_map sized filter isNormalization Datatypes.app]. now split.
Qed.

Lemma lastLine_exists (h0 h1 h2 : string) (rest : list string) :
  exists lastLine,
    nth_error (h0 :: h1 :: h2 :: rest) (List.length (h0 :: h1 :: h2 :: rest) - 2)%nat
    = Some lastLine.
Proof.
  destruct (nth_error (h0 :: h1 :: h2 :: rest)
                      (List.length (h0 :: h1 :: h2 :: rest) - 2)%nat) as [l |] eqn:E.
  - now exists l.
  - apply nth_error_None in E. cbn [List.length] in E. lia.
Qed.

(** X6: the import changes nothing of the destination before all its checks
    have passed.  Whenever a call that creates, renames, prunes, switches
    normalization or sets weights is made, the file was read and has at least
    three lines, the objects of its first line were selected, and the shape
    had no skinCluster in its history. *)
Theorem readWeights_mutates_only_after_checks
        (sc : scene float) (fileName : string) (reverseOrder : Z) :
  Exists (fun c => mutating c = true) (fst (readWeights sc fileName reverseOrder)) ->
  exists data h0 h1 h2 rest objects,
    files sc fileName = Some data
    /\ Py.split Py.newline data = h0 :: h1 :: h2 :: rest
    /\ orderObjects (Py.split Py.space h0) (last (Py.split Py.space h0) ""%string)
                    reverseOrder = Some objects
    /\ selectable sc objects = true
    /\ alreadyBound sc (last (Py.split Py.space h0) ""%string) = false.
Proof.
  intro Hmut.
  assert (Hnone : forall calls : list (call float),
             Forall (fun c => mutating c = false) calls ->
             ~ Exists (fun c => mutating c = true) calls).
  { intros calls Hall Hex. apply Exists_exists in Hex. destruct Hex as (c & Hin & Hc).
    rewrite Forall_forall in Hall. specialize (Hall c Hin). congruence. }
  destruct (files sc fileName) as [data |] eqn:Hfile.
  2: { rewrite (readWeights_no_file sc fileName reverseOrder Hfile) in Hmut.
       exfalso. revert Hmut. apply Hnone. repeat constructor. }
  destruct (Py.split Py.newline data) as [| h0 [| h1 rest]] eqn:Hlines.
  - exfalso. now apply (split_nonempty Py.newline data).
  - rewrite (readWeights_one_line sc fileName reverseOrder data h0 Hfile Hlines) in Hmut.
    exfalso. revert Hmut. apply Hnone. constructor.
  - destruct (readWeights_preflight sc fileName reverseOrder data h0 h1 rest Hfile Hlines)
      as (objects & Hobj & Hno & Hbound).
    destruct (selectable sc objects) eqn:Hsel.
    2: { rewrite (Hno eq_refl) in Hmut. exfalso. revert Hmut. apply Hnone. constructor. }
    destruct (alreadyBound sc (last (Py.split Py.space h0) ""%string)) eqn:Hb.
    { rewrite (Hbound eq_refl eq_refl) in Hmut.
      exfalso. revert Hmut. apply Hnone. repeat constructor. }
    destruct rest as [| h2 rest'].
    + rewrite (readWeights_two_lines sc fileName reverseOrder data h0 h1 objects
                 Hfile Hlines Hobj Hsel Hb) in Hmut.
      exfalso. revert Hmut. apply Hnone. repeat constructor.
    + now exists data, h0, h1, h2, rest', objects.
Qed.

(** X7: a file of fewer than three lines never has its binding created,
    and its import never returns 1.  With one line only, as for the empty
    file, the import raises without any call.  With two lines it goes as far
    as its checks allow: it returns [()] when the objects cannot be selected,
    displays the error and returns [-1] when the shape is bound already, and
    when the objects are selected and the shape is unbound it raises on the
    missing third line, the selection made and nothing more. *)
Theorem readWeights_short_file
        (sc : scene float) (fileName : string) (reverseOrder : Z) (data : string) :
  files sc fileName = Some data ->
  (forall h0, Py.split Py.newline data = [h0] ->
              readWeights sc fileName reverseOrder = ([], Raise))
  /\ (forall h0 h1 objects,
        Py.split Py.newline data = [h0; h1] ->
        orderObjects (Py.split Py.space h0) (last (Py.split Py.space h0) ""%string)
                     reverseOrder = Some objects ->
        selectable sc objects = true ->
        alreadyBound sc (last (Py.split Py.space h0) ""%string) = false ->
        readWeights sc fileName reverseOrder = ([select objects], Raise))
  /\ (forall h0 h1 objects,
        Py.split Py.newline data = [h0; h1] ->
        orderObjects (Py.split Py.space h0) (last (Py.split Py.space h0) ""%string)
                     reverseOrder = Some objects ->
        selectable sc objects = false ->
        readWeights sc fileName reverseOrder = ([], Return PyUnit))
  /\ (forall h0 h1 objects,
        Py.split Py.newline data = [h0; h1] ->
        orderObjects (Py.split Py.space h0) (last (Py.split Py.space h0) ""%string)
                     reverseOrder = Some objects ->
        selectable sc objects = true ->
        alreadyBound sc (last (Py.split Py.space h0) ""%string) = true ->
        readWeights sc fileName reverseOrder
        = ([select objects;
            displayError (last (Py.split Py.space h0) ""%string
                          ^^ " is already connected to a skinCluster.")],
           Return (PyInt (-1))))
  /\ ((List.length (Py.split Py.newline data) < 3)%nat ->
      Forall (fun c => mutating c = false) (fst (readWeights sc fileName reverseOrder))
      /\ snd (readWeights sc fileName reverseOrder) <> Return (PyInt 1)).
Proof.
  intro Hfile. split; [| split; [| split; [| split]]].
  - intros h0 Hlines. now apply (readWeights_one_line sc fileName reverseOrder data h0).
  - intros h0 h1 objects Hlines Hobj Hsel Hb.
    now apply (readWeights_two_lines sc fileName reverseOrder data h0 h1 objects).
  - intros h0 h1 objects Hlines Hobj Hsel.
    destruct (readWeights_preflight sc fileName reverseOrder data h0 h1 [] Hfile Hlines)
      as (objects' & Hobj' & Hno & _).
    rewrite Hobj in Hobj'. injection Hobj' as <-. now apply Hno.
  - intros h0 h1 objects Hlines Hobj Hsel Hb.
    destruct (readWeights_preflight sc fileName reverseOrder data h0 h1 [] Hfile Hlines)
      as (objects' & Hobj' & _ & Hbound).
    rewrite Hobj in Hobj'. injection Hobj' as <-. now apply Hbound.
  - intro Hlen.
    destruct (Py.split Py.newline data) as [| h0 [| h1 [| h2 rest]]] eqn:Hlines;
      cbn [List.length] in Hlen; try lia.
    + exfalso. now apply (split_nonempty Py.newline data).
    + rewrite (readWeights_one_line sc fileName reverseOrder data h0 Hfile Hlines).
      split; [constructor | discriminate].
    + destruct (readWeights_preflight sc fileName reverseOrder data h0 h1 [] Hfile Hlines)
        as (objects & Hobj & Hno & Hbound).
      destruct (selectable sc objects) eqn:Hsel.
      * destruct (alreadyBound sc (last (Py.split Py.space h0) ""%string)) eqn:Hb.
        -- rewrite (Hbound eq_refl eq_refl). split; [repeat constructor | discriminate].
        -- rewrite (readWeights_two_lines sc fileName reverseOrder data h0 h1 objects
                      Hfile Hlines Hobj Hsel Hb).
           split; [repeat constructor | discriminate].
      * rewrite (Hno eq_refl). split; [constructor | discriminate].
Qed.

(** X5: once the binding is created, normalization is switched off, and it
    is put back to the value read from the new cluster exactly when the
    import runs to its end and returns 1.  An import that raises, at the
    sizing of the weight list or in the loop, leaves normalization off. *)
Theorem readWeights_normalization
        (sc : scene float) (fileName : string) (reverseOrder : Z)
        (data h0 h1 h2 : string) (rest : list string) (objects : list string) :
  files sc fileName = Some data ->
  Py.split Py.newline data = h0 :: h1 :: h2 :: rest ->
  orderObjects (Py.split Py.space h0) (last (Py.split Py.space h0) ""%string) reverseOrder
  = Some objects ->
  selectable sc objects = true ->
  alreadyBound sc (last (Py.split Py.space h0) ""%string) = false ->
  (snd (readWeights sc fileName reverseOrder) = Return (PyInt 1)
   /\ filter isNormalization (fst (readWeights sc fileName reverseOrder))
      = [setAttrNw h1 0; setAttrNw h1 (nw sc)])
  \/ (snd (readWeights sc fileName reverseOrder) = Raise
      /\ filter isNormalization (fst (readWeights sc fileName reverseOrder))
         = [setAttrNw h1 0]).
Proof.
  intros Hfile Hlines Hobj Hsel Hb.
  destruct (lastLine_exists h0 h1 h2 rest) as [lastLine Hlast].
  destruct (eval lastLine) as [lastRecord |] eqn:Heval.
  - rewrite (readWeights_applyWeights sc fileName reverseOrder data h0 h1 h2 rest objects
               lastLine lastRecord Hfile Hlines Hobj Hsel Hb Hlast Heval).
    destruct (runLines_counted (recordLines (h0 :: h1 :: h2 :: rest)) initialState)
      as (Hwc & Hret & _); [now split |].
    rewrite <- applyWeights_runLines in Hwc, Hret.
    destruct (wellCounted_calls _ Hwc) as [_ Hnorm].
    cbn [fst snd]. unfold bindingCalls.
    destruct (snd (applyWeights (h0 :: h1 :: h2 :: rest))) as [st | v |] eqn:Hflow.
    + left. split; [reflexivity |].
      cbn [Datatypes.app filter isNormalization].
      rewrite filter_app, Hnorm. reflexivity.
    + exfalso. now apply (Hret v).
    + right. split; [reflexivity |].
      cbn [Datatypes.app filter isNormalization].
      rewrite app_nil_r, Hnorm. reflexivity.
  - right.
    rewrite (readWeights_lastLine_raises sc fileName reverseOrder data h0 h1 h2 rest objects
               lastLine Hfile Hlines Hobj Hsel Hb Hlast Heval).
    split; reflexivity.
Qed.

End ImportFacts.

(** ** The import of a whole file *)

Section ImportWhole.

Context {py : Python}.

Lemma last_Some_In {A} (l : list A) (x : A) :
  last (map Some l) None = Some x -> In x l.
Proof.
  intro H.
  assert (Hne : l <> []) by (intros ->; discriminate).
  destruct (exists_last Hne) as [body [z ->]].
  rewrite map_app in H. cbn [map] in H. rewrite last_last in H. injection H as <-.
  apply in_or_app. right. now left.
Qed.

(** In an ascending stream no vertex index is above that of the last
    record. *)
Lemma ascending_last_max (recs : list (lineArray float)) (lastRecord : lineArray float) :
  ascending recs ->
  last (map Some recs) None = Some lastRecord ->
  Forall (fun r => item0 r <= item0 lastRecord) recs.
Proof.
  unfold ascending. induction 1 as [| r rest Hs IH Hall]; intro Hlast; [constructor |].
  destruct rest as [| r' rest'].
  - cbn in Hlast. injection Hlast as <-. repeat constructor. lia.
  - assert (Hlast' : last (map Some (r' :: rest')) None = Some lastRecord) by exact Hlast.
    constructor; [| now apply IH].
    rewrite Forall_forall in Hall.
    destruct (Hall lastRecord (last_Some_In _ _ Hlast')) as [Hlt | [Heq _]]; lia.
Qed.

(** X4: the weight list is sized from the vertex index of the last record
    line.  When the records ascend, that size is above every vertex index the
    loop then writes to, and the import returns 1. *)
Theorem readWeights_sizes_every_vertex
        (sc : scene float) (fileName : string) (reverseOrder : Z)
        (data h0 h1 h2 : string) (lines : list string) (t : string)
        (objects : list string) (recs : list (lineArray float))
        (lastRecord : lineArray float) :
  files sc fileName = Some data ->
  Py.split Py.newline data = [h0; h1; h2] ++ lines ++ [t] ->
  orderObjects (Py.split Py.space h0) (last (Py.split Py.space h0) ""%string) reverseOrder
  = Some objects ->
  selectable sc objects = true ->
  alreadyBound sc (last (Py.split Py.space h0) ""%string) = false ->
  map eval lines = map Some recs ->
  ascending recs ->
  last (map Some recs) None = Some lastRecord ->
  snd (readWeights sc fileName reverseOrder) = Return (PyInt 1)
  /\ flat_map sized (fst (readWeights sc fileName reverseOrder)) = [item0 lastRecord + 1]
  /\ Forall (fun v => v < item0 lastRecord + 1)
            (flat_map writtenVertex (fst (readWeights sc fileName reverseOrder))).
Proof.
  intros Hfile Hlines Hobj Hsel Hb Heval Hasc Hlast.
  destruct (applyWeights_any_order ([h0; h1; h2] ++ lines ++ [t]) recs)
    as (calls & st & Hrun & Hv); [now rewrite recordLines_file |].
  destruct (runLines_counted (recordLines ([h0; h1; h2] ++ lines ++ [t])) initialState)
    as (Hwc & _ & _); [now split |].
  rewrite <- applyWeights_runLines, Hrun in Hwc. cbn [fst] in Hwc.
  destruct (wellCounted_calls _ Hwc) as [Hsized _].
  assert (Hne : lines <> []).
  { intros ->. destruct recs; [discriminate Hlast | discriminate Heval]. }
  rewrite (readWeights_applyWeights sc fileName reverseOrder data h0 h1 h2
             (lines ++ [t]) objects (last lines h2) lastRecord
             Hfile Hlines Hobj Hsel Hb (lastLine_nth h0 h1 h2 lines t)).
  2: { rewrite <- (last_map eval lines h2 None Hne), Heval. exact Hlast. }
  change (h0 :: h1 :: h2 :: lines ++ [t]) with ([h0; h1; h2] ++ lines ++ [t]).
  rewrite Hrun. cbn [fst snd]. split; [reflexivity |].
  unfold bindingCalls. cbn [Datatypes.app flat_map sized writtenVertex].
  rewrite !flat_map_app, Hsized, Hv. cbn [flat_map sized writtenVertex Datatypes.app].
  split; [reflexivity |].
  rewrite app_nil_r. apply Forall_forall. intros v Hin.
  apply (proj1 (vertexRuns_In _ _)) in Hin. apply in_map_iff in Hin.
  destruct Hin as (r & <- & Hr).
  pose proof (ascending_last_max recs lastRecord Hasc Hlast) as Hmax.
  rewrite Forall_forall in Hmax. specialize (Hmax r Hr). lia.
Qed.

(** Once the objects are selected, what the import does no longer depends
    on them. *)
Lemma readWeights_after_select (sc : scene float) (fileName : string)
      (data h0 h1 : string) (rest : list string) :
  files sc fileName = Some data ->
  Py.split Py.newline data = h0 :: h1 :: rest ->
  exists (after : list (call float)) (outcome : flow unit),
    forall reverseOrder objects,
      orderObjects (Py.split Py.space h0) (last (Py.split Py.space h0) ""%string)
                   reverseOrder = Some objects ->
      selectable sc objects = true ->
      readWeights sc fileName reverseOrder = (select objects :: after, outcome).
Proof.
  intros Hfile Hlines.
  destruct (alreadyBound sc (last (Py.split Py.space h0) ""%string)) eqn:Hb.
  { eexists _, _. intros reverseOrder objects Hobj Hsel.
    destruct (readWeights_preflight sc fileName reverseOrder data h0 h1 rest Hfile Hlines)
      as (objects' & Hobj' & _ & Hbound).
    rewrite Hobj in Hobj'. injection Hobj' as <-.
    rewrite (Hbound Hsel Hb). reflexivity. }
  destruct rest as [| h2 rest'].
  { eexists _, _. intros reverseOrder objects Hobj Hsel.
    rewrite (readWeights_two_lines sc fileName reverseOrder data h0 h1 objects
               Hfile Hlines Hobj Hsel Hb). reflexivity. }
  destruct (lastLine_exists h0 h1 h2 rest') as [lastLine Hlast].
  destruct (eval lastLine) as [lastRecord |] eqn:Heval.
  - eexists _, _. intros reverseOrder objects Hobj Hsel.
    rewrite (readWeights_applyWeights sc fileName reverseOrder data h0 h1 h2 rest' objects
               lastLine lastRecord Hfile Hlines Hobj Hsel Hb Hlast Heval).
    unfold bindingCalls. cbn [Datatypes.app]. reflexivity.
  - eexists _, _. intros reverseOrder objects Hobj Hsel.
    rewrite (readWeights_lastLine_raises sc fileName reverseOrder data h0 h1 h2 rest' objects
               lastLine Hfile Hlines Hobj Hsel Hb Hlast Heval).
    unfold bindingCalls. reflexivity.
Qed.

(** X9: the reverse order changes the selection and nothing else.  When the
    objects can be selected in both orders, the import with [reverseOrder]
    1 and the import with any other value make the same calls after the
    selection, weight commands and their influence indices included, and end
    the same way. *)
Theorem reverse_order_changes_only_the_selection
        (sc : scene float) (fileName : string)
        (data h0 h1 : string) (rest : list string) (infls : list string) (target : string) :
  files sc fileName = Some data ->
  Py.split Py.newline data = h0 :: h1 :: rest ->
  Py.split Py.space h0 = infls ++ [target] ->
  selectable sc (infls ++ [target]) = true ->
  selectable sc (List.rev infls ++ [target]) = true ->
  exists after outcome,
    readWeights sc fileName 1 = (select (List.rev infls ++ [target]) :: after, outcome)
    /\ forall reverseOrder,
         reverseOrder <> 1 ->
         readWeights sc fileName reverseOrder
         = (select (infls ++ [target]) :: after, outcome).
Proof.
  intros Hfile Hlines Htokens Hsel Hrev.
  destruct (readWeights_after_select sc fileName data h0 h1 rest Hfile Hlines)
    as (after & outcome & Hrun).
  exists after, outcome. rewrite Htokens, last_last in Hrun. split.
  - apply Hrun; [apply orderObjects_reversed | exact Hrev].
  - intros reverseOrder Hne. apply Hrun; [| exact Hsel].
    unfold orderObjects. apply Z.eqb_neq in Hne. now rewrite Hne.
Qed.

(** X10: turning the objects round twice gives the first line back.  On the
    tokens of a first line, influences then target, the reverse order is a
    permutation that keeps the target last, and applied to its own result it
    restores the tokens; any [reverseOrder] other than 1 leaves them as they
    are. *)
Theorem orderObjects_twice (infls : list string) (target : string) :
  exists once,
    orderObjects (infls ++ [target]) target 1 = Some once
    /\ orderObjects once target 1 = Some (infls ++ [target])
    /\ Permutation (infls ++ [target]) once
    /\ last once ""%string = target
    /\ forall reverseOrder,
         reverseOrder <> 1 ->
         orderObjects (infls ++ [target]) target reverseOrder = Some (infls ++ [target]).
Proof.
  exists (List.rev infls ++ [target]).
  split; [apply orderObjects_reversed |].
  split; [rewrite orderObjects_reversed; now rewrite rev_involutive |].
  split; [apply Permutation_app_tail, Permutation_rev |].
  split; [apply last_last |].
  intros reverseOrder Hne. unfold orderObjects.
  apply Z.eqb_neq in Hne. now rewrite Hne.
Qed.

End ImportWhole.

(** ** The export, path by path *)

Section ExportFacts.

Context {py : Python}.

Lemma inflLoop_some (index : Z) (infls : list string) (value : list float)
      (js : list nat) (recs : list (lineArray float)) :
  inflLoop index infls value js = Some recs ->
  Forall (fun j => (j < List.length value)%nat) js.
Proof.
  revert recs. induction js as [| j js IH]; intros recs H; [constructor |].
  cbn [inflLoop] in H.
  destruct (nth_error value j) as [w |] eqn:Ev; [| discriminate].
  destruct (nth_error infls j) as [name |]; [| discriminate].
  destruct (inflLoop index infls value js) as [rest |] eqn:Er; [| discriminate].
  constructor; [| now apply (IH rest)].
  apply nth_error_Some. congruence.
Qed.

(** The walk over the components ends without an IndexError only on a
    table with a weight for every influence of every component. *)
Lemma geoLoop_some (infls : list string) (rows : list (list float)) :
  forall first recs,
    geoLoop infls first rows = Some recs -> rectangular infls rows.
Proof.
  induction rows as [| value rows IH]; intros first recs H; [constructor |].
  cbn [geoLoop] in H.
  destruct (inflLoop (Z.of_nat first) infls value (seq 0 (List.length infls)))
    as [row |] eqn:Erow; [| discriminate].
  destruct (geoLoop infls (S first) rows) as [rest |] eqn:Erest; [| discriminate].
  constructor; [| now apply (IH (S first) rest)].
  apply inflLoop_some in Erow. rewrite Forall_forall in Erow.
  destruct (List.length infls) as [| n] eqn:En; [lia |].
  specialize (Erow n). cbn beta in Erow.
  assert (Hin : In n (seq 0 (S n))) by (apply in_seq; lia).
  specialize (Erow Hin). lia.
Qed.

(** An exportable scene: the shape is selected, the files are written, and
    the export returns 1 unless the writing returned before. *)
Lemma writeWeights_exportable (sc : scene float) (fileName : string) (exclusive : Z)
      (node shape : string) :
  exportable sc node shape ->
  writeWeights sc fileName exclusive
  = (do (select [shape]) ;;
     (if exclusive =? 0 then writeSingle sc fileName node (influence sc node) shape
      else writeExclusive sc fileName node (influence sc node)) ;;
     return_ (PyInt 1)).
Proof.
  intros (Hsel & Htype & Hinfl & Hgeo & Hshape).
  unfold writeWeights.
  destruct (selection sc) as [| node' others]; [discriminate |].
  cbn [hd_error] in Hsel. injection Hsel as ->.
  rewrite bind_ret_l, Htype. cbn [String.eqb Ascii.eqb Bool.eqb negb].
  rewrite bind_ret_l.
  destruct (influence sc node) as [| i0 infls] eqn:Ei; [contradiction |].
  cbn [List.length Nat.eqb]. rewrite bind_ret_l.
  destruct (geometry sc node) as [| shape' shapes]; [discriminate |].
  cbn [hd_error] in Hgeo. injection Hgeo as ->.
  cbn [index nth_error]. rewrite bind_ret_l.
  destruct shape as [| a shape']; [contradiction |].
  cbn [String.length Nat.eqb]. rewrite bind_ret_l. reflexivity.
Qed.

(** X11: a scene that is not exportable is left as it is.  When no
    skinCluster with influences and a named geometry is first in the
    selection, the export opens no file and selects nothing: it displays one
    error and returns [-1], or raises without any call when the cluster has
    no geometry at all. *)
Theorem writeWeights_not_exportable
        (sc : scene float) (fileName : string) (exclusive : Z) :
  (forall node shape, ~ exportable sc node shape) ->
  (exists msg,
      writeWeights sc fileName exclusive = ([displayError msg], Return (PyInt (-1))))
  \/ (writeWeights sc fileName exclusive = ([], Raise)
      /\ exists node, hd_error (selection sc) = Some node /\ geometry sc node = []).
Proof.
  intro Hnot. unfold writeWeights.
  destruct (selection sc) as [| node others] eqn:Hsel; [left; eexists; reflexivity |].
  rewrite bind_ret_l.
  destruct (String.eqb (nodeType sc node) "skinCluster") eqn:Htype;
    [| left; eexists; reflexivity].
  cbn [negb]. rewrite bind_ret_l.
  destruct (influence sc node) as [| i0 infls] eqn:Hinfl; [left; eexists; reflexivity |].
  cbn [List.length Nat.eqb]. rewrite bind_ret_l.
  destruct (geometry sc node) as [| shape shapes] eqn:Hgeo.
  { right. split; [reflexivity |]. exists node. now split. }
  cbn [index nth_error]. rewrite bind_ret_l.
  destruct shape as [| a shape']; [left; eexists; reflexivity |].
  exfalso. apply (Hnot node (String a shape')).
  unfold exportable. rewrite Hsel, Hinfl, Hgeo. apply String.eqb_eq in Htype.
  repeat split; try assumption; discriminate.
Qed.

(** X12: the single-file export writes the whole file or nothing.  From an
    exportable scene it returns 1, having written header, records and the
    closing blank line in one piece, exactly when the file can be opened and
    the table has a weight for every influence of every component.  When the
    file cannot be opened nothing is touched; when a weight is missing the
    file has been opened, and so emptied, and nothing is written to it; both
    times the file error is displayed and [-1] is returned. *)
Theorem writeWeights_single_outcome
        (sc : scene float) (fileName node shape : string) :
  exportable sc node shape ->
  (writable sc fileName = true ->
   rectangular (influence sc node) (skinWeights sc) ->
   writeWeights sc fileName 0
   = ([ select [shape]; openWrite fileName;
        write fileName
              (Py.join nl (fileLines sc node (influence sc node) shape
                             (tableRecords (influence sc node) 0 (skinWeights sc)))) ],
      Return (PyInt 1)))
  /\ (writable sc fileName = true ->
      ~ rectangular (influence sc node) (skinWeights sc) ->
      writeWeights sc fileName 0
      = ([ select [shape]; openWrite fileName;
           displayError ("A file error has occurred for file: " ^^ fileName) ],
         Return (PyInt (-1))))
  /\ (writable sc fileName = false ->
      writeWeights sc fileName 0
      = ([ select [shape];
           displayError ("A file error has occurred for file: " ^^ fileName) ],
         Return (PyInt (-1)))).
Proof.
  intro Hexp. rewrite (writeWeights_exportable sc fileName 0 node shape Hexp).
  cbn [Z.eqb]. split; [| split].
  - intros Hw Hrect. rewrite (writeSingle_writes sc fileName node _ shape Hrect Hw).
    reflexivity.
  - intros Hw Hrect. unfold writeSingle. rewrite Hw.
    destruct (geoLoop (influence sc node) 0 (skinWeights sc)) as [recs |] eqn:Hgeo.
    + exfalso. apply Hrect. now apply (geoLoop_some _ _ 0%nat recs).
    + reflexivity.
  - intro Hw. unfold writeSingle. rewrite Hw. reflexivity.
Qed.

End ExportFacts.

(** ** The export to one file per influence, path by path *)

Section ExclusiveFacts.

Context {py : Python}.

Lemma exclusiveLines_some (j : nat) (rows : list (list float)) :
  forall first lines,
    exclusiveLines j first rows = Some lines ->
    Forall (fun value => (j < List.length value)%nat) rows.
Proof.
  induction rows as [| value rows IH]; intros first lines H; [constructor |].
  cbn [exclusiveLines] in H.
  destruct (nth_error value j) as [w |] eqn:Ew; [| discriminate].
  destruct (exclusiveLines j (S first) rows) as [rest |] eqn:Er; [| discriminate].
  constructor; [| now apply (IH (S first) rest)].
  apply nth_error_Some. congruence.
Qed.

(** The file of one influence: written whole, or an error and [-1]. *)
Lemma exclusiveLoop_step (sc : scene float) (dataPath : string) (infls : list string)
      (j : nat) (js : list nat) (name : string) :
  nth_error infls j = Some name ->
  exclusiveLoop sc dataPath infls (j :: js)
  = if writable sc (bswFile dataPath name) then
      match exclusiveLines j 0 (normalizedWeights sc) with
      | Some lines =>
          ([ openWrite (bswFile dataPath name);
             write (bswFile dataPath name) (Py.join nl (lines ++ [""%string])) ]
             ++ fst (exclusiveLoop sc dataPath infls js),
           snd (exclusiveLoop sc dataPath infls js))
      | None =>
          ([ openWrite (bswFile dataPath name);
             displayError ("A file error has occurred for file: "
                           ^^ bswFile dataPath name) ],
           Return (PyInt (-1)))
      end
    else
      ([ displayError ("A file error has occurred for file: " ^^ bswFile dataPath name) ],
       Return (PyInt (-1))).
Proof.
  intro Hname. cbn [exclusiveLoop]. unfold index. rewrite Hname, bind_ret_l.
  fold (bswFile dataPath name).
  destruct (writable sc (bswFile dataPath name)); [| reflexivity].
  destruct (exclusiveLines j 0 (normalizedWeights sc)) as [lines |]; [| reflexivity].
  cbn [orRaise bind do ret try Datatypes.app].
  destruct (exclusiveLoop sc dataPath infls js) as [calls fl]. reflexivity.
Qed.

(** The loop over the influences never raises; when it runs to its end,
    every file could be opened and every component had its weight. *)
Lemma exclusiveLoop_outcome (sc : scene float) (dataPath : string) (infls : list string)
      (js : list nat) :
  Forall (fun j => (j < List.length infls)%nat) js ->
  snd (exclusiveLoop sc dataPath infls js) <> Raise
  /\ (forall u, snd (exclusiveLoop sc dataPath infls js) = Next u ->
      Forall (fun j => exists name,
                  nth_error infls j = Some name
                  /\ writable sc (bswFile dataPath name) = true
                  /\ Forall (fun value => (j < List.length value)%nat)
                            (normalizedWeights sc)) js)
  /\ (forall v, snd (exclusiveLoop sc dataPath infls js) = Return v -> v = PyInt (-1)).
Proof.
  induction js as [| j js IH]; intro Hjs.
  - cbn [exclusiveLoop ret snd]. split; [discriminate |]. split; [constructor | discriminate].
  - inversion Hjs as [| ? ? Hj Hrest]; subst.
    destruct (IH Hrest) as (IHr & IHn & IHv).
    destruct (nth_error infls j) as [name |] eqn:Hname;
      [| apply nth_error_None in Hname; lia].
    rewrite (exclusiveLoop_step sc dataPath infls j js name Hname).
    destruct (writable sc (bswFile dataPath name)) eqn:Hw.
    + destruct (exclusiveLines j 0 (normalizedWeights sc)) as [lines |] eqn:Hl.
      * cbn [snd]. split; [exact IHr |]. split; [| exact IHv].
        intros u Hu. constructor; [| now apply (IHn u)].
        exists name. repeat split; try assumption.
        now apply (exclusiveLines_some j _ 0%nat lines).
      * cbn [snd]. split; [discriminate |]. split; [discriminate |].
        intros v Hv. now injection Hv as <-.
    + cbn [snd]. split; [discriminate |]. split; [discriminate |].
      intros v Hv. now injection Hv as <-.
Qed.

Lemma exclusiveLoop_app (sc : scene float) (dataPath : string) (infls : list string)
      (js1 js2 : list nat) :
  exclusiveLoop sc dataPath infls (js1 ++ js2)
  = (exclusiveLoop sc dataPath infls js1 ;; exclusiveLoop sc dataPath infls js2).
Proof.
  induction js1 as [| j js1 IH].
  - cbn [Datatypes.app exclusiveLoop]. now rewrite bind_ret_l.
  - cbn [Datatypes.app exclusiveLoop]. rewrite !bind_assoc.
    destruct (index infls j) as [t [name | v |]]; try reflexivity.
    rewrite !bind_next. cbn [fst snd]. rewrite !bind_assoc.
    destruct (try _ _) as [t' [u | v |]]; try reflexivity.
    rewrite !bind_next, IH. reflexivity.
Qed.

(** The files of a stretch of influences that can all be opened. *)
Lemma exclusiveLoop_segment (sc : scene float) (dataPath : string)
      (mid post : list string) :
  forall pre,
    rectangular (pre ++ mid ++ post) (normalizedWeights sc) ->
    (forall name, In name mid -> writable sc (bswFile dataPath name) = true) ->
    exclusiveLoop sc dataPath (pre ++ mid ++ post) (seq (List.length pre) (List.length mid))
    = (exclusiveWrites dataPath (List.length pre) mid (normalizedWeights sc), Next tt).
Proof.
  induction mid as [| name mid IH]; intros pre Hrect Hw; [reflexivity |].
  cbn [List.length seq].
  change ((name :: mid) ++ post) with (name :: mid ++ post) in *.
  rewrite (exclusiveLoop_step sc dataPath _ (List.length pre) _ name).
  2: { rewrite nth_error_app2 by lia. now rewrite Nat.sub_diag. }
  rewrite (Hw name) by now left.
  destruct (exclusiveLines_dense (List.length pre) (normalizedWeights sc) 0) as [Hlines _].
  { eapply Forall_impl; [| exact Hrect]. intros value Hlen. cbn beta in Hlen.
    rewrite !length_app in Hlen. cbn [List.length] in Hlen. lia. }
  rewrite Hlines.
  specialize (IH (pre ++ [name])).
  rewrite <- app_assoc, length_app in IH. cbn [Datatypes.app List.length] in IH.
  rewrite Nat.add_1_r in IH.
  rewrite IH; [| exact Hrect | intros name' Hin; apply Hw; now right].
  reflexivity.
Qed.

(** X13: the export to one file per influence never raises.  The cluster
    is force-normalized first, whatever follows.  The export then runs to its
    end exactly when the directory is there or can be made, every file can be
    opened and the table has a weight for every influence of every
    component; any other export has returned [-1]. *)
Theorem writeExclusive_outcome
        (sc : scene float) (fileName node : string) (infls : list string) :
  hd_error (fst (writeExclusive sc fileName node infls))
  = Some (forceNormalizeWeights node)
  /\ snd (writeExclusive sc fileName node infls) <> Raise
  /\ (snd (writeExclusive sc fileName node infls) = Next tt <->
      (pathExists sc (fileName ^^ "/" ^^ node) = true
       \/ creatable sc (fileName ^^ "/" ^^ node) = true)
      /\ (forall name, In name infls ->
                       writable sc (bswFile (fileName ^^ "/" ^^ node) name) = true)
      /\ rectangular infls (normalizedWeights sc))
  /\ (forall v, snd (writeExclusive sc fileName node infls) = Return v -> v = PyInt (-1)).
Proof.
  assert (Hjs : Forall (fun j => (j < List.length infls)%nat) (seq 0 (List.length infls))).
  { apply Forall_forall. intros j Hj. apply in_seq in Hj. lia. }
  destruct (exclusiveLoop_outcome sc (fileName ^^ "/" ^^ node) infls _ Hjs)
    as (Hraise & Hnext & Hret).
  assert (Hdone : (forall name, In name infls ->
                     writable sc (bswFile (fileName ^^ "/" ^^ node) name) = true)
                  /\ rectangular infls (normalizedWeights sc) <->
                  snd (exclusiveLoop sc (fileName ^^ "/" ^^ node) infls
                                     (seq 0 (List.length infls))) = Next tt).
  { split.
    - intros [Hw Hrect].
      pose proof (exclusiveLoop_segment sc (fileName ^^ "/" ^^ node) infls [] []) as Hseg.
      cbn [Datatypes.app List.length] in Hseg. rewrite app_nil_r in Hseg.
      now rewrite (Hseg Hrect Hw).
    - intro Hu. specialize (Hnext tt Hu). rewrite Forall_forall in Hnext. split.
      + intros name Hin. apply In_nth_error in Hin. destruct Hin as [j Hj].
        assert (Hlt : (j < List.length infls)%nat) by (apply nth_error_Some; congruence).
        destruct (Hnext j) as (name' & Hname' & Hw & _); [apply in_seq; lia |].
        congruence.
      + apply Forall_forall. intros value Hvalue.
        destruct (List.length infls) as [| n] eqn:En; [lia |].
        destruct (Hnext n) as (_ & _ & _ & Hrows); [apply in_seq; lia |].
        rewrite Forall_forall in Hrows. specialize (Hrows value Hvalue).
        cbn beta in Hrows. lia. }
  unfold writeExclusive.
  destruct (pathExists sc (fileName ^^ "/" ^^ node)) eqn:Hp; cbn [negb].
  - cbn [bind do ret Datatypes.app].
    destruct (exclusiveLoop sc (fileName ^^ "/" ^^ node) infls (seq 0 (List.length infls)))
      as [calls fl] eqn:Eloop.
    cbn [fst snd hd_error] in *.
    split; [reflexivity |]. split; [exact Hraise |]. split; [| exact Hret].
    rewrite <- Hdone. tauto.
  - destruct (creatable sc (fileName ^^ "/" ^^ node)) eqn:Hc.
    + cbn [bind do ret try Datatypes.app].
      destruct (exclusiveLoop sc (fileName ^^ "/" ^^ node) infls (seq 0 (List.length infls)))
        as [calls fl] eqn:Eloop.
      cbn [fst snd hd_error] in *.
      split; [reflexivity |]. split; [exact Hraise |]. split; [| exact Hret].
      rewrite <- Hdone. intuition discriminate.
    + cbn [bind do ret try raise return_ Datatypes.app fst snd hd_error].
      split; [reflexivity |]. split; [discriminate |]. split.
      * split; [discriminate |]. intros [[H | H] _]; discriminate.
      * intros v Hv. now injection Hv as <-.
Qed.

(** X14: when the file of an influence cannot be opened, the files of the
    influences before it are written and stay, the error names the file that
    failed, [-1] is returned, and the influences after it get no file. *)
Theorem writeExclusive_partial
        (sc : scene float) (fileName node : string)
        (done : list string) (name : string) (tail : list string) :
  rectangular (done ++ name :: tail) (normalizedWeights sc) ->
  (forall name', In name' done ->
                 writable sc (bswFile (fileName ^^ "/" ^^ node) name') = true) ->
  writable sc (bswFile (fileName ^^ "/" ^^ node) name) = false ->
  pathExists sc (fileName ^^ "/" ^^ node) = true
  \/ creatable sc (fileName ^^ "/" ^^ node) = true ->
  writeExclusive sc fileName node (done ++ name :: tail)
  = (forceNormalizeWeights node
       :: (if pathExists sc (fileName ^^ "/" ^^ node) then []
           else [makedirs (fileName ^^ "/" ^^ node)])
       ++ exclusiveWrites (fileName ^^ "/" ^^ node) 0 done (normalizedWeights sc)
       ++ [displayError ("A file error has occurred for file: "
                         ^^ bswFile (fileName ^^ "/" ^^ node) name)],
     Return (PyInt (-1))).
Proof.
  intros Hrect Hw Hbad Hdir.
  assert (Hloop : exclusiveLoop sc (fileName ^^ "/" ^^ node) (done ++ name :: tail)
                    (seq 0 (List.length (done ++ name :: tail)))
                  = (exclusiveWrites (fileName ^^ "/" ^^ node) 0 done (normalizedWeights sc)
                       ++ [displayError ("A file error has occurred for file: "
                                         ^^ bswFile (fileName ^^ "/" ^^ node) name)],
                     Return (PyInt (-1)))).
  { rewrite length_app. cbn [List.length]. rewrite seq_app, exclusiveLoop_app.
    pose proof (exclusiveLoop_segment sc (fileName ^^ "/" ^^ node) done (name :: tail) [])
      as Hseg.
    cbn [Datatypes.app List.length] in Hseg. rewrite (Hseg Hrect Hw), bind_next.
    cbn [Nat.add seq].
    rewrite (exclusiveLoop_step sc _ _ (List.length done) _ name).
    2: { rewrite nth_error_app2 by lia. now rewrite Nat.sub_diag. }
    rewrite Hbad. reflexivity. }
  unfold writeExclusive.
  destruct (pathExists sc (fileName ^^ "/" ^^ node)) eqn:Hp; cbn [negb].
  - cbn [bind do ret Datatypes.app]. rewrite Hloop. reflexivity.
  - destruct Hdir as [Hd | Hd]; [discriminate |].
    rewrite Hd. cbn [bind do ret try Datatypes.app]. rewrite Hloop. reflexivity.
Qed.

End ExclusiveFacts.

(** ** Export, then import *)

Section RoundTrip.

Context {py : Python}.

Lemma split_header (infls : list string) (shape : string) :
  Forall (fun name => Py.lacks Py.space name = true) (infls ++ [shape]) ->
  Py.split Py.space (Py.join " " (Py.append infls shape)) = infls ++ [shape].
Proof.
  intro Hsp. unfold Py.append.
  change " "%string with (String Py.space EmptyString).
  apply split_join; [now destruct infls | exact Hsp].
Qed.

(** X16: the header the export writes is the header the import reads.  A
    cluster with a weight above zero, exported to a single file and imported
    where its names can be selected and its shape is unbound: the import
    selects the exported influences and the shape, creates the binding from
    the exported parameters line, renames it to the exported cluster, sizes
    the weight list from the last record, applies the range commands of the
    exported records, restores normalization and returns 1. *)
Theorem export_then_import
        (sc destination : scene float) (fileName importName node : string)
        (infls : list string) (shape : string) (lastRecord : lineArray float) :
  rectangular infls (skinWeights sc) ->
  writable sc fileName = true ->
  (forall r, In r (tableRecords infls 0 (skinWeights sc)) -> eval (str_list r) = Some r) ->
  Forall (fun line => Py.lacks Py.newline line = true)
         (fileLines sc node infls shape (tableRecords infls 0 (skinWeights sc))) ->
  Forall (fun name => Py.lacks Py.space name = true) (infls ++ [shape]) ->
  files destination importName
  = Some (Py.join nl (fileLines sc node infls shape
                                (tableRecords infls 0 (skinWeights sc)))) ->
  selectable destination (infls ++ [shape]) = true ->
  alreadyBound destination shape = false ->
  last (map Some (tableRecords infls 0 (skinWeights sc))) None = Some lastRecord ->
  writeSingle sc fileName node infls shape
  = ([openWrite fileName;
      write fileName (Py.join nl (fileLines sc node infls shape
                                            (tableRecords infls 0 (skinWeights sc))))],
     Next tt)
  /\ readWeights destination importName 0
     = (bindingCalls destination (infls ++ [shape]) node
                     (nth 2 (headerLines sc node infls shape) ""%string) shape
          ++ [select [node]; executeCommand (SetAttrSize (item0 lastRecord + 1))]
          ++ map emit (decodeSpec (tableRecords infls 0 (skinWeights sc)))
          ++ [setAttrNw node (nw destination)],
        Return (PyInt 1)).
Proof.
  intros Hrect Hw Heval Hnl Hsp Hfile Hsel Hb Hlast.
  split; [now apply writeSingle_writes |].
  set (recs := tableRecords infls 0 (skinWeights sc)) in *.
  destruct (table_ascending infls (skinWeights sc) 0) as [_ Hpos].
  fold recs in Hpos.
  assert (Hpos2 : Forall (fun r => 0 <= item2 r) recs).
  { eapply Forall_impl; [| exact Hpos]. now intros r [_ H]. }
  set (h0 := Py.join " " (Py.append infls shape)).
  set (h2 := nth 2 (headerLines sc node infls shape) ""%string).
  assert (Hsplit : Py.split Py.newline (Py.join nl (fileLines sc node infls shape recs))
                   = h0 :: node :: h2 :: map str_list recs ++ [""%string]).
  { unfold nl. rewrite split_join; [reflexivity | discriminate | exact Hnl]. }
  assert (Htokens : Py.split Py.space h0 = infls ++ [shape]) by now apply split_header.
  assert (Hmap : map eval (map str_list recs) = map Some recs).
  { rewrite map_map. apply map_ext_in. exact Heval. }
  assert (Hne : map str_list recs <> []).
  { destruct recs; [discriminate Hlast | discriminate]. }
  rewrite (readWeights_applyWeights destination importName 0 _ h0 node h2
             (map str_list recs ++ [""%string]) (infls ++ [shape])
             (last (map str_list recs) h2) lastRecord Hfile Hsplit).
  - rewrite Htokens, last_last.
    change (h0 :: node :: h2 :: map str_list recs ++ [""%string])
      with ([h0; node; h2] ++ map str_list recs ++ [""%string]).
    rewrite (applyWeights_decodeSpec _ recs); [reflexivity | | exact Hpos2].
    now rewrite recordLines_file.
  - now rewrite Htokens.
  - exact Hsel.
  - now rewrite Htokens, last_last.
  - exact (lastLine_nth h0 node h2 (map str_list recs) ""%string).
  - rewrite <- (last_map eval (map str_list recs) h2 None Hne), Hmap. exact Hlast.
Qed.

(** X8: a cluster without any weight above zero exports to a file that
    cannot be imported.  The export writes the three header lines and the
    blank line and returns normally; the import of that file takes the
    parameters line for its last record, and when that line does not
    evaluate it raises with the binding created, renamed and pruned. *)
Theorem export_without_weight_cannot_be_imported
        (sc destination : scene float) (fileName importName node : string)
        (infls : list string) (shape : string) (reverseOrder : Z)
        (objects : list string) :
  rectangular infls (skinWeights sc) ->
  writable sc fileName = true ->
  (forall v j w, weightAt (skinWeights sc) v j = Some w ->
                 (j < List.length infls)%nat -> gt0 w = false) ->
  Forall (fun line => Py.lacks Py.newline line = true) (headerLines sc node infls shape) ->
  eval (nth 2 (headerLines sc node infls shape) ""%string) = None ->
  files destination importName
  = Some (Py.join nl (headerLines sc node infls shape ++ [""%string])) ->
  orderObjects (Py.split Py.space (nth 0 (headerLines sc node infls shape) ""%string))
               (last (Py.split Py.space (nth 0 (headerLines sc node infls shape) ""%string))
                     ""%string)
               reverseOrder = Some objects ->
  selectable destination objects = true ->
  alreadyBound destination
               (last (Py.split Py.space (nth 0 (headerLines sc node infls shape) ""%string))
                     ""%string) = false ->
  writeSingle sc fileName node infls shape
  = ([openWrite fileName;
      write fileName (Py.join nl (headerLines sc node infls shape ++ [""%string]))],
     Next tt)
  /\ readWeights destination importName reverseOrder
     = (bindingCalls destination objects node
                     (nth 2 (headerLines sc node infls shape) ""%string)
                     (last (Py.split Py.space
                                     (nth 0 (headerLines sc node infls shape) ""%string))
                           ""%string),
        Raise).
Proof.
  intros Hrect Hw Hzero Hnl Heval Hfile Hobj Hsel Hb.
  assert (Hnone : tableRecords infls 0 (skinWeights sc) = []).
  { destruct (tableRecords infls 0 (skinWeights sc)) as [| r rest] eqn:E; [reflexivity |].
    assert (Hin : In r (tableRecords infls 0 (skinWeights sc))) by (rewrite E; now left).
    apply tableRecords_In in Hin. destruct Hin as (v & j & w & name & Hwt & Hn & Hg & _).
    assert (Hj : (j < List.length infls)%nat) by (apply nth_error_Some; congruence).
    rewrite (Hzero v j w Hwt Hj) in Hg. discriminate. }
  split.
  - rewrite (writeSingle_writes sc fileName node infls shape Hrect Hw).
    unfold fileLines. now rewrite Hnone.
  - assert (Hsplit : Py.split Py.newline
                       (Py.join nl (headerLines sc node infls shape ++ [""%string]))
                     = nth 0 (headerLines sc node infls shape) ""%string
                         :: node
                         :: nth 2 (headerLines sc node infls shape) ""%string
                         :: [""%string]).
    { unfold nl. rewrite split_join; [reflexivity | discriminate |].
      apply Forall_app. split; [exact Hnl | repeat constructor]. }
    exact (readWeights_lastLine_raises destination importName reverseOrder _ _ node _
             [""%string] objects _ Hfile Hsplit Hobj Hsel Hb eq_refl Heval).
Qed.

End RoundTrip.

(** ** The command *)

Section Command.

Context {py : Python}.

Lemma pyValue_eq_one (v : pyValue) : v = PyInt 1 \/ v <> PyInt 1.
Proof.
  destruct v as [n | |]; try (right; discriminate).
  destruct (Z.eq_dec n 1) as [-> | Hn]; [now left | right; congruence].
Qed.

(** X15: a command without the help flag, with a file name that is not
    empty and a mode of 0 or 1, runs one transfer, the export for mode 0 (the
    default) and the import for mode 1, and displays its two lines exactly
    when the transfer returned 1.  After any other return it adds nothing to
    the calls of the transfer and ends normally; it raises exactly when the
    transfer raised. *)
Theorem doIt_reports_success (sc : scene float) (a : args) (fileName : string) :
  helpFlag a = false ->
  fileFlag a = Some fileName ->
  fileName <> ""%string ->
  modeFlag a = None \/ modeFlag a = Some 0 \/ modeFlag a = Some 1 ->
  let exporting := match modeFlag a with Some 1 => false | _ => true end in
  let transfer :=
    if exporting
    then writeWeights sc fileName (match exclusiveFlag a with Some e => e | None => 0 end)
    else readWeights sc fileName (match orderFlag a with Some o => o | None => 0 end) in
  let msgString := if exporting then "exported to "%string else "imported from "%string in
  (snd transfer = Return (PyInt 1) ->
   doIt sc a = (fst transfer ++ transferInfo sc msgString fileName, Next tt))
  /\ (snd transfer <> Return (PyInt 1) ->
      fst (doIt sc a) = fst transfer)
  /\ (snd transfer = Raise <-> snd (doIt sc a) = Raise)
  /\ (forall v, snd (doIt sc a) <> Return v).
Proof.
  intros Hhelp Hfile Hname Hmode exporting transfer msgString.
  apply String.eqb_neq in Hname.
  assert (Hrun : doIt sc a
                 = (r <- callFunction transfer ;;
                    match r with
                    | PyInt 1 =>
                        do (displayInfo ("transferSkinCluster command took "
                                         ^^ elapsed sc ^^ " seconds")) ;;
                        do (displayInfo ("Weights " ^^ msgString ^^ ": " ^^ fileName))
                    | _ => ret tt
                    end)).
  { unfold doIt. rewrite Hhelp, Hfile, !bind_ret_l, Hname, !bind_ret_l.
    subst exporting transfer msgString.
    destruct Hmode as [-> | [-> | ->]]; cbv beta iota zeta;
      [ change ((0 <? 0) || (0 >? 1)) with false; change (0 =? 0) with true
      | change ((0 <? 0) || (0 >? 1)) with false; change (0 =? 0) with true
      | change ((1 <? 0) || (1 >? 1)) with false; change (1 =? 0) with false ];
      cbv beta iota; rewrite bind_ret_l, bind_assoc;
      destruct (callFunction _) as [t [r | v |]]; try reflexivity;
      rewrite !bind_next, bind_ret_l; reflexivity. }
  rewrite Hrun. clear Hrun.
  destruct transfer as [t [u | v |]]; cbn [callFunction fst snd].
  - rewrite bind_next. cbn [fst snd ret].
    split; [discriminate |]. split; [intros _; apply app_nil_r |].
    split; [split; discriminate | discriminate].
  - rewrite bind_next.
    assert (Hother : v <> PyInt 1 ->
                     match v with
                     | PyInt 1 =>
                         (do (displayInfo ("transferSkinCluster command took "
                                           ^^ elapsed sc ^^ " seconds")) ;;
                          do (displayInfo ("Weights " ^^ msgString ^^ ": " ^^ fileName)))
                     | _ => @ret float unit tt
                     end = ret tt).
    { intro Hv. destruct v as [n | |]; try reflexivity.
      destruct n as [| p | p]; try reflexivity.
      destruct p; try reflexivity. now contradiction Hv. }
    destruct (pyValue_eq_one v) as [-> | Hv].
    + cbn [fst snd bind do Datatypes.app]. unfold transferInfo.
      split; [reflexivity |]. split; [intro H; now contradiction H |].
      split; [split; discriminate | discriminate].
    + rewrite (Hother Hv). cbn [fst snd ret].
      split; [intro H; injection H as H; now contradiction Hv |].
      split; [intros _; apply app_nil_r |].
      split; [split; discriminate | discriminate].
  - cbn [bind fst snd].
    split; [discriminate |]. split; [reflexivity |].
    split; [split; reflexivity | discriminate].
Qed.

End Command.

(** * More of the plug-in, on concrete files *)

Module More.

Import Example Cases.

#[local] Existing Instance Literal.python.

Lemma applyWeights_weights_in_order_witness :
  flat_map appliedWeights (fst (applyWeights (Py.split Py.newline unorderedFile)))
  = [Literal.lit "0.5"; Literal.lit "0.5"; Literal.lit "1.0"].
Proof.
  exact (@applyWeights_weights_in_order Literal.python
           (Py.split Py.newline unorderedFile) unorderedRecords eq_refl).
Defined.

Lemma minus_one_reopens_the_range_witness :
  applyWeights minusOneFile
  = ([executeCommand
        (SetAttrWeights 2 3 2 None [Val (Literal.lit "0.5"); Val (Literal.lit "0.25")])],
     Next initialState).
Proof.
  exact (@minus_one_reopens_the_range Literal.python
           "A B shapeX" "skinB" "-nw 1 -mi 4 -dr 4.0"
           "[3, 'A', -1, 0.5]" "[3, 'B', 2, 0.25]" "" 3 2 "A" "B"
           (Literal.lit "0.5") (Literal.lit "0.25") eq_refl eq_refl).
Defined.

Lemma readWeights_sizes_every_vertex_witness :
  snd (readWeights (importScene skinAFile) "f" 0) = Return (PyInt 1)
  /\ flat_map sized (fst (readWeights (importScene skinAFile) "f" 0)) = [2]
  /\ Forall (fun v => v < 2)
            (flat_map writtenVertex (fst (readWeights (importScene skinAFile) "f" 0))).
Proof.
  refine (@readWeights_sizes_every_vertex Literal.python (importScene skinAFile) "f" 0
            skinAFile "J1 J2 Mesh" "skinA" "-nw 1 -mi 4 -dr 4.0"
            ["[0, 'J1', 0, 0.6]"; "[0, 'J2', 1, 0.4]"; "[1, 'J2', 1, 1.0]"]%string ""
            ["J1"; "J2"; "Mesh"]%string
            [ LineArray 0 "J1" 0 (Literal.lit "0.6");
              LineArray 0 "J2" 1 (Literal.lit "0.4");
              LineArray 1 "J2" 1 (Literal.lit "1.0") ]
            (LineArray 1 "J2" 1 (Literal.lit "1.0"))
            eq_refl eq_refl eq_refl eq_refl eq_refl eq_refl _ eq_refl).
  unfold ascending. Concrete.ascend.
Defined.

Lemma readWeights_normalization_witness :
  (snd (readWeights (importScene malformedFile) "f" 0) = Return (PyInt 1)
   /\ filter isNormalization (fst (readWeights (importScene malformedFile) "f" 0))
      = [setAttrNw "skinB" 0; setAttrNw "skinB" (nw (importScene malformedFile))])
  \/ (snd (readWeights (importScene malformedFile) "f" 0) = Raise
      /\ filter isNormalization (fst (readWeights (importScene malformedFile) "f" 0))
         = [setAttrNw "skinB" 0]).
Proof.
  exact (@readWeights_normalization Literal.python (importScene malformedFile) "f" 0
           malformedFile "A B shapeX" "skinB" "-nw 1 -mi 4 -dr 4.0"
           [ "[0, 'A', 0, 1.0]"; "[1, 'A', 0, 0.5]"; "[1, 'B', 1, 0.5";
             "[2, 'B', 1, 1.0]"; "" ]%string
           ["A"; "B"; "shapeX"]%string
           eq_refl eq_refl eq_refl eq_refl eq_refl).
Defined.

Lemma readWeights_mutates_only_after_checks_witness :
  exists data h0 h1 h2 rest objects,
    files (importScene skinAFile) "f" = Some data
    /\ Py.split Py.newline data = h0 :: h1 :: h2 :: rest
    /\ orderObjects (Py.split Py.space h0) (last (Py.split Py.space h0) ""%string) 0
       = Some objects
    /\ selectable (importScene skinAFile) objects = true
    /\ alreadyBound (importScene skinAFile) (last (Py.split Py.space h0) ""%string) = false.
Proof.
  apply (@readWeights_mutates_only_after_checks Literal.python (importScene skinAFile) "f" 0).
  apply Exists_cons_tl, Exists_cons_hd. reflexivity.
Defined.

Lemma readWeights_short_file_witness :
  readWeights (importScene "") "f" 0 = ([], Raise)
  /\ readWeights (importScene twoLineFile) "f" 0
     = ([select ["A"; "B"; "shapeX"]%string], Raise).
Proof.
  split.
  - exact (proj1 (@readWeights_short_file Literal.python (importScene "") "f" 0
                    ""%string eq_refl) ""%string eq_refl).
  - exact (proj1 (proj2 (@readWeights_short_file Literal.python (importScene twoLineFile)
                           "f" 0 twoLineFile eq_refl))
                 "A B shapeX"%string "skinB"%string ["A"; "B"; "shapeX"]%string
                 eq_refl eq_refl eq_refl eq_refl).
Defined.

Lemma export_without_weight_cannot_be_imported_witness :
  writeSingle weightless "skinA.scw" "skinA" ["J1"; "J2"]%string "Mesh"
  = ([openWrite "skinA.scw"; write "skinA.scw" weightlessFile], Next tt)
  /\ readWeights (importScene weightlessFile) "skinA.scw" 0
     = (bindingCalls (importScene weightlessFile) ["J1"; "J2"; "Mesh"]%string
                     "skinA" "-nw 1 -mi 4 -dr 4.0" "Mesh",
        Raise).
Proof.
  refine (@export_without_weight_cannot_be_imported Literal.python
            weightless (importScene weightlessFile) "skinA.scw" "skinA.scw" "skinA"
            ["J1"; "J2"]%string "Mesh" 0 ["J1"; "J2"; "Mesh"]%string
            _ eq_refl _ _ eq_refl eq_refl eq_refl eq_refl eq_refl).
  - repeat constructor.
  - intros v j w Hw _.
    destruct v as [| [| v]]; [| | destruct v; discriminate Hw];
      (destruct j as [| [| j]]; [| | destruct j; discriminate Hw]);
      vm_compute in Hw; injection Hw as <-; reflexivity.
  - vm_compute. repeat constructor.
Defined.

Lemma reverse_order_changes_only_the_selection_witness :
  exists after outcome,
    readWeights (importScene skinAFile) "f" 1
    = (select ["J2"; "J1"; "Mesh"]%string :: after, outcome)
    /\ readWeights (importScene skinAFile) "f" 0
       = (select ["J1"; "J2"; "Mesh"]%string :: after, outcome).
Proof.
  destruct (@reverse_order_changes_only_the_selection Literal.python
              (importScene skinAFile) "f" skinAFile "J1 J2 Mesh" "skinA"
              [ "-nw 1 -mi 4 -dr 4.0"; "[0, 'J1', 0, 0.6]"; "[0, 'J2', 1, 0.4]";
                "[1, 'J2', 1, 1.0]"; "" ]%string
              ["J1"; "J2"]%string "Mesh"
              eq_refl eq_refl eq_refl eq_refl eq_refl)
    as (after & outcome & Hone & Hother).
  exists after, outcome. split; [exact Hone |]. apply Hother. discriminate.
Defined.

Lemma writeWeights_not_exportable_witness :
  (exists msg,
      writeWeights unselected "skinA.scw" 0 = ([displayError msg], Return (PyInt (-1))))
  \/ (writeWeights unselected "skinA.scw" 0 = ([], Raise)
      /\ exists node, hd_error (selection unselected) = Some node
                      /\ geometry unselected node = []).
Proof.
  apply (@writeWeights_not_exportable Literal.python unselected "skinA.scw" 0).
  intros node shape (Hsel & _). discriminate Hsel.
Defined.

Lemma writeWeights_single_outcome_witness :
  writeWeights exportScene "skinA.scw" 0
  = ([select ["Mesh"%string]; openWrite "skinA.scw"; write "skinA.scw" skinAFile],
     Return (PyInt 1)).
Proof.
  refine (proj1 (@writeWeights_single_outcome Literal.python exportScene
                   "skinA.scw" "skinA" "Mesh" _) eq_refl _).
  - unfold exportable. repeat split; discriminate.
  - repeat constructor.
Defined.

Lemma writeExclusive_partial_witness :
  writeExclusive lockedJ2 "out" "skinA" ["J1"; "J2"]%string
  = ([ forceNormalizeWeights "skinA";
       makedirs "out/skinA";
       openWrite "out/skinA/J1.bsw";
       write "out/skinA/J1.bsw" (text ["0 0.6"; "1 0.0"; ""]%string);
       displayError "A file error has occurred for file: out/skinA/J2.bsw" ],
     Return (PyInt (-1))).
Proof.
  refine (@writeExclusive_partial Literal.python lockedJ2 "out" "skinA"
            ["J1"%string] "J2" [] _ _ eq_refl _).
  - repeat constructor.
  - intros name [<- | []]. reflexivity.
  - right. reflexivity.
Defined.

Lemma doIt_reports_success_witness :
  doIt exportScene (Args false None None None (Some "skinA.scw"%string))
  = ([ select ["Mesh"%string]; openWrite "skinA.scw"; write "skinA.scw" skinAFile;
       displayInfo "transferSkinCluster command took 0.01 seconds";
       displayInfo "Weights exported to : skinA.scw" ],
     Next tt).
Proof.
  refine (proj1 (@doIt_reports_success Literal.python exportScene
                   (Args false None None None (Some "skinA.scw"%string))
                   "skinA.scw" eq_refl eq_refl _ _) eq_refl).
  - discriminate.
  - now left.
Defined.

Lemma export_then_import_witness :
  writeSingle exportScene "skinA.scw" "skinA" ["J1"; "J2"]%string "Mesh"
  = ([openWrite "skinA.scw"; write "skinA.scw" skinAFile], Next tt)
  /\ readWeights (importScene skinAFile) "skinA.scw" 0
     = (bindingCalls (importScene skinAFile) ["J1"; "J2"; "Mesh"]%string
                     "skinA" "-nw 1 -mi 4 -dr 4.0" "Mesh"
          ++ [ select ["skinA"%string];
               executeCommand (SetAttrSize 2);
               executeCommand
                 (SetAttrWeights 2 0 0 (Some 1)
                    [Val (Literal.lit "0.6"); Val (Literal.lit "0.4")]);
               executeCommand (SetAttrWeights 1 1 1 None [Val (Literal.lit "1.0")]);
               setAttrNw "skinA" 1 ],
        Return (PyInt 1)).
Proof.
  refine (@export_then_import Literal.python exportScene (importScene skinAFile)
            "skinA.scw" "skinA.scw" "skinA" ["J1"; "J2"]%string "Mesh"
            (LineArray 1 "J2" 1 (Literal.lit "1.0"))
            _ eq_refl _ _ _ eq_refl eq_refl eq_refl eq_refl).
  - repeat constructor.
  - intros r Hr. vm_compute in Hr.
    destruct Hr as [<- | [<- | [<- | []]]]; reflexivity.
  - vm_compute. repeat constructor.
  - vm_compute. repeat constructor.
Defined.

End More.
